(** * MrBeamPlugin: legacy migration runner and software update information

    A shallow embedding of [octoprint_mrbeam/migrate.py] and
    [octoprint_mrbeam/software_update_information.py].

    Python values are modelled as the code uses them: version strings as
    byte strings ([string]), dictionaries read from JSON as association
    lists in iteration order, and every function that logs, touches the
    profile store, the file system, a subprocess or the network as a
    computation over an explicit world that either returns a value or
    raises a Python exception. Library calls ([StrictVersion],
    [semantic_version], [strptime], [subprocess], [requests]) are modelled
    by what they return and raise. *)

From Stdlib Require Import ZArith NArith Ascii String List Bool Lia.
From stdpp Require Import base option list gmap strings.

Local Open Scope N_scope.

(** ** Python control flow: values, exceptions and stateful computations *)

Module Py.

(** The exception classes the two source files raise, catch or let through. *)
Inductive exn : Type :=
| ValueError
| TypeError
| KeyError
| AttributeError
| OSError
| IOError
| RecursionError
| CalledProcessError (returncode : Z) (output : string)
| MaxRetryError
| HTTPError (status : Z)
| ConnectionError
| CouldNotOverwriteError
| OtherException (name : string).

Inductive result (A : Type) : Type :=
| Ret (a : A)
| Raise (e : exn).
Arguments Ret {A} a.
Arguments Raise {A} e.

(** A computation over a world [S]: side effects made before an exception
    is raised stay in the world. *)
Definition M (S A : Type) : Type := S -> result A * S.

Definition ret {S A} (a : A) : M S A := fun w => (Ret a, w).
Definition raise {S A} (e : exn) : M S A := fun w => (Raise e, w).
Definition bind {S A B} (m : M S A) (k : A -> M S B) : M S B :=
  fun w => match m w with
           | (Ret a, w') => k a w'
           | (Raise e, w') => (Raise e, w')
           end.

(** [try: m except <handler>]: the handler answers [None] for the
    exceptions its clauses do not name, which then propagate. *)
Definition try_except {S A} (m : M S A) (handler : exn -> option (M S A)) : M S A :=
  fun w => match m w with
           | (Ret a, w') => (Ret a, w')
           | (Raise e, w') =>
               match handler e with
               | Some h => h w'
               | None => (Raise e, w')
               end
           end.

Definition lift {S A} (r : result A) : M S A := fun w => (r, w).
Definition gets {S A} (f : S -> A) : M S A := fun w => (Ret (f w), w).
Definition modify {S} (f : S -> S) : M S unit := fun w => (Ret tt, f w).

(** [for x in l: body x] *)
Fixpoint for_each {S A} (l : list A) (body : A -> M S unit) : M S unit :=
  match l with
  | [] => ret tt
  | x :: l' => bind (body x) (fun _ => for_each l' body)
  end.

(** [for x in l: acc = body acc x] *)
Fixpoint fold_each {S A B} (l : list A) (acc : B) (body : B -> A -> M S B) : M S B :=
  match l with
  | [] => ret acc
  | x :: l' => bind (body acc x) (fun acc' => fold_each l' acc' body)
  end.

Inductive level : Type := DEBUG | INFO | WARNING | ERROR | EXCEPTION.

(** A log record keeps the level and the message template of the call;
    the arguments interpolated into the template are not kept. *)
Definition log_record : Type := level * string.

End Py.
Export Py.

Declare Scope py_scope.
Delimit Scope py_scope with py.
Notation "x <- m ;; k" := (Py.bind m (fun x => k))
  (at level 100, m at next level, right associativity) : py_scope.
Notation "m ;;; k" := (Py.bind m (fun _ => k))
  (at level 100, right associativity) : py_scope.

(** ** Lexicographic three-way comparison, as Python's [cmp] on tuples *)

Module Cmp.

Definition lex (c d : comparison) : comparison :=
  match c with Eq => d | _ => c end.

Definition ascii_cmp (a b : ascii) : comparison :=
  N.compare (N_of_ascii a) (N_of_ascii b).

Definition is_lt (c : comparison) : bool :=
  match c with Lt => true | _ => false end.
Definition is_gt (c : comparison) : bool :=
  match c with Gt => true | _ => false end.
Definition is_eq (c : comparison) : bool :=
  match c with Eq => true | _ => false end.

(** Python's comparison of sequences: the first difference decides, and
    a proper prefix is the smaller one. *)
Fixpoint list_cmp {A} (cmp : A -> A -> comparison) (l1 l2 : list A) : comparison :=
  match l1, l2 with
  | [], [] => Eq
  | [], _ :: _ => Lt
  | _ :: _, [] => Gt
  | x :: l1', y :: l2' => lex (cmp x y) (list_cmp cmp l1' l2')
  end.

(** What makes a three-way comparison a total preorder. *)
Record total_cmp {A} (cmp : A -> A -> comparison) : Prop := {
  cmp_opp : forall a b, cmp b a = CompOpp (cmp a b);
  cmp_eq_l : forall a b c, cmp a b = Eq -> cmp a c = cmp b c;
  cmp_lt_trans : forall a b c, cmp a b = Lt -> cmp b c = Lt -> cmp a c = Lt
}.

End Cmp.

(** ** Characters and strings *)

Module Str.

Definition is_digit (c : ascii) : bool :=
  (48 <=? N_of_ascii c) && (N_of_ascii c <=? 57).

(** [string.atoi] on a run of decimal digits. *)
Fixpoint atoi_from (acc : N) (s : string) : N :=
  match s with
  | EmptyString => acc
  | String c s' => atoi_from (acc * 10 + (N_of_ascii c - 48)) s'
  end.
Definition atoi (s : string) : N := atoi_from 0 s.

(** The longest prefix of [s] whose characters satisfy [f], and the rest. *)
Fixpoint span (f : ascii -> bool) (s : string) : string * string :=
  match s with
  | EmptyString => (EmptyString, EmptyString)
  | String c s' =>
      if f c
      then let '(d, r) := span f s' in (String c d, r)
      else (EmptyString, s)
  end.

(** The longest run of digits at the head of [s], and what follows it. *)
Definition span_digits (s : string) : string * string := span is_digit s.

Fixpoint forallb (f : ascii -> bool) (s : string) : bool :=
  match s with
  | EmptyString => true
  | String c s' => f c && forallb f s'
  end.

(** [s.isdigit()] on a byte string. *)
Definition isdigit (s : string) : bool :=
  match s with
  | EmptyString => false
  | _ => forallb is_digit s
  end.

(** [s.split(sep)] for a separator of one character. *)
Fixpoint split (sep : ascii) (s : string) : list string :=
  match s with
  | EmptyString => [EmptyString]
  | String c s' =>
      if Ascii.eqb c sep then EmptyString :: split sep s'
      else match split sep s' with
           | h :: t => String c h :: t
           | [] => [String c EmptyString]
           end
  end.

(** [sub in s] for strings. *)
Fixpoint contains (sub s : string) : bool :=
  String.prefix sub s ||
  match s with
  | EmptyString => false
  | String _ s' => contains sub s'
  end.

(** [$] without [re.MULTILINE]: the end of the string, or just before a
    newline that ends the string. *)
Definition at_end (s : string) : bool :=
  match s with
  | EmptyString => true
  | String c EmptyString => Ascii.eqb c "010"%char
  | _ => false
  end.

(** Comparison of byte strings, character by character. *)
Fixpoint cmp (a b : string) : comparison :=
  match a, b with
  | EmptyString, EmptyString => Eq
  | EmptyString, String _ _ => Lt
  | String _ _, EmptyString => Gt
  | String x a', String y b' =>
      match N.compare (N_of_ascii x) (N_of_ascii y) with
      | Eq => cmp a' b'
      | c => c
      end
  end.

End Str.

(** ** distutils.version.StrictVersion *)

Module StrictVersion.

Import Str.

(** [self.version] is the triple of numbers, [self.prerelease] the pair
    of the letter [a] or [b] and a number, or [None]. *)
Record t : Type := mk {
  version : N * N * N;
  prerelease : option (ascii * N)
}.

(** [(\d+)] *)
Definition digits1 (s : string) : option (N * string) :=
  match span_digits s with
  | (EmptyString, _) => None
  | (d, r) => Some (atoi d, r)
  end.

(** [(\. (\d+))?] *)
Definition opt_patch (s : string) : option N * string :=
  match s with
  | String "."%char r =>
      match digits1 r with
      | Some (p, r') => (Some p, r')
      | None => (None, s)
      end
  | _ => (None, s)
  end.

(** [([ab](\d+))?] *)
Definition opt_prerelease (s : string) : option (ascii * N) * string :=
  match s with
  | String c r =>
      if Ascii.eqb c "a"%char || Ascii.eqb c "b"%char
      then match digits1 r with
           | Some (n, r') => (Some (c, n), r')
           | None => (None, s)
           end
      else (None, s)
  | EmptyString => (None, s)
  end.

(** [self.parse(vstring)] with
    [version_re = ^(\d+) \. (\d+) (\. (\d+))? ([ab](\d+))?$]. Every
    quantified group is followed by a character outside its class, so
    the greedy match is the only one. *)
Definition parse (vstring : string) : result t :=
  match digits1 vstring with
  | Some (major, String "."%char r1) =>
      match digits1 r1 with
      | Some (minor, r2) =>
          let '(patch, r3) := opt_patch r2 in
          let '(pre, r4) := opt_prerelease r3 in
          if at_end r4
          then Ret {| version := (major, minor, default 0 patch);
                      prerelease := pre |}
          else Raise ValueError
      | None => Raise ValueError
      end
  | _ => Raise ValueError
  end.

Definition cmp_version (a b : N * N * N) : comparison :=
  let '(a1, a2, a3) := a in
  let '(b1, b2, b3) := b in
  Cmp.lex (a1 ?= b1) (Cmp.lex (a2 ?= b2) (a3 ?= b3)).

Definition cmp_prerelease (p q : ascii * N) : comparison :=
  Cmp.lex (Cmp.ascii_cmp (fst p) (fst q)) (snd p ?= snd q).

(** The comparison [__cmp__] makes of two parsed versions. *)
Definition cmp (self other : t) : comparison :=
  match cmp_version (version self) (version other) with
  | Eq =>
      match prerelease self, prerelease other with
      | None, None => Eq
      | Some _, None => Lt
      | None, Some _ => Gt
      | Some p, Some q => cmp_prerelease p q
      end
  | c => c
  end.

Definition lt (a b : t) : bool := Cmp.is_lt (cmp a b).
Definition gt (a b : t) : bool := Cmp.is_gt (cmp a b).
Definition eq (a b : t) : bool := Cmp.is_eq (cmp a b).

(** An instance of the class. [version] and [prerelease] are assigned by
    [parse] alone: an instance that was never parsed ([None]) has neither
    attribute. *)
Definition instance : Type := option t.

(** [StrictVersion(vstring)]: the constructor parses a string that is
    not empty ([if vstring: self.parse(vstring)]) and leaves the instance
    without attributes otherwise. *)
Definition __init__ (vstring : string) : result instance :=
  match vstring with
  | EmptyString => Ret None
  | String _ _ =>
      match parse vstring with
      | Ret v => Ret (Some v)
      | Raise e => Raise e
      end
  end.

(** [self.version] *)
Definition attributes (self : instance) : result t :=
  match self with
  | Some v => Ret v
  | None => Raise AttributeError
  end.

(** [self.__cmp__(other)], which reads [self.version] and then
    [other.version]. *)
Definition __cmp__ (self other : instance) : result comparison :=
  match attributes self with
  | Ret a =>
      match attributes other with
      | Ret b => Ret (cmp a b)
      | Raise e => Raise e
      end
  | Raise e => Raise e
  end.

(** [self < other], [self > other] and [self == other] on instances. *)
Definition compare_with (test : comparison -> bool) (self other : instance) : result bool :=
  match __cmp__ self other with
  | Ret c => Ret (test c)
  | Raise e => Raise e
  end.

Definition __lt__ : instance -> instance -> result bool := compare_with Cmp.is_lt.
Definition __gt__ : instance -> instance -> result bool := compare_with Cmp.is_gt.
Definition __eq__ : instance -> instance -> result bool := compare_with Cmp.is_eq.

End StrictVersion.

(** ** The laser cutter profile store *)

Module Profile.

(** Modelled from the spec: the hardware profile record and the profile
    manager ([octoprint_mrbeam/profile.py]) are not among the sources.
    A profile has an identifier, a display name, a model code, laser and
    dust-extraction parameters and an optional [legacy] sub-record. The
    manager keeps the saved profiles by identifier and marks exactly one
    as default; while the marked identifier has no saved profile the
    generic placeholder is the default. *)
Record t : Type := mk {
  id : string;
  name : string;
  model : string;
  laser : gmap string Z;
  dust : gmap string Z;
  legacy : option (gmap string Z)
}.

Record manager : Type := mk_manager {
  saved : gmap string t;
  default_id : string;
  generic : t
}.

Definition get_default (pm : manager) : t :=
  match saved pm !! default_id pm with
  | Some p => p
  | None => generic pm
  end.

Definition exists_ (pm : manager) (identifier : string) : bool :=
  bool_decide (is_Some (saved pm !! identifier)).

Definition set_default (pm : manager) (identifier : string) : manager :=
  if exists_ pm identifier
  then {| saved := saved pm; default_id := identifier; generic := generic pm |}
  else pm.

Definition save (pm : manager) (profile : t) (allow_overwrite make_default : bool)
  : result manager :=
  if exists_ pm (id profile) && negb allow_overwrite
  then Raise CouldNotOverwriteError
  else
    let pm' := {| saved := <[id profile := profile]> (saved pm);
                  default_id := default_id pm;
                  generic := generic pm |} in
    Ret (if make_default then set_default pm' (id profile) else pm').

Definition set_id (v : string) (p : t) : t :=
  mk v (name p) (model p) (laser p) (dust p) (legacy p).
Definition set_name (v : string) (p : t) : t :=
  mk (id p) v (model p) (laser p) (dust p) (legacy p).
Definition set_model (v : string) (p : t) : t :=
  mk (id p) (name p) v (laser p) (dust p) (legacy p).
Definition set_laser (v : gmap string Z) (p : t) : t :=
  mk (id p) (name p) (model p) v (dust p) (legacy p).
Definition set_dust (v : gmap string Z) (p : t) : t :=
  mk (id p) (name p) (model p) (laser p) v (legacy p).
Definition set_legacy (v : option (gmap string Z)) (p : t) : t :=
  mk (id p) (name p) (model p) (laser p) (dust p) v.

End Profile.

(** ** octoprint_mrbeam/migrate.py *)

Module Migrate.

Inductive entry_kind : Type := Directory | RegularFile.

(** What [subprocess.check_output] meets: a process that ran and exited,
    or a program that could not be started ([OSError]). *)
Inductive process : Type :=
| Exited (returncode : Z) (output : string)
| NotStarted.

(** The world the migration runs in. [site_packages] lists
    [/home/pi/site-packages], or is [None] when that is no directory;
    [processes] tells how a command ends after the commands in
    [executed] (latest first) have run. *)
Record World : Type := mkWorld {
  settings_version : option string;
  profiles : Profile.manager;
  site_packages : option (list (string * entry_kind));
  processes : list (list string) -> list string -> process;
  executed : list (list string);
  logged : list log_record
}.

Definition with_settings_version (v : option string) (w : World) : World :=
  mkWorld v (profiles w) (site_packages w) (processes w) (executed w) (logged w).
Definition with_profiles (pm : Profile.manager) (w : World) : World :=
  mkWorld (settings_version w) pm (site_packages w) (processes w) (executed w) (logged w).
Definition with_site_packages (d : option (list (string * entry_kind))) (w : World) : World :=
  mkWorld (settings_version w) (profiles w) d (processes w) (executed w) (logged w).
Definition with_executed (c : list (list string)) (w : World) : World :=
  mkWorld (settings_version w) (profiles w) (site_packages w) (processes w) c (logged w).
Definition with_logged (l : list log_record) (w : World) : World :=
  mkWorld (settings_version w) (profiles w) (site_packages w) (processes w) (executed w) l.

Local Open Scope py_scope.

(** [self._logger.<level>(msg, ...)]: records are appended. *)
Definition log (lvl : level) (msg : string) : M World unit :=
  modify (fun w => with_logged (logged w ++ [(lvl, msg)]) w).

(** *** The collaborators *)

Definition laserCutterProfileManager_get_default : M World Profile.t :=
  gets (fun w => Profile.get_default (profiles w)).

Definition laserCutterProfileManager_exists (profile_id : string) : M World bool :=
  gets (fun w => Profile.exists_ (profiles w) profile_id).

Definition laserCutterProfileManager_set_default (profile_id : string) : M World unit :=
  modify (fun w => with_profiles (Profile.set_default (profiles w) profile_id) w).

Definition laserCutterProfileManager_save
    (profile : Profile.t) (allow_overwrite make_default : bool) : M World unit :=
  fun w => match Profile.save (profiles w) profile allow_overwrite make_default with
           | Ret pm => (Ret tt, with_profiles pm w)
           | Raise e => (Raise e, w)
           end.

(** [shutil.rmtree] of an entry of [/home/pi/site-packages]: a directory
    goes away with all it holds; anything else is an [OSError]. *)
Definition shutil_rmtree (f : string) : M World unit :=
  fun w =>
    match site_packages w with
    | Some entries =>
        match find (fun e => String.eqb (fst e) f) entries with
        | Some (_, Directory) =>
            (Ret tt,
             with_site_packages
               (Some (List.filter (fun e => negb (String.eqb (fst e) f)) entries)) w)
        | _ => (Raise OSError, w)
        end
    | None => (Raise OSError, w)
    end.

(** [subprocess.check_output(cmd, stderr=subprocess.STDOUT)]: the
    combined output of a process that exits with 0, [CalledProcessError]
    carrying exit code and output otherwise. *)
Definition subprocess_check_output (cmd : list string) : M World string :=
  fun w =>
    let w' := with_executed (cmd :: executed w) w in
    match processes w (executed w) cmd with
    | Exited 0%Z out => (Ret out, w')
    | Exited code out => (Raise (CalledProcessError code out), w')
    | NotStarted => (Raise OSError, w)
    end.

(** *** The plugin and the migration object *)

Record Plugin : Type := mkPlugin {
  _plugin_version : string;
  _device_series : string
}.

Record Migration : Type := mkMigration {
  plugin : Plugin;
  version_previous : option string;
  version_current : string
}.

Definition VERSION_DELETE_EGG_DIR_LEFTOVERS : string := "0.1.17".
Definition VERSION_SETUP_IPTABLES : string := "0.1.19".

Definition __init__ (plugin : Plugin) : M World Migration :=
  gets (fun w => {| plugin := plugin;
                    version_previous := settings_version w;
                    version_current := _plugin_version plugin |}).

(** Truth value of a result that is [True], [False] or [None]. *)
Definition truthy (r : option bool) : bool :=
  match r with Some b => b | None => false end.

Definition is_migration_required (self : Migration) : M World (option bool) :=
  match version_previous self with
  | None => ret (Some true)
  | Some previous =>
      returned <-
        try_except
          (_ <- lift (StrictVersion.__init__ previous) ;; ret None)
          (fun e => match e with
                    | ValueError =>
                        Some (log ERROR "Previous version is invalid: '{}'. ValueError from StrictVersion: {}" ;;;
                              ret (Some None))
                    | _ => None
                    end) ;;
      match returned with
      | Some r => ret r
      | None =>
          cur <- lift (StrictVersion.__init__ (version_current self)) ;;
          prev <- lift (StrictVersion.__init__ previous) ;;
          required <- lift (StrictVersion.__gt__ cur prev) ;;
          ret (Some required)
      end
  end.

Definition _compare_versions (self : Migration)
    (lower_vers higher_vers : option string) (equal_ok : bool)
  : M World (option bool) :=
  match lower_vers, higher_vers with
  | Some lower, Some higher =>
      returned <-
        try_except
          (_ <- lift (StrictVersion.__init__ lower) ;;
           _ <- lift (StrictVersion.__init__ higher) ;;
           ret None)
          (fun e => match e with
                    | ValueError =>
                        Some (log ERROR "_compare_versions() One of the two version is invalid: lower_vers:{}, higher_vers:{}. ValueError from StrictVersion: {}" ;;;
                              ret (Some None))
                    | _ => None
                    end) ;;
      match returned with
      | Some r => ret r
      | None =>
          l <- lift (StrictVersion.__init__ lower) ;;
          h <- lift (StrictVersion.__init__ higher) ;;
          equal <- lift (StrictVersion.__eq__ l h) ;;
          if equal then ret (Some equal_ok)
          else
            l' <- lift (StrictVersion.__init__ lower) ;;
            h' <- lift (StrictVersion.__init__ higher) ;;
            less <- lift (StrictVersion.__lt__ l' h') ;;
            ret (Some less)
      end
  | _, _ => ret None
  end.

Definition save_current_version (self : Migration) : M World unit :=
  modify (with_settings_version (Some (version_current self))).

Definition migrate_from_0_0_0 (self : Migration) : M World unit :=
  log INFO "migrate_from_0_0_0() " ;;;
  my_profile <- laserCutterProfileManager_get_default ;;
  let my_profile :=
    Profile.set_laser (<["intensity_factor" := 13%Z]> (Profile.laser my_profile)) my_profile in
  log INFO "migrate_from_0_0_0() Set lasercutterProfile ['laser']['intensity_factor'] = 13" ;;;
  let my_profile :=
    Profile.set_dust (<["auto_mode_time" := 60%Z]> (Profile.dust my_profile)) my_profile in
  log INFO "migrate_from_0_0_0() Set lasercutterProfile ['dust']['auto_mode_time'] = 60" ;;;
  laserCutterProfileManager_save my_profile true true.

(** *** The egg directory pattern *)

Fixpoint strip_prefix (p s : string) : option string :=
  match p, s with
  | EmptyString, _ => Some s
  | String a p', String b s' => if Ascii.eqb a b then strip_prefix p' s' else None
  | String _ _, EmptyString => None
  end.

(** [[0-9.]] *)
Definition is_version_char (c : ascii) : bool :=
  Str.is_digit c || Ascii.eqb c "."%char.

(** [[.-].+] matches at the head of [s]: a dot or a dash, then at least
    one character that is no newline. *)
Definition suffix_matches (s : string) : bool :=
  match s with
  | String c (String d _) =>
      (Ascii.eqb c "."%char || Ascii.eqb c "-"%char) && negb (Ascii.eqb d "010"%char)
  | _ => false
  end.

(** [(?P<version>[0-9.]+)[.-].+] at the head of [s]: the greedy group
    takes the longest run of version characters after which the rest of
    the pattern still matches, giving characters back one at a time. *)
Fixpoint version_group (s : string) : option string :=
  match s with
  | EmptyString => None
  | String c rest =>
      if is_version_char c then
        match version_group rest with
        | Some v => Some (String c v)
        | None => if suffix_matches rest then Some (String c EmptyString) else None
        end
      else None
  end.

(** [re.match(r'Mr_Beam-(?P<version>[0-9.]+)[.-].+', f)] and, on a
    match, [match.group('version')]. *)
Definition re_match_version (f : string) : option string :=
  match strip_prefix "Mr_Beam-" f with
  | Some rest => version_group rest
  | None => None
  end.

(** *** The migrations *)

Definition delete_egg_dir_leftovers (self : Migration) : M World unit :=
  log INFO "delete_egg_dir_leftovers() " ;;;
  site_packages_dir <- gets site_packages ;;
  match site_packages_dir with
  | Some entries =>
      for_each (map fst entries) (fun f =>
        match re_match_version f with
        | Some version =>
            older <- _compare_versions self (Some version)
                       (Some VERSION_DELETE_EGG_DIR_LEFTOVERS) false ;;
            if truthy older then
              log INFO "delete_egg_dir_leftovers() Deleting dir: %s" ;;;
              shutil_rmtree f
            else ret tt
        | None => ret tt
        end)
  | None =>
      log ERROR "delete_egg_dir_leftovers() Dir not existing '%s', Can't check for egg leftovers."
  end.

(** The test the loop of [delete_egg_dir_leftovers] makes on an entry,
    without its logging: the name matches the pattern and the version it
    carries is a strict version below the threshold. *)
Definition is_leftover (f : string) : bool :=
  match re_match_version f with
  | Some version =>
      match StrictVersion.parse version,
            StrictVersion.parse VERSION_DELETE_EGG_DIR_LEFTOVERS with
      | Ret l, Ret h => if StrictVersion.eq l h then false else StrictVersion.lt l h
      | _, _ => false
      end
  | None => false
  end.

Definition _exec_cmd_output (self : Migration) (cmd : list string) : M World (string * Z) :=
  log DEBUG "_exec_cmd_output() command: '%s'" ;;;
  try_except
    (output <- subprocess_check_output cmd ;; ret (output, 0%Z))
    (fun e => match e with
              | CalledProcessError returncode output =>
                  Some (log DEBUG "Fail to execute command '%s', return code: %s, output: '%s'" ;;;
                        ret (output, returncode))
              | _ => None
              end).

Definition iptables_file : string := "/etc/network/if-up.d/iptables".
Definition iptables_body : string :=
"#!/bin/sh
iptables -t nat -F
# route all incoming traffic to localhost
sysctl -w net.ipv4.conf.all.route_localnet=1
iptables -t nat -I PREROUTING -p tcp --dport 80 -j DNAT --to 127.0.0.1:80
".

Definition setup_iptables (self : Migration) : M World unit :=
  log INFO "setup_iptables() " ;;;
  let command :=
    ["sudo"; "bash"; "-c"; "echo '" +:+ iptables_body +:+ "' > " +:+ iptables_file] in
  r <- _exec_cmd_output self command ;;
  let '(out, code) := r in
  if negb (Z.eqb code 0) then
    log ERROR "setup_iptables() Error while writing iptables conf: '%s'"
  else
    let command := ["sudo"; "chmod"; "+x"; iptables_file] in
    r <- _exec_cmd_output self command ;;
    let '(out, code) := r in
    if negb (Z.eqb code 0) then
      log ERROR "setup_iptables() Error while chmod iptables conf: '%s'"
    else
      let command := ["sudo"; "bash"; "-c"; iptables_file] in
      r <- _exec_cmd_output self command ;;
      let '(out, code) := r in
      if negb (Z.eqb code 0) then
        log ERROR "setup_iptables() Error while executing iptables conf: '%s'"
      else
        log INFO "setup_iptables() Created and loaded iptables conf: '%s'".

(** *** lasercutterProfiles *)

Definition is_lasercutterProfile_set (self : Migration) : M World bool :=
  default_profile <- laserCutterProfileManager_get_default ;;
  ret (negb (String.eqb (Profile.id default_profile) "my_default")).

Definition set_lasercutterPorfile_2all (self : Migration) : M World unit :=
  let profile_id := "MrBeam" +:+ _device_series (plugin self) in
  found <- laserCutterProfileManager_exists profile_id ;;
  if found then
    laserCutterProfileManager_set_default profile_id ;;;
    log INFO "set_lasercutterPorfile_2all() Set lasercutterProfile '%s' as default."
  else
    log WARNING "set_lasercutterPorfile_2all() No lasercutterProfile '%s' found. Keep using generic profile.".

Definition set_lasercutterPorfile_2C (self : Migration) : M World unit :=
  let profile_id := "MrBeam2C" in
  let model := "C" in
  found <- laserCutterProfileManager_exists profile_id ;;
  if found then
    laserCutterProfileManager_set_default profile_id ;;;
    log INFO "set_lasercutterPorfile_2C() Set lasercutterProfile '%s' as default."
  else
    default_profile <- laserCutterProfileManager_get_default ;;
    let default_profile := Profile.set_id profile_id default_profile in
    let default_profile := Profile.set_name "MrBeam2" default_profile in
    let default_profile := Profile.set_model model default_profile in
    let default_profile := Profile.set_legacy (Some ∅) default_profile in
    let default_profile :=
      Profile.set_legacy
        (option_map (insert "job_done_home_position_x" 250%Z) (Profile.legacy default_profile))
        default_profile in
    laserCutterProfileManager_save default_profile true true ;;;
    log INFO "set_lasercutterPorfile_2C() Created lasercutterProfile '%s' and set as default. Content: %s".

Definition set_lasercutterPorfile_2D (self : Migration) : M World unit :=
  let profile_id := "MrBeam2D" in
  let model := "D" in
  found <- laserCutterProfileManager_exists profile_id ;;
  if found then
    laserCutterProfileManager_set_default profile_id ;;;
    log INFO "set_lasercutterPorfile_2D() Set lasercutterProfile '%s' as default."
  else
    default_profile <- laserCutterProfileManager_get_default ;;
    let default_profile := Profile.set_id profile_id default_profile in
    let default_profile := Profile.set_name "MrBeam2" default_profile in
    let default_profile := Profile.set_model model default_profile in
    laserCutterProfileManager_save default_profile true true ;;;
    log INFO "set_lasercutterPorfile_2D() Created lasercutterProfile '%s' and set as default. Content: %s".

Definition set_lasercutterProfile (self : Migration) : M World unit :=
  default_profile <- laserCutterProfileManager_get_default ;;
  if String.eqb (Profile.id default_profile) "my_default" then
    log INFO "set_lasercutterPorfile() Setting lasercutterProfile for device '%s'" ;;;
    if String.eqb (_device_series (plugin self)) "2X" then
      log ERROR "set_lasercutterProfile() Can't set lasercutterProfile. device_series is %s: "
    else
      (if String.eqb (_device_series (plugin self)) "2C" then set_lasercutterPorfile_2C self
       else if String.eqb (_device_series (plugin self)) "2D" then set_lasercutterPorfile_2D self
       else set_lasercutterPorfile_2all self) ;;;
      save_current_version self
  else ret tt.

(** *** The runner *)

(** [self.version_previous is None or
     self._compare_versions(self.version_previous, threshold, equal_ok=False)] *)
Definition previous_older_than (self : Migration) (threshold : string) : M World bool :=
  match version_previous self with
  | None => ret true
  | Some _ =>
      r <- _compare_versions self (version_previous self) (Some threshold) false ;;
      ret (truthy r)
  end.

Definition run (self : Migration) : M World unit :=
  try_except
    (profile_set <- is_lasercutterProfile_set self ;;
     (if negb profile_set then set_lasercutterProfile self else ret tt) ;;;
     required <- is_migration_required self ;;
     if truthy required then
       log INFO "Starting migration from v{} to v{}" ;;;
       older <- previous_older_than self "0.1.13" ;;
       (if older then migrate_from_0_0_0 self else ret tt) ;;;
       older <- previous_older_than self VERSION_DELETE_EGG_DIR_LEFTOVERS ;;
       (if older then delete_egg_dir_leftovers self else ret tt) ;;;
       older <- previous_older_than self VERSION_SETUP_IPTABLES ;;
       (if older then setup_iptables self else ret tt) ;;;
       save_current_version self
     else
       log DEBUG "No migration required.")
    (fun _ => Some (log EXCEPTION "Unhandled exception during migration: ")).

Definition migrate (plugin : Plugin) : M World unit :=
  self <- __init__ plugin ;;
  run self.

End Migrate.

(** ** semantic_version: versions, precedence and the [<] range *)

Module SemVer.

Import Str.

Record Version : Type := mkVersion {
  major : N;
  minor : N;
  patch : N;
  prerelease : list string;
  build : list string
}.

Definition is_alnum (c : ascii) : bool :=
  let n := N_of_ascii c in
  is_digit c || ((65 <=? n) && (n <=? 90)) || ((97 <=? n) && (n <=? 122)).

(** [[0-9a-zA-Z.-]] *)
Definition is_identifier_char (c : ascii) : bool :=
  is_alnum c || Ascii.eqb c "."%char || Ascii.eqb c "-"%char.

(** [(?:<sep>([0-9a-zA-Z.-]+))?] *)
Definition opt_group (sep : ascii) (s : string) : option string * string :=
  match s with
  | String c r =>
      if Ascii.eqb c sep then
        match span is_identifier_char r with
        | (EmptyString, _) => (None, s)
        | (g, r') => (Some g, r')
        end
      else (None, s)
  | EmptyString => (None, s)
  end.

Definition _has_leading_zero (value : string) : bool :=
  match value with
  | String "0"%char (String _ _) => isdigit value
  | _ => false
  end.

Definition _validate_identifiers (identifiers : list string) (allow_leading_zeroes : bool)
  : bool :=
  List.forallb
    (fun item =>
       match item with
       | EmptyString => false
       | _ => negb (_has_leading_zero item && negb allow_leading_zeroes)
       end)
    identifiers.

Definition identifiers_of (group : option string) : list string :=
  match group with
  | Some g => split "."%char g
  | None => []
  end.

(** [Version(version_string)] with
    [version_re = ^(\d+)\.(\d+)\.(\d+)(?:-([0-9a-zA-Z.-]+))?(?:\+([0-9a-zA-Z.-]+))?$]. *)
Definition parse (version_string : string) : result Version :=
  match span_digits version_string with
  | (String _ _ as major, String "."%char r1) =>
      match span_digits r1 with
      | (String _ _ as minor, String "."%char r2) =>
          match span_digits r2 with
          | (String _ _ as patch, r3) =>
              let '(prerelease, r4) := opt_group "-"%char r3 in
              let '(build, r5) := opt_group "+"%char r4 in
              if negb (at_end r5) then Raise ValueError
              else if _has_leading_zero major || _has_leading_zero minor
                      || _has_leading_zero patch then Raise ValueError
              else if negb (_validate_identifiers (identifiers_of prerelease) false)
              then Raise ValueError
              else if negb (_validate_identifiers (identifiers_of build) true)
              then Raise ValueError
              else Ret {| major := atoi major; minor := atoi minor; patch := atoi patch;
                          prerelease := identifiers_of prerelease;
                          build := identifiers_of build |}
          | _ => Raise ValueError
          end
      | _ => Raise ValueError
      end
  | _ => Raise ValueError
  end.

(** The identifiers of a precedence key: numeric ones sort before
    alphanumeric ones, and [MaxIdentifier] stands for no prerelease. *)
Inductive identifier : Type :=
| NumericIdentifier (n : N)
| AlphaIdentifier (s : string)
| MaxIdentifier.

Definition identifier_of (part : string) : identifier :=
  if isdigit part then NumericIdentifier (atoi part) else AlphaIdentifier part.

Definition identifier_cmp (a b : identifier) : comparison :=
  match a, b with
  | NumericIdentifier x, NumericIdentifier y => N.compare x y
  | NumericIdentifier _, _ => Lt
  | AlphaIdentifier _, NumericIdentifier _ => Gt
  | AlphaIdentifier x, AlphaIdentifier y => Str.cmp x y
  | AlphaIdentifier _, MaxIdentifier => Lt
  | MaxIdentifier, MaxIdentifier => Eq
  | MaxIdentifier, _ => Gt
  end.

Definition prerelease_key (v : Version) : list identifier :=
  match prerelease v with
  | [] => [MaxIdentifier]
  | parts => map identifier_of parts
  end.

(** Comparison of the precedence keys
    [(major, minor, patch, prerelease_key)]; the build is no part of it. *)
Definition cmp (a b : Version) : comparison :=
  Cmp.lex (N.compare (major a) (major b))
    (Cmp.lex (N.compare (minor a) (minor b))
       (Cmp.lex (N.compare (patch a) (patch b))
          (Cmp.list_cmp identifier_cmp (prerelease_key a) (prerelease_key b)))).

Definition lt (a b : Version) : bool := Cmp.is_lt (cmp a b).
Definition gt (a b : Version) : bool := Cmp.is_gt (cmp a b).

(** [version.truncate()]: major, minor and patch only. *)
Definition truncate (v : Version) : N * N * N := (major v, minor v, patch v).

Definition same_triple (a b : N * N * N) : bool :=
  let '(a1, a2, a3) := a in
  let '(b1, b2, b3) := b in
  (a1 =? b1) && (a2 =? b2) && (a3 =? b3).

(** [Spec("<" + str(target))] matching one version: the build is
    dropped, a prerelease of the target's own triple is left out when the
    target has no prerelease, and the rest is plain [version < target]. *)
Definition match_lt (target version : Version) : bool :=
  let version := mkVersion (major version) (minor version) (patch version)
                   (prerelease version) [] in
  match prerelease version, prerelease target with
  | _ :: _, [] =>
      if same_triple (truncate version) (truncate target) then false
      else lt version target
  | _, _ => lt version target
  end.

(** Python's [max]: the first of the greatest elements. *)
Definition max_from (first : Version) (rest : list Version) : Version :=
  fold_left (fun best v => if gt v best then v else best) rest first.

(** [spec.select(versions)]: the best of the matching versions, or
    [None] when none matches. *)
Definition select_lt (target : Version) (versions : list Version) : option Version :=
  match List.filter (match_lt target) versions with
  | [] => None
  | first :: rest => Some (max_from first rest)
  end.

End SemVer.

(** ** Python values read from JSON and YAML documents *)

Module Value.

#[local] Set Warnings "-register-all".

(** A dictionary is the list of its items in iteration order. *)
Inductive t : Type :=
| PNone
| PBool (b : bool)
| PInt (z : Z)
| PStr (s : string)
| PList (l : list t)
| PDict (d : list (string * t)).

Fixpoint assoc_get {V} (k : string) (d : list (string * V)) : option V :=
  match d with
  | [] => None
  | (k', v) :: d' => if String.eqb k' k then Some v else assoc_get k d'
  end.

Definition has_key {V} (k : string) (d : list (string * V)) : bool :=
  match assoc_get k d with Some _ => true | None => false end.

(** [d[k] = v]: an existing key keeps its place, a new one goes last. *)
Fixpoint assoc_set {V} (k : string) (v : V) (d : list (string * V)) : list (string * V) :=
  match d with
  | [] => [(k, v)]
  | (k', v') :: d' =>
      if String.eqb k' k then (k, v) :: d' else (k', v') :: assoc_set k v d'
  end.

Definition assoc_del {V} (k : string) (d : list (string * V)) : list (string * V) :=
  List.filter (fun kv => negb (String.eqb (fst kv) k)) d.

(** [bool(v)] *)
Definition truthy (v : t) : bool :=
  match v with
  | PNone => false
  | PBool b => b
  | PInt z => negb (Z.eqb z 0)
  | PStr s => negb (String.eqb s EmptyString)
  | PList l => match l with [] => false | _ => true end
  | PDict d => match d with [] => false | _ => true end
  end.

Definition is_str (key : string) (v : t) : bool :=
  match v with PStr s => String.eqb s key | _ => false end.

(** [key in container] for a string [key] *)
Definition contains (key : string) (container : t) : result bool :=
  match container with
  | PDict d => Ret (has_key key d)
  | PStr s => Ret (Str.contains key s)
  | PList l => Ret (existsb (is_str key) l)
  | _ => Raise TypeError
  end.

(** [container[key]] for a string [key] *)
Definition getitem (container : t) (key : string) : result t :=
  match container with
  | PDict d =>
      match assoc_get key d with
      | Some v => Ret v
      | None => Raise KeyError
      end
  | _ => Raise TypeError
  end.

(** [container[key] = v] for a string [key] *)
Definition setitem (container : t) (key : string) (v : t) : result t :=
  match container with
  | PDict d => Ret (PDict (assoc_set key v d))
  | _ => Raise TypeError
  end.

(** [container.get(key, None)] *)
Definition get (container : t) (key : string) : result t :=
  match container with
  | PDict d => Ret (default PNone (assoc_get key d))
  | _ => Raise AttributeError
  end.

(** [container.items()] *)
Definition items (container : t) : result (list (string * t)) :=
  match container with
  | PDict d => Ret d
  | _ => Raise AttributeError
  end.

Definition of_option (o : option t) : t := default PNone o.

(** Modelled from the spec: [dict_merge] of [octoprint_mrbeam.util] is
    not among the sources. It merges two mapping trees: where both hold
    a mapping under a key the two are merged recursively, and in every
    other combination the second argument wins. Keys of the first
    mapping keep their place; keys only the second has follow in its
    order. *)
Fixpoint dict_merge (a b : t) {struct a} : t :=
  match a, b with
  | PDict da, PDict db =>
      PDict
        ((fix merge_items (items : list (string * t)) : list (string * t) :=
            match items with
            | [] => []
            | (k, va) :: items' =>
                (k, match assoc_get k db with
                    | Some vb => dict_merge va vb
                    | None => va
                    end) :: merge_items items'
            end) da
         ++ List.filter (fun kv => negb (has_key (fst kv) da)) db)
  | _, _ => b
  end.

End Value.

(** ** datetime.date and [datetime.strptime(_, "%Y-%m-%d")] *)

Module Date.

Import Str.

Record t : Type := mk { year : N; month : N; day : N }.

Definition cmp (a b : t) : comparison :=
  Cmp.lex (N.compare (year a) (year b))
    (Cmp.lex (N.compare (month a) (month b)) (N.compare (day a) (day b))).

Definition lt (a b : t) : bool := Cmp.is_lt (cmp a b).
Definition ge (a b : t) : bool := negb (Cmp.is_lt (cmp a b)).

Definition is_leap (y : N) : bool :=
  ((y mod 4 =? 0) && negb (y mod 100 =? 0)) || (y mod 400 =? 0).

Definition days_in_month (y m : N) : N :=
  if m =? 2 then (if is_leap y then 29 else 28)
  else if (m =? 4) || (m =? 6) || (m =? 9) || (m =? 11) then 30
  else 31.

Definition digit_value (c : ascii) : N := N_of_ascii c - 48.
Definition in_range (lo hi : ascii) (c : ascii) : bool :=
  (N_of_ascii lo <=? N_of_ascii c) && (N_of_ascii c <=? N_of_ascii hi).

(** [%Y]: [\d\d\d\d] *)
Definition directive_Y (s : string) : option (N * string) :=
  match s with
  | String a (String b (String c (String d r))) =>
      if is_digit a && is_digit b && is_digit c && is_digit d
      then Some (atoi (String a (String b (String c (String d EmptyString)))), r)
      else None
  | _ => None
  end.

(** [%m]: [1[0-2]|0[1-9]|[1-9]], the alternatives tried in this order
    with the dash required after them. *)
Definition directive_m_dash (s : string) : option (N * string) :=
  match s with
  | String a (String b (String "-"%char r)) =>
      if (Ascii.eqb a "1"%char && in_range "0" "2" b)
         || (Ascii.eqb a "0"%char && in_range "1" "9" b)
      then Some (10 * digit_value a + digit_value b, r)
      else None
  | String a (String "-"%char r) =>
      if in_range "1" "9" a then Some (digit_value a, r) else None
  | _ => None
  end.

(** [%d]: [3[0-1]|[1-2]\d|0[1-9]|[1-9]| [1-9]], the first alternative
    that matches. *)
Definition directive_d (s : string) : option (N * string) :=
  match s with
  | String a r =>
      match r with
      | String b r' =>
          if (Ascii.eqb a "3"%char && in_range "0" "1" b)
             || (in_range "1" "2" a && is_digit b)
             || (Ascii.eqb a "0"%char && in_range "1" "9" b)
          then Some (10 * digit_value a + digit_value b, r')
          else if in_range "1" "9" a then Some (digit_value a, r)
          else if Ascii.eqb a " "%char && in_range "1" "9" b then Some (digit_value b, r')
          else None
      | EmptyString => if in_range "1" "9" a then Some (digit_value a, r) else None
      end
  | EmptyString => None
  end.

(** [datetime.strptime(date_string, "%Y-%m-%d").date()]: the whole
    string has to be used up and the date has to exist. *)
Definition strptime (date_string : string) : result t :=
  match directive_Y date_string with
  | Some (y, String "-"%char r1) =>
      match directive_m_dash r1 with
      | Some (m, r2) =>
          match directive_d r2 with
          | Some (d, EmptyString) =>
              if (1 <=? y) && (d <=? days_in_month y m)
              then Ret {| year := y; month := m; day := d |}
              else Raise ValueError
          | _ => Raise ValueError
          end
      | None => Raise ValueError
      end
  | _ => Raise ValueError
  end.

End Date.

(** ** octoprint_mrbeam/software_update_information.py *)

Module SoftwareUpdate.

Import Value.
Local Open Scope py_scope.

Inductive SWUpdateTier : Type := STABLE | BETA | ALPHA | DEV.

Definition value (tier : SWUpdateTier) : string :=
  match tier with
  | STABLE => "PROD"
  | BETA => "BETA"
  | ALPHA => "ALPHA"
  | DEV => "DEV"
  end.

Definition SW_UPDATE_TIERS_DEV : list string := [value ALPHA; value DEV].
Definition SW_UPDATE_TIERS_PROD : list string := [value STABLE; value BETA].
Definition SW_UPDATE_TIERS : list string := SW_UPDATE_TIERS_DEV ++ SW_UPDATE_TIERS_PROD.

Definition DEFAULT_REPO_BRANCH_ID : list (string * string) :=
  [(value STABLE, "stable"); (value BETA, "beta");
   (value ALPHA, "alpha"); (value DEV, "develop")].
Definition MAJOR_VERSION_CLOUD_CONFIG : N := 0.
Definition SW_UPDATE_INFO_FILE_NAME : string := "update_info.json".
Definition GLOBAL_PIP_BIN : string := "/usr/local/bin/pip".

Definition in_list (s : string) (l : list string) : bool := existsb (String.eqb s) l.

(** What [requests] hands back: a response with a status, or an
    exception raised by the session. *)
Record Response : Type := mkResponse { status_code : Z; text : string }.

Inductive request_outcome : Type :=
| Responded (response : Response)
| RequestFailed (e : exn).

(** The libraries and services the module calls and the sources do not
    hold. [write_file] stands for the whole [with] block of the write,
    [open(path, "w")], [json.dumps] and [f.write] together, and answers
    the exception raised, if any. *)
Class Environment : Type := {
  session_request : string -> request_outcome;
  json_loads : string -> result Value.t;
  load_repo_file : string -> string -> SemVer.Version -> result Value.t;
  str_format : string -> string -> string -> result string;
  get_version_of_pip_module : Value.t -> Value.t -> result (option string);
  os_path_isfile : string -> bool;
  write_file : string -> Value.t -> option exn;
  recursion_limit : nat
}.

(** What the module reads from the plugin object. [get_plugin_info]
    answers [None] for an unknown plugin and the plugin's version
    otherwise. *)
Record Plugin : Type := mkPlugin {
  software_tier : string;
  get_beamos_version : string * Date.t;
  check_immediately : bool;
  get_plugin_info : string -> option (option string);
  _basefolder : string;
  getBaseFolder_base : string
}.

(** [written] lists the writes that went through, latest first. It is
    no image of the disk: a write that fails after [open(path, "w")] has
    truncated or created the file leaves no entry. *)
Record World : Type := mkWorld {
  logged : list log_record;
  notifications : list string;
  written : list (string * Value.t);
  version_cache_dirty : bool
}.

Definition log (lvl : level) (msg : string) : M World unit :=
  modify (fun w => mkWorld (logged w ++ [(lvl, msg)]) (notifications w)
                     (written w) (version_cache_dirty w)).

(** [user_notification_system.show_notifications(
      user_notification_system.get_notification(notification_id, replay=False))] *)
Definition show_notification (notification_id : string) : M World unit :=
  modify (fun w => mkWorld (logged w) (notifications w ++ [notification_id])
                     (written w) (version_cache_dirty w)).

Definition _clear_version_cache : M World unit :=
  modify (fun w => mkWorld (logged w) (notifications w) (written w) true).

(** [os.path.join] of two components. *)
Definition os_path_join (a b : string) : string :=
  if String.prefix "/" b then b
  else if String.eqb a EmptyString then b
  else if String.eqb (String.substring (String.length a - 1) 1 a) "/" then a +:+ b
  else a +:+ "/" +:+ b.

Section WithEnvironment.

Context {env : Environment}.

Definition GLOBAL_PIP_COMMAND : Value.t :=
  if os_path_isfile GLOBAL_PIP_BIN then PStr ("sudo " +:+ GLOBAL_PIP_BIN) else PNone.

(** [response.raise_for_status()] *)
Definition raise_for_status (response : Response) : M World unit :=
  if ((400 <=? status_code response) && (status_code response <? 600))%Z
  then raise (HTTPError (status_code response))
  else ret tt.

(** [bool(response)] is [response.ok]. *)
Definition response_ok (response : Response) : bool :=
  negb ((400 <=? status_code response) && (status_code response <? 600))%Z.

(** [s.request("GET", url, headers=headers, timeout=3)] *)
Definition request (url : string) : M World Response :=
  match session_request url with
  | Responded response => ret response
  | RequestFailed e => raise e
  end.

(** [for x in v] *)
Definition iterate (v : Value.t) : result (list Value.t) :=
  match v with
  | PList l => Ret l
  | PDict d => Ret (map (fun kv => PStr (fst kv)) d)
  | PStr s => Ret (map (fun c => PStr (String c EmptyString)) (list_ascii_of_string s))
  | _ => Raise TypeError
  end.

(** [semantic_version.Version(version.get("name")[1:])] *)
Definition tag_version (version : Value.t) : result SemVer.Version :=
  match Value.get version "name" with
  | Ret (PStr name) => SemVer.parse (String.substring 1 (String.length name - 1) name)
  | Ret _ => Raise TypeError
  | Raise e => Raise e
  end.

(** A list comprehension: the first exception ends it. *)
Fixpoint comprehension {A B} (f : A -> result B) (l : list A) : result (list B) :=
  match l with
  | [] => Ret []
  | x :: l' =>
      match f x with
      | Ret y =>
          match comprehension f l' with
          | Ret ys => Ret (y :: ys)
          | Raise e => Raise e
          end
      | Raise e => Raise e
      end
  end.

(** [Spec("<{}.0.0".format(str(MAJOR_VERSION_CLOUD_CONFIG + 1)))] *)
Definition majorversion : SemVer.Version :=
  SemVer.mkVersion (MAJOR_VERSION_CLOUD_CONFIG + 1) 0 0 [] [].

Definition get_tag_of_github_repo (repo : string) : M World (option SemVer.Version) :=
  try_except
    (let url := "https://api.github.com/repos/mrbeam/" +:+ repo +:+ "/tags" in
     response <- request url ;;
     raise_for_status response ;;;
     if response_ok response then
       json_data <- lift (json_loads (text response)) ;;
       tags <- lift (iterate json_data) ;;
       versionlist <- lift (comprehension tag_version tags) ;;
       ret (SemVer.select_lt majorversion versionlist)
     else
       log WARNING "no valid response for the tag of the update_config file {}" ;;;
       ret None)
    (fun e => match e with
              | MaxRetryError =>
                  Some (log WARNING "timeout while trying to get the tag of the update_config file" ;;;
                        ret None)
              | HTTPError _ =>
                  Some (log WARNING "server error {}" ;;; ret None)
              | ConnectionError =>
                  Some (log WARNING "connection error while trying to get the tag of the update_config file" ;;;
                        ret None)
              | _ => None
              end).

Definition _get_tier_by_id (tier : string) : string :=
  default tier (assoc_get tier DEFAULT_REPO_BRANCH_ID).

Definition pop_list : list string :=
  ["alpha"; "beta"; "stable"; "develop"; "beamos_date"; "name"].

Definition unhashable (v : Value.t) : bool :=
  match v with PList _ | PDict _ => true | _ => false end.

(** [for key in set(update_config).intersection(pop_list):
       del update_config[key]]. A string has no character that is a
    whole entry of [pop_list]; a list cannot be built into a set when
    it holds a list or a dictionary and has no string index. *)
Definition _clean_update_config (update_config : Value.t) : result Value.t :=
  match update_config with
  | PDict d => Ret (PDict (List.filter (fun kv => negb (in_list (fst kv) pop_list)) d))
  | PStr _ => Ret update_config
  | PList l =>
      if existsb unhashable l then Raise TypeError
      else if existsb (fun key => existsb (is_str key) l) pop_list then Raise TypeError
      else Ret update_config
  | _ => Raise TypeError
  end.

Definition _generate_config_of_beamos
    (moduleconfig : Value.t) (beamos_date : Date.t) (tierversion : string)
  : M World Value.t :=
  log DEBUG "generate config of beamos {}" ;;;
  has_dates <- lift (contains "beamos_date" moduleconfig) ;;
  if negb has_dates then ret (PDict [])
  else
    dates <- lift (getitem moduleconfig "beamos_date") ;;
    entries <- lift (items dates) ;;
    state <-
      fold_each entries (PDict [], Date.mk 2000 1 1)
        (fun '(beamos_date_config, prev_beamos_date_entry) '(date, beamos_config) =>
           entry_date <- lift (Date.strptime date) ;;
           if Date.ge beamos_date entry_date
              && Date.lt prev_beamos_date_entry beamos_date
           then
             prev_beamos_date_entry <- lift (Date.strptime date) ;;
             has_tier <- lift (contains tierversion beamos_config) ;;
             beamos_config <-
               (if has_tier then
                  beamos_config_module_tier <- lift (getitem beamos_config tierversion) ;;
                  ret (dict_merge beamos_config beamos_config_module_tier)
                else ret beamos_config) ;;
             ret (dict_merge beamos_date_config beamos_config, prev_beamos_date_entry)
           else ret (beamos_date_config, prev_beamos_date_entry)) ;;
    log DEBUG "generate config of beamos {}" ;;;
    ret (fst state).

(** Returns the version together with the module configuration, which
    the Python function updates in place. *)
Definition _get_curent_version
    (input_moduleconfig : Value.t) (module_id : string) (plugin : Plugin)
  : M World (option string * Value.t) :=
  has_global <- lift (contains "global_pip_command" input_moduleconfig) ;;
  has_pip <- (if has_global then lift (contains "pip_command" input_moduleconfig)
              else ret true) ;;
  input_moduleconfig <-
    (if has_global && negb has_pip
     then lift (setitem input_moduleconfig "pip_command" GLOBAL_PIP_COMMAND)
     else ret input_moduleconfig) ;;
  has_pip <- lift (contains "pip_command" input_moduleconfig) ;;
  if has_pip then
    pip_command <- lift (getitem input_moduleconfig "pip_command") ;;
    has_package <- lift (contains "package_name" input_moduleconfig) ;;
    package_name <- (if has_package then lift (getitem input_moduleconfig "package_name")
                     else ret (PStr module_id)) ;;
    log DEBUG "get version {package_name} {pip_command}" ;;;
    current_version_global_pip <- lift (get_version_of_pip_module package_name pip_command) ;;
    ret (current_version_global_pip, input_moduleconfig)
  else
    match get_plugin_info plugin module_id with
    | Some version => ret (version, input_moduleconfig)
    | None => ret (None, input_moduleconfig)
    end.

(** [value.format(key=arg)] on a value of the configuration. *)
Definition format_value (v : Value.t) (key arg : string) : result Value.t :=
  match v with
  | PStr s =>
      match str_format s key arg with
      | Ret s' => Ret (PStr s')
      | Raise e => Raise e
      end
  | _ => Raise AttributeError
  end.

(** One frame of [_generate_config_of_module]; [depth] frames are
    left before Python gives up with its recursion error. *)
Fixpoint _generate_config_of_module_at (depth : nat)
    (module_id : string) (input_moduleconfig defaultsettings : Value.t)
    (tier : string) (beamos_date : Date.t) (plugin : Plugin)
  : M World (option Value.t) :=
  match depth with
  | O => raise RecursionError
  | S depth' =>
      if in_list tier SW_UPDATE_TIERS then
        let input_moduleconfig := dict_merge defaultsettings input_moduleconfig in
        let tierversion := _get_tier_by_id tier in
        has_tier <- lift (contains tierversion input_moduleconfig) ;;
        input_moduleconfig <-
          (if has_tier then
             tier_config <- lift (getitem input_moduleconfig tierversion) ;;
             ret (dict_merge input_moduleconfig tier_config)
           else ret input_moduleconfig) ;;
        beamos_config <- _generate_config_of_beamos input_moduleconfig beamos_date tierversion ;;
        let input_moduleconfig := dict_merge input_moduleconfig beamos_config in
        has_branch <- lift (contains "branch" input_moduleconfig) ;;
        input_moduleconfig <-
          (if has_branch then
             branch <- lift (getitem input_moduleconfig "branch") ;;
             has_placeholder <- lift (contains "{tier}" branch) ;;
             if has_placeholder then
               branch <- lift (format_value branch "tier" (_get_tier_by_id tier)) ;;
               lift (setitem input_moduleconfig "branch" branch)
             else ret input_moduleconfig
           else ret input_moduleconfig) ;;
        has_script <- lift (contains "update_script" input_moduleconfig) ;;
        input_moduleconfig <-
          (if has_script && String.eqb module_id "mrbeam" then
             let update_script :=
               os_path_join (os_path_join (_basefolder plugin) "scripts") "update_script.py" in
             script <- lift (getitem input_moduleconfig "update_script") ;;
             script <- lift (format_value script "update_script" update_script) ;;
             lift (setitem input_moduleconfig "update_script" script)
           else ret input_moduleconfig) ;;
        r <- _get_curent_version input_moduleconfig module_id plugin ;;
        let '(current_version, input_moduleconfig) := r in
        input_moduleconfig <-
          (if negb (String.eqb module_id "octoprint") then
             log DEBUG "{module_id} current version: {current_version}" ;;;
             lift (setitem input_moduleconfig "displayVersion"
                     (match current_version with
                      | Some v => if String.eqb v EmptyString then PStr "-" else PStr v
                      | None => PStr "-"
                      end))
           else ret input_moduleconfig) ;;
        has_name <- lift (contains "name" input_moduleconfig) ;;
        input_moduleconfig <-
          (if has_name then
             name <- lift (getitem input_moduleconfig "name") ;;
             lift (setitem input_moduleconfig "displayName" name)
           else ret input_moduleconfig) ;;
        input_moduleconfig <- lift (_clean_update_config input_moduleconfig) ;;
        has_dependencies <- lift (contains "dependencies" input_moduleconfig) ;;
        input_moduleconfig <-
          (if has_dependencies then
             dependencies <- lift (getitem input_moduleconfig "dependencies") ;;
             entries <- lift (items dependencies) ;;
             fold_each entries input_moduleconfig
               (fun input_moduleconfig '(dependencie_name, dependencie_config) =>
                  generated <- _generate_config_of_module_at depth' dependencie_name
                                 dependencie_config defaultsettings tier beamos_date plugin ;;
                  dependencies <- lift (getitem input_moduleconfig "dependencies") ;;
                  dependencies <- lift (setitem dependencies dependencie_name
                                          (of_option generated)) ;;
                  lift (setitem input_moduleconfig "dependencies" dependencies))
           else ret input_moduleconfig) ;;
        ret (Some input_moduleconfig)
      else ret None
  end.

Definition _generate_config_of_module := _generate_config_of_module_at recursion_limit.

(** Modelled from the spec: the decorator [logExceptions] of
    [octoprint_mrbeam.util] is not among the sources. A call that
    returns is left alone; an exception is logged and raised again. *)
Definition logExceptions {A} (f : M World A) : M World A :=
  try_except f (fun e => Some (log EXCEPTION "logExceptions" ;;; raise e)).

(** The loop of [_set_info_from_cloud_config] over the modules. *)
Definition generate_modules
    (plugin : Plugin) (tier : string) (beamos_date : Date.t)
    (defaultsettings : Value.t) (modules : list (string * Value.t))
  : M World Value.t :=
  fold_each modules (PDict [])
    (fun sw_update_config '(module_id, module) =>
       if in_list tier SW_UPDATE_TIERS then
         sw_update_config <- lift (setitem sw_update_config module_id (PDict [])) ;;
         let module := dict_merge defaultsettings module in
         generated <- _generate_config_of_module module_id module defaultsettings
                        tier beamos_date plugin ;;
         lift (setitem sw_update_config module_id (of_option generated))
       else ret sw_update_config).

(** [with open(path, "w") as f: f.write(json.dumps(data))]: the write is
    recorded when all of it went through. What a failing write leaves in
    the file (nothing, once [open] has truncated it) is not modelled. *)
Definition write_json (path : string) (data : Value.t) : M World unit :=
  fun w =>
    match write_file path data with
    | None =>
        (Ret tt, mkWorld (logged w) (notifications w)
                   ((path, data) :: written w) (version_cache_dirty w))
    | Some e => (Raise e, w)
    end.

Definition _set_info_from_cloud_config
    (plugin : Plugin) (tier : string) (beamos_date : Date.t) (cloud_config : Value.t)
  : M World (option Value.t) :=
  logExceptions
    (if truthy cloud_config then
       log DEBUG "update_info {}" ;;;
       defaultsettings <- lift (Value.get cloud_config "default") ;;
       modules <- lift (getitem cloud_config "modules") ;;
       entries <- lift (items modules) ;;
       sw_update_config <- generate_modules plugin tier beamos_date defaultsettings entries ;;
       log DEBUG "sw_update_config {}" ;;;
       let sw_update_file_path :=
         os_path_join (getBaseFolder_base plugin) SW_UPDATE_INFO_FILE_NAME in
       try_except
         (write_json sw_update_file_path sw_update_config ;;;
          ret (Some sw_update_config))
         (fun e => match e with
                   | IOError | TypeError =>
                       Some (log ERROR "can't create update info file" ;;;
                             show_notification "write_error_update_info_file_err" ;;;
                             ret None)
                   | _ => None
                   end)
     else ret None).

Definition module_stub (name : string) : Value.t :=
  PDict [("name", PStr name); ("type", PStr "github_commit");
         ("user", PStr EmptyString); ("repo", PStr EmptyString); ("pip", PStr EmptyString)].

(** The document [get_update_information] falls back to. *)
Definition fallback_config : Value.t :=
  PDict [("default", PDict []);
         ("modules",
          PDict [("mrbeam", module_stub " MrBeam Plugin");
                 ("mrbeamdoc", module_stub "Mr Beam Documentation");
                 ("netconnectd", module_stub "OctoPrint-Netconnectd Plugin");
                 ("findmymrbeam", module_stub "OctoPrint-FindMyMrBeam")])].

Definition get_update_information (plugin : Plugin) : M World (option Value.t) :=
  let tier := software_tier plugin in
  let '(beamos_tier, beamos_date) := get_beamos_version plugin in
  returned <-
    try_except
      (log INFO "SoftwareUpdate using tier: {tier} {beamos_date}" ;;;
       returned <-
         (if check_immediately plugin then
            config_tag <- get_tag_of_github_repo "beamos_config" ;;
            match config_tag with
            | Some tag =>
                cloud_config <- lift (load_repo_file "beamos_config"
                                        "docs/sw-update-conf.json" tag) ;;
                if truthy cloud_config then
                  info <- _set_info_from_cloud_config plugin tier beamos_date cloud_config ;;
                  ret (Some info)
                else ret None
            | None => ret None
            end
          else
            log WARNING "no internet connection" ;;;
            ret None) ;;
       match returned with
       | Some info => ret (Some info)
       | None =>
           show_notification "missing_updateinformation_info" ;;;
           match get_plugin_info plugin "softwareupdate" with
           | Some _ => _clear_version_cache ;;; ret None
           | None => raise AttributeError
           end
       end)
      (fun e => Some (log EXCEPTION "{}" ;;; ret None)) ;;
  match returned with
  | Some info => ret info
  | None => _set_info_from_cloud_config plugin tier beamos_date fallback_config
  end.

End WithEnvironment.

End SoftwareUpdate.

(** ** Concrete worlds used as examples *)

Module Examples.

Import Migrate.

Definition generic_profile : Profile.t :=
  Profile.mk "my_default" "Dummy Laser" "X" {["intensity_factor" := 1%Z]}
    {["auto_mode_time" := 300%Z]} None.

Definition fresh_manager : Profile.manager :=
  Profile.mk_manager ∅ "my_default" generic_profile.

(** A device on which every command succeeds, with two egg directories
    left in [/home/pi/site-packages]. *)
Definition device (previous : option string) : World :=
  mkWorld previous fresh_manager
    (Some [("Mr_Beam-0.1.10.dist", Directory); ("Mr_Beam-0.1.20.dist", Directory)])
    (fun _ _ => Exited 0 EmptyString) [] [].

Definition plugin_2C : Plugin := mkPlugin "0.1.20" "2C".

(** The same device with no [sudo] to start. *)
Definition device_without_sudo : World :=
  mkWorld (Some "0.1.18") fresh_manager (Some [])
    (fun _ cmd => match cmd with
                  | "sudo" :: _ => NotStarted
                  | _ => Exited 0 EmptyString
                  end) [] [].

(** A device whose store already holds the profile of the C series. *)
Definition profile_2C : Profile.t :=
  Profile.mk "MrBeam2C" "MrBeam2" "C" {["intensity_factor" := 13%Z]}
    {["auto_mode_time" := 60%Z]} (Some {["job_done_home_position_x" := 250%Z]}).

Definition device_with_2C : World :=
  mkWorld None (Profile.mk_manager {["MrBeam2C" := profile_2C]} "my_default" generic_profile)
    None (fun _ _ => Exited 0 EmptyString) [] [].

(** A tag service that answers with a mixed list of tags. *)
Definition tag_list (names : list string) : Value.t :=
  Value.PList (map (fun n => Value.PDict [("name", Value.PStr n)]) names).

Definition mixed_tags : Value.t :=
  tag_list ["v0.9.1"; "v1.2.0"; "v0.10.0"; "v2.0.1"; "v0.10.0-rc1"].

Definition github_up : SoftwareUpdate.Environment := {|
  SoftwareUpdate.session_request := fun _ => SoftwareUpdate.Responded (SoftwareUpdate.mkResponse 200 "[...]");
  SoftwareUpdate.json_loads := fun _ => Ret mixed_tags;
  SoftwareUpdate.load_repo_file := fun _ _ _ =>
    Ret (Value.PDict
           [("default", Value.PDict [("type", Value.PStr "github_commit")]);
            ("modules", Value.PDict [("mrbeam", Value.PDict [("name", Value.PStr "MrBeam Plugin")])])]);
  SoftwareUpdate.str_format := fun s _ _ => Ret s;
  SoftwareUpdate.get_version_of_pip_module := fun _ _ => Ret None;
  SoftwareUpdate.os_path_isfile := fun _ => false;
  SoftwareUpdate.write_file := fun _ _ => Some IOError;
  SoftwareUpdate.recursion_limit := 100
|}.


Definition quiet : SoftwareUpdate.World := SoftwareUpdate.mkWorld [] [] [] false.

Definition stable_plugin : SoftwareUpdate.Plugin :=
  SoftwareUpdate.mkPlugin "PROD" ("PROD", Date.mk 2021 12 1) true
    (fun _ => Some (Some "0.10.1")) "/home/pi/oprint/lib/python2.7/site-packages/octoprint_mrbeam"
    "/home/pi/.octoprint".

End Examples.

(** ** What a computation leaves alone *)

Module Effects.

(** [m] keeps the property [I] of the world, whether it returns or
    raises. *)
Definition maintains {S A} (I : S -> Prop) (m : M S A) : Prop :=
  forall w, I w -> I (snd (m w)).

(** [m] never changes the part [proj] of the world. *)
Definition preserves {S A X} (proj : S -> X) (m : M S A) : Prop :=
  forall x, maintains (fun w => proj w = x) m.

(** Properties of the migration's world that do not read the log. *)
Definition log_blind (I : Migrate.World -> Prop) : Prop :=
  forall l w, I w -> I (Migrate.with_logged l w).

(** The log is [L] followed by records that all satisfy [P]. *)
Definition log_extends (P : log_record -> Prop) (L : list log_record)
    (w : Migrate.World) : Prop :=
  exists l, Migrate.logged w = L ++ l /\ Forall P l.

(** Every saved profile is filed under its own identifier. *)
Definition filed_by_id (pm : Profile.manager) : Prop :=
  forall k p, Profile.saved pm !! k = Some p -> Profile.id p = k.

(** Properties of the update module's world that read nothing but the
    files written. *)
Definition reads_written_only (I : SoftwareUpdate.World -> Prop) : Prop :=
  forall l n c w,
    I w -> I (SoftwareUpdate.mkWorld l n (SoftwareUpdate.written w) c).

End Effects.

(** ** Software channels *)

(** [software_channels_available], [switch_software_channel] and
    [reload_update_info] of [software_update_information.py]. They write
    the tier setting and the state of OctoPrint's software update plugin,
    which the functions above only read. *)
Module SoftwareChannel.

Local Open Scope py_scope.

(** [softwareupdate_registered] tells whether the plugin manager knows
    the plugin [softwareupdate]; [get_plugin_info] answers [None]
    otherwise. *)
Record Plugin : Type := mkPlugin {
  is_dev_env : bool;
  softwareupdate_registered : bool
}.

(** The setting [dev.software_tier] and the fields of the software
    update plugin the module assigns. *)
Record World : Type := mkWorld {
  software_tier : string;
  _refresh_configured_checks : bool;
  _version_cache : list (string * Value.t);
  _version_cache_dirty : bool;
  logged : list log_record
}.

Definition log (lvl : level) (msg : string) : M World unit :=
  modify (fun w => mkWorld (software_tier w) (_refresh_configured_checks w)
                     (_version_cache w) (_version_cache_dirty w)
                     (logged w ++ [(lvl, msg)])).

Definition _clear_version_cache : M World unit :=
  modify (fun w => mkWorld (software_tier w) (_refresh_configured_checks w) [] true
                     (logged w)).

Definition software_channels_available (plugin : Plugin) : list string :=
  let ret := SoftwareUpdate.SW_UPDATE_TIERS_PROD in
  if is_dev_env plugin then ret ++ SoftwareUpdate.SW_UPDATE_TIERS_DEV else ret.

Definition reload_update_info (plugin : Plugin) : M World unit :=
  log DEBUG "Reload update info" ;;;
  (if softwareupdate_registered plugin then ret tt else raise AttributeError) ;;;
  modify (fun w => mkWorld (software_tier w) true (_version_cache w)
                     (_version_cache_dirty w) (logged w)) ;;;
  _clear_version_cache.

Definition switch_software_channel (plugin : Plugin) (channel : string) : M World unit :=
  old_channel <- gets software_tier ;;
  if SoftwareUpdate.in_list channel (software_channels_available plugin)
     && negb (String.eqb channel old_channel)
  then
    log INFO "Switching software channel to: {channel}" ;;;
    modify (fun w => mkWorld channel (_refresh_configured_checks w) (_version_cache w)
                       (_version_cache_dirty w) (logged w)) ;;;
    reload_update_info plugin
  else ret tt.

End SoftwareChannel.

(** ** More example worlds *)

Module MoreExamples.

Import Migrate.

(** A device of the C series whose default profile is already the
    profile of the series. *)
Definition device_with_profile : World :=
  mkWorld None
    (Profile.mk_manager {["MrBeam2C" := Examples.profile_2C]} "MrBeam2C" Examples.generic_profile)
    (Some []) (fun _ _ => Exited 0 EmptyString) [] [].

(** A device on which [chmod] is refused. *)
Definition device_chmod_refused : World :=
  mkWorld (Some "0.1.18") Examples.fresh_manager (Some [])
    (fun _ cmd => match cmd with
                  | "sudo" :: "chmod" :: _ => Exited 1 "chmod: Operation not permitted"
                  | _ => Exited 0 EmptyString
                  end) [] [].

(** A [site-packages] in which a leftover name belongs to a regular
    file, between two leftover directories. *)
Definition device_with_egg_file : World :=
  mkWorld (Some "0.1.12") Examples.fresh_manager
    (Some [("Mr_Beam-0.1.20.dist", Directory);
           ("Mr_Beam-0.1.9-py2.7.egg", RegularFile);
           ("Mr_Beam-0.1.10.dist", Directory)])
    (fun _ _ => Exited 0 EmptyString) [] [].

(** A device of the C series as version 0.1.12 left it: the profile of
    the series is the default, still with the laser and dust values of the
    generic profile; two egg directories are left in
    [/home/pi/site-packages]; every command succeeds. *)
Definition profile_2C_0_1_12 : Profile.t :=
  Profile.mk "MrBeam2C" "MrBeam2" "C" {["intensity_factor" := 1%Z]}
    {["auto_mode_time" := 300%Z]} (Some {["job_done_home_position_x" := 250%Z]}).

Definition device_0_1_12 : World :=
  mkWorld (Some "0.1.12")
    (Profile.mk_manager {["MrBeam2C" := profile_2C_0_1_12]} "MrBeam2C" Examples.generic_profile)
    (Some [("Mr_Beam-0.1.10.dist", Directory); ("Mr_Beam-0.1.20.dist", Directory)])
    (fun _ _ => Exited 0 EmptyString) [] [].

(** The same device with no [sudo] to start. *)
Definition device_0_1_12_without_sudo : World :=
  mkWorld (Some "0.1.12")
    (Profile.mk_manager {["MrBeam2C" := profile_2C_0_1_12]} "MrBeam2C" Examples.generic_profile)
    (Some [("Mr_Beam-0.1.10.dist", Directory); ("Mr_Beam-0.1.20.dist", Directory)])
    (fun _ cmd => match cmd with
                  | "sudo" :: _ => NotStarted
                  | _ => Exited 0 EmptyString
                  end) [] [].

(** A device of the D series with an empty profile store. *)
Definition plugin_2D : Plugin := mkPlugin "0.1.20" "2D".

(** The tag service of [Examples.github_up] with a disk that takes every
    write. *)
Definition github_up_writable : SoftwareUpdate.Environment := {|
  SoftwareUpdate.session_request := fun _ => SoftwareUpdate.Responded (SoftwareUpdate.mkResponse 200 "[...]");
  SoftwareUpdate.json_loads := fun _ => Ret Examples.mixed_tags;
  SoftwareUpdate.load_repo_file := fun _ _ _ =>
    Ret (Value.PDict
           [("default", Value.PDict [("type", Value.PStr "github_commit")]);
            ("modules", Value.PDict [("mrbeam", Value.PDict [("name", Value.PStr "MrBeam Plugin")])])]);
  SoftwareUpdate.str_format := fun s _ _ => Ret s;
  SoftwareUpdate.get_version_of_pip_module := fun _ _ => Ret None;
  SoftwareUpdate.os_path_isfile := fun _ => false;
  SoftwareUpdate.write_file := fun _ _ => None;
  SoftwareUpdate.recursion_limit := 100
|}.

(** A tag service whose list holds a tag that is no version. *)
Definition github_odd_tag : SoftwareUpdate.Environment := {|
  SoftwareUpdate.session_request := fun _ => SoftwareUpdate.Responded (SoftwareUpdate.mkResponse 200 "[...]");
  SoftwareUpdate.json_loads := fun _ => Ret (Examples.tag_list ["v0.9.1"; "nightly"]);
  SoftwareUpdate.load_repo_file := fun _ _ _ => Raise ConnectionError;
  SoftwareUpdate.str_format := fun s _ _ => Ret s;
  SoftwareUpdate.get_version_of_pip_module := fun _ _ => Ret None;
  SoftwareUpdate.os_path_isfile := fun _ => false;
  SoftwareUpdate.write_file := fun _ _ => None;
  SoftwareUpdate.recursion_limit := 100
|}.

(** A plugin that finds no connection. *)
Definition offline_plugin : SoftwareUpdate.Plugin :=
  SoftwareUpdate.mkPlugin "PROD" ("PROD", Date.mk 2021 12 1) false
    (fun _ => Some (Some "0.10.1")) "/home/pi/oprint/lib/python2.7/site-packages/octoprint_mrbeam"
    "/home/pi/.octoprint".

End MoreExamples.

(** * Properties *)

(** ** Three-way comparisons are total preorders *)

Section CmpFacts.

Import Cmp.

Lemma total_cmp_refl {A} (cmp : A -> A -> comparison) :
  total_cmp cmp -> forall a, cmp a a = Eq.
Proof.
  intros H a. pose proof (cmp_opp cmp H a a) as E.
  destruct (cmp a a); simpl in E; congruence.
Qed.

Lemma total_cmp_eq_r {A} (cmp : A -> A -> comparison) :
  total_cmp cmp -> forall a b c, cmp b c = Eq -> cmp a b = cmp a c.
Proof.
  intros H a b c E.
  rewrite (cmp_opp cmp H b a), (cmp_opp cmp H c a).
  f_equal. apply (cmp_eq_l cmp H). exact E.
Qed.


Lemma total_cmp_ext {A} (c1 c2 : A -> A -> comparison) :
  (forall a b, c1 a b = c2 a b) -> total_cmp c1 -> total_cmp c2.
Proof.
  intros E [H1 H2 H3]. split; intros *; rewrite <- !E; eauto.
Qed.

Lemma total_cmp_N : total_cmp N.compare.
Proof.
  split.
  - intros a b. apply N.compare_antisym.
  - intros a b c E. apply N.compare_eq in E. now subst.
  - intros a b c. rewrite !N.compare_lt_iff. lia.
Qed.

Lemma total_cmp_on {A B} (f : A -> B) (cmp : B -> B -> comparison) :
  total_cmp cmp -> total_cmp (fun a b => cmp (f a) (f b)).
Proof.
  intros [H1 H2 H3]. split; intros *; eauto.
Qed.

Lemma total_cmp_lex {A} (c1 c2 : A -> A -> comparison) :
  total_cmp c1 -> total_cmp c2 -> total_cmp (fun a b => lex (c1 a b) (c2 a b)).
Proof.
  intros T1 T2. split.
  - intros a b. rewrite (cmp_opp c1 T1 a b), (cmp_opp c2 T2 a b).
    destruct (c1 a b); reflexivity.
  - intros a b c E. unfold lex in *.
    destruct (c1 a b) eqn:E1; try discriminate.
    rewrite (cmp_eq_l c1 T1 a b c E1), (cmp_eq_l c2 T2 a b c E). reflexivity.
  - intros a b c Hab Hbc. unfold lex in *.
    destruct (c1 a b) eqn:E1; try discriminate.
    + rewrite (cmp_eq_l c1 T1 a b c E1).
      destruct (c1 b c) eqn:E2; try discriminate; [|reflexivity].
      apply (cmp_lt_trans c2 T2 a b c); assumption.
    + destruct (c1 b c) eqn:E2; try discriminate.
      * rewrite <- (total_cmp_eq_r c1 T1 a b c E2), E1. reflexivity.
      * rewrite (cmp_lt_trans c1 T1 a b c E1 E2). reflexivity.
Qed.



End CmpFacts.

(** ** StrictVersion ordering *)

Section StrictVersionFacts.

Import Cmp.

Example parse_0_1_17 :
  StrictVersion.parse "0.1.17" = Ret (StrictVersion.mk (0, 1, 17) None).
Proof. reflexivity. Qed.

Example parse_two_components :
  StrictVersion.parse "0.1" = Ret (StrictVersion.mk (0, 1, 0) None).
Proof. reflexivity. Qed.

Example parse_rejects_suffix :
  StrictVersion.parse "0.1.10.dist" = Raise ValueError.
Proof. reflexivity. Qed.

Lemma strict_parse_raises_ValueError s e :
  StrictVersion.parse s = Raise e -> e = ValueError.
Proof.
  unfold StrictVersion.parse. intros H.
  repeat case_match; congruence.
Qed.

Lemma total_cmp_strict_version : total_cmp StrictVersion.cmp_version.
Proof.
  apply (total_cmp_ext
           (fun a b => lex (N.compare (fst (fst a)) (fst (fst b)))
                         (lex (N.compare (snd (fst a)) (snd (fst b)))
                            (N.compare (snd a) (snd b))))).
  - intros [[a1 a2] a3] [[b1 b2] b3]. reflexivity.
  - apply total_cmp_lex; [apply (total_cmp_on _ _ total_cmp_N)|].
    apply total_cmp_lex; apply (total_cmp_on _ _ total_cmp_N).
Qed.

Lemma total_cmp_strict_prerelease : total_cmp StrictVersion.cmp_prerelease.
Proof.
  unfold StrictVersion.cmp_prerelease, ascii_cmp.
  apply total_cmp_lex; [apply (total_cmp_on (fun p => N_of_ascii (fst p)) _ total_cmp_N)|].
  apply (total_cmp_on snd _ total_cmp_N).
Qed.

Lemma total_cmp_strict : total_cmp StrictVersion.cmp.
Proof.
  pose proof total_cmp_strict_prerelease as [P1 P2 P3].
  apply (total_cmp_ext
           (fun a b =>
              lex (StrictVersion.cmp_version (StrictVersion.version a) (StrictVersion.version b))
                (match StrictVersion.prerelease a, StrictVersion.prerelease b with
                 | None, None => Eq
                 | Some _, None => Lt
                 | None, Some _ => Gt
                 | Some p, Some q => StrictVersion.cmp_prerelease p q
                 end))).
  - intros a b. unfold StrictVersion.cmp, lex.
    destruct (StrictVersion.cmp_version _ _); reflexivity.
  - apply total_cmp_lex;
      [apply (total_cmp_on StrictVersion.version _ total_cmp_strict_version)|].
    split.
    + intros [? [p|]] [? [q|]]; simpl; auto.
    + intros [? [p|]] [? [q|]] [? [r|]]; simpl; try discriminate; eauto.
    + intros [? [p|]] [? [q|]] [? [r|]]; simpl; try discriminate; eauto.
Qed.

Lemma strict_lt_trans a b c :
  StrictVersion.lt a b = true -> StrictVersion.lt b c = true -> StrictVersion.lt a c = true.
Proof.
  unfold StrictVersion.lt, is_lt. intros Hab Hbc.
  rewrite (cmp_lt_trans _ total_cmp_strict a b c); [reflexivity| |].
  - destruct (StrictVersion.cmp a b); congruence.
  - destruct (StrictVersion.cmp b c); congruence.
Qed.

Lemma strict_lt_asym a b :
  StrictVersion.lt a b = true -> StrictVersion.lt b a = false.
Proof.
  unfold StrictVersion.lt, is_lt.
  rewrite (cmp_opp _ total_cmp_strict a b).
  destruct (StrictVersion.cmp a b); simpl; congruence.
Qed.

Lemma strict_gt_lt a b : StrictVersion.gt a b = StrictVersion.lt b a.
Proof.
  unfold StrictVersion.gt, StrictVersion.lt.
  rewrite (cmp_opp _ total_cmp_strict a b).
  destruct (StrictVersion.cmp a b); reflexivity.
Qed.

Lemma strict_eq_sym a b : StrictVersion.eq a b = StrictVersion.eq b a.
Proof.
  unfold StrictVersion.eq.
  rewrite (cmp_opp _ total_cmp_strict a b).
  destruct (StrictVersion.cmp a b); reflexivity.
Qed.

(** Two versions that compare equal are the same version. *)
Lemma strict_cmp_eq a b : StrictVersion.cmp a b = Eq -> a = b.
Proof.
  destruct a as [[[a1 a2] a3] pa], b as [[[b1 b2] b3] pb].
  unfold StrictVersion.cmp, StrictVersion.cmp_version, lex; simpl.
  destruct (a1 ?= b1) eqn:E1; try discriminate.
  destruct (a2 ?= b2) eqn:E2; try discriminate.
  destruct (a3 ?= b3) eqn:E3; try discriminate.
  apply N.compare_eq in E1, E2, E3. subst.
  destruct pa as [[c n]|], pb as [[d m]|]; try discriminate; [|reflexivity].
  unfold StrictVersion.cmp_prerelease, ascii_cmp, lex; simpl.
  destruct (N_of_ascii c ?= N_of_ascii d) eqn:E4; try discriminate.
  intros E5. apply N.compare_eq in E4, E5.
  apply (f_equal ascii_of_N) in E4. rewrite !ascii_N_embedding in E4.
  subst. reflexivity.
Qed.

(** *** The constructor *)

Lemma strict_init_valid s v :
  StrictVersion.parse s = Ret v -> StrictVersion.__init__ s = Ret (Some v).
Proof.
  destruct s as [|c s]; [discriminate|]. intros H.
  unfold StrictVersion.__init__. rewrite H. reflexivity.
Qed.

Lemma strict_init_invalid s :
  s <> EmptyString -> (forall v, StrictVersion.parse s <> Ret v) ->
  StrictVersion.__init__ s = Raise ValueError.
Proof.
  destruct s as [|c s]; [contradiction|]. intros _ H.
  unfold StrictVersion.__init__.
  destruct (StrictVersion.parse (String c s)) as [v|e] eqn:E.
  - exfalso. apply (H v). reflexivity.
  - apply strict_parse_raises_ValueError in E. subst e. reflexivity.
Qed.

Lemma strict_init_cases s :
  (s = EmptyString /\ StrictVersion.__init__ s = Ret None)
  \/ (exists v, StrictVersion.parse s = Ret v /\ StrictVersion.__init__ s = Ret (Some v))
  \/ (s <> EmptyString /\ (forall v, StrictVersion.parse s <> Ret v)
      /\ StrictVersion.__init__ s = Raise ValueError).
Proof.
  destruct s as [|c s]; [left; split; reflexivity|]. right.
  destruct (StrictVersion.parse (String c s)) as [v|e] eqn:E.
  - left. exists v. split; [reflexivity|].
    unfold StrictVersion.__init__. rewrite E. reflexivity.
  - right. split; [discriminate|]. split; [intros v; discriminate|].
    unfold StrictVersion.__init__. rewrite E.
    apply strict_parse_raises_ValueError in E. subst e. reflexivity.
Qed.

End StrictVersionFacts.

(** ** The version checks of the migration *)

Section VersionChecks.

Import Migrate.

Lemma compare_versions_valid self lower higher vl vh equal_ok w :
  StrictVersion.parse lower = Ret vl ->
  StrictVersion.parse higher = Ret vh ->
  _compare_versions self (Some lower) (Some higher) equal_ok w =
  (Ret (Some (if StrictVersion.eq vl vh then equal_ok else StrictVersion.lt vl vh)), w).
Proof.
  intros Hl Hh. unfold _compare_versions, bind, try_except, lift, ret.
  rewrite (strict_init_valid _ _ Hl), (strict_init_valid _ _ Hh).
  unfold StrictVersion.__eq__, StrictVersion.__lt__, StrictVersion.compare_with,
    StrictVersion.__cmp__, StrictVersion.attributes.
  change (Cmp.is_eq (StrictVersion.cmp vl vh)) with (StrictVersion.eq vl vh).
  destruct (StrictVersion.eq vl vh); reflexivity.
Qed.

Lemma compare_versions_invalid self lower higher equal_ok w :
  lower <> EmptyString -> higher <> EmptyString ->
  (forall vl vh, ~ (StrictVersion.parse lower = Ret vl /\ StrictVersion.parse higher = Ret vh)) ->
  _compare_versions self (Some lower) (Some higher) equal_ok w =
  (Ret None,
   with_logged
     (logged w ++
      [(ERROR, "_compare_versions() One of the two version is invalid: lower_vers:{}, higher_vers:{}. ValueError from StrictVersion: {}")])
     w).
Proof.
  intros Hlne Hhne H. unfold _compare_versions, bind, try_except, lift, ret.
  destruct (strict_init_cases lower) as [[Hl _] | [(vl & Hl & El) | (_ & _ & El)]];
    [contradiction | | rewrite El; reflexivity].
  destruct (strict_init_cases higher) as [[Hh _] | [(vh & Hh & Eh) | (_ & _ & Eh)]];
    [contradiction | | rewrite El, Eh; reflexivity].
  exfalso. apply (H vl vh). split; assumption.
Qed.

(** An argument that is the empty string passes both constructor calls
    of the [try] block unless the other one is refused there; the
    comparison after the block then raises [AttributeError]. *)
Lemma compare_versions_empty self lower higher equal_ok w :
  lower = EmptyString \/ higher = EmptyString ->
  forall r, fst (_compare_versions self (Some lower) (Some higher) equal_ok w) <> Ret (Some r).
Proof.
  intros Hempty r. unfold _compare_versions, bind, try_except, lift, ret.
  destruct (strict_init_cases lower) as [[Hl El] | [(vl & Hl & El) | (Hlne & Hl & El)]];
    destruct (strict_init_cases higher) as [[Hh Eh] | [(vh & Hh & Eh) | (Hhne & Hh & Eh)]];
    rewrite El, ?Eh; cbn; try discriminate;
    destruct Hempty as [-> | ->]; try discriminate; try contradiction.
Qed.

Lemma compare_versions_true_inv self lower higher w :
  fst (_compare_versions self (Some lower) (Some higher) false w) = Ret (Some true) ->
  exists vl vh, StrictVersion.parse lower = Ret vl /\ StrictVersion.parse higher = Ret vh
                /\ StrictVersion.lt vl vh = true.
Proof.
  destruct (strict_init_cases lower) as [[Hl _] | [(vl & Hl & _) | (Hlne & Hl & _)]].
  { intros H. exfalso. apply (compare_versions_empty self lower higher false w (or_introl Hl) _ H). }
  2:{ destruct (strict_init_cases higher) as [[Hh _] | [(vh & Hh & _) | (Hhne & Hh & _)]].
      - intros H. exfalso.
        apply (compare_versions_empty self lower higher false w (or_intror Hh) _ H).
      - rewrite compare_versions_invalid; [discriminate | exact Hlne | |].
        + intros ->. discriminate Hh.
        + intros ? ? [? _]. apply (Hl _ H).
      - rewrite compare_versions_invalid; [discriminate | exact Hlne | exact Hhne |].
        intros ? ? [? _]. apply (Hl _ H). }
  destruct (strict_init_cases higher) as [[Hh _] | [(vh & Hh & _) | (Hhne & Hh & _)]].
  - intros H. exfalso.
    apply (compare_versions_empty self lower higher false w (or_intror Hh) _ H).
  - rewrite (compare_versions_valid _ _ _ _ _ _ _ Hl Hh). simpl.
    destruct (StrictVersion.eq vl vh); [discriminate|].
    intros [= E]. eauto.
  - rewrite compare_versions_invalid; [discriminate | | exact Hhne |].
    + intros ->. discriminate Hl.
    + intros ? ? [_ ?]. apply (Hh _ H).
Qed.

Lemma strict_lt_not_eq a b : StrictVersion.lt a b = true -> StrictVersion.eq a b = false.
Proof.
  unfold StrictVersion.lt, StrictVersion.eq. destruct (StrictVersion.cmp a b); simpl; congruence.
Qed.

(** For arguments other than the empty string [_compare_versions]
    returns, with [None] when an argument is [None] or no strict version,
    with [equal_ok] for equal versions and with "lower is strictly less
    than higher" otherwise; the comparison it answers is transitive,
    asymmetric and, in its [equal_ok=True] form, antisymmetric. *)
Lemma compare_versions_total_order :
  (forall (self : Migration) (lower_vers higher_vers : option string)
          (equal_ok : bool) (w : World),
      lower_vers <> Some EmptyString -> higher_vers <> Some EmptyString ->
      exists w',
        _compare_versions self lower_vers higher_vers equal_ok w =
        (Ret (match lower_vers, higher_vers with
              | Some lower, Some higher =>
                  match StrictVersion.parse lower, StrictVersion.parse higher with
                  | Ret vl, Ret vh =>
                      Some (if StrictVersion.eq vl vh then equal_ok
                            else StrictVersion.lt vl vh)
                  | _, _ => None
                  end
              | _, _ => None
              end), w'))
  /\ (forall self a b c w1 w2 w3,
         fst (_compare_versions self (Some a) (Some b) false w1) = Ret (Some true) ->
         fst (_compare_versions self (Some b) (Some c) false w2) = Ret (Some true) ->
         fst (_compare_versions self (Some a) (Some c) false w3) = Ret (Some true))
  /\ (forall self a b w1 w2,
         fst (_compare_versions self (Some a) (Some b) false w1) = Ret (Some true) ->
         fst (_compare_versions self (Some b) (Some a) false w2) = Ret (Some false))
  /\ (forall self a b w1 w2,
         fst (_compare_versions self (Some a) (Some b) true w1) = Ret (Some true) ->
         fst (_compare_versions self (Some b) (Some a) true w2) = Ret (Some true) ->
         StrictVersion.parse a = StrictVersion.parse b).
Proof.
  repeat split.
  - intros self [lower|] [higher|] equal_ok w Hlne Hhne; try (eexists; reflexivity).
    assert (lower <> EmptyString) as Hl' by congruence.
    assert (higher <> EmptyString) as Hh' by congruence.
    destruct (StrictVersion.parse lower) as [vl|e] eqn:Hl;
      [destruct (StrictVersion.parse higher) as [vh|e] eqn:Hh|].
    + eexists. apply compare_versions_valid; assumption.
    + eexists. apply compare_versions_invalid; [assumption | assumption |].
      intros ? ? [_ ?]. congruence.
    + eexists. apply compare_versions_invalid; [assumption | assumption |].
      intros ? ? [? _]. congruence.
  - intros self a b c w1 w2 w3 Hab Hbc.
    apply compare_versions_true_inv in Hab as (va & vb & Ha & Hb & Lab).
    apply compare_versions_true_inv in Hbc as (vb' & vc & Hb' & Hc & Lbc).
    assert (vb' = vb) by congruence. subst vb'.
    rewrite (compare_versions_valid _ _ _ _ _ _ _ Ha Hc). simpl.
    pose proof (strict_lt_trans _ _ _ Lab Lbc) as Lac.
    rewrite (strict_lt_not_eq _ _ Lac), Lac. reflexivity.
  - intros self a b w1 w2 Hab.
    apply compare_versions_true_inv in Hab as (va & vb & Ha & Hb & Lab).
    rewrite (compare_versions_valid _ _ _ _ _ _ _ Hb Ha). simpl.
    rewrite strict_eq_sym, (strict_lt_not_eq _ _ Lab), (strict_lt_asym _ _ Lab).
    reflexivity.
  - intros self a b w1 w2 Hab Hba.
    destruct (strict_init_cases a) as [[Ha _] | [(va & Ha & _) | (Hane & Ha & _)]].
    { exfalso. apply (compare_versions_empty self a b true w1 (or_introl Ha) _ Hab). }
    2:{ exfalso.
        destruct (strict_init_cases b) as [[Hb _] | [(vb & Hb & _) | (Hbne & Hb & _)]].
        - apply (compare_versions_empty self a b true w1 (or_intror Hb) _ Hab).
        - rewrite compare_versions_invalid in Hab; [discriminate | exact Hane | |].
          + intros ->. discriminate Hb.
          + intros ? ? [? _]. apply (Ha _ H).
        - rewrite compare_versions_invalid in Hab; [discriminate | exact Hane | exact Hbne |].
          intros ? ? [? _]. apply (Ha _ H). }
    destruct (strict_init_cases b) as [[Hb _] | [(vb & Hb & _) | (Hbne & Hb & _)]].
    + exfalso. apply (compare_versions_empty self a b true w1 (or_intror Hb) _ Hab).
    + rewrite (compare_versions_valid _ _ _ _ _ _ _ Ha Hb) in Hab.
      rewrite (compare_versions_valid _ _ _ _ _ _ _ Hb Ha) in Hba.
      simpl in Hab, Hba. rewrite strict_eq_sym in Hba. rewrite Ha, Hb.
      destruct (StrictVersion.eq va vb) eqn:E.
      * f_equal. apply strict_cmp_eq. unfold StrictVersion.eq in E.
        destruct (StrictVersion.cmp va vb); simpl in E; congruence.
      * injection Hab as Hab. injection Hba as Hba.
        rewrite (strict_lt_asym _ _ Hab) in Hba. discriminate.
    + exfalso. rewrite compare_versions_invalid in Hab; [discriminate | | exact Hbne |].
      * intros ->. discriminate Ha.
      * intros ? ? [_ ?]. apply (Hb _ H).
Qed.

(** C3, at the empty string: [StrictVersion] of the empty string is
    built without being parsed, so the [try] block of [_compare_versions]
    lets it pass, and
    the comparison after the block raises [AttributeError] to the caller
    where the docstring promises [None]. *)
Theorem compare_versions_raises_on_empty_string :
  fst (_compare_versions (mkMigration Examples.plugin_2C None "0.1.20")
         (Some EmptyString) (Some "0.1.13") false (Examples.device None))
  = Raise AttributeError
  /\ fst (_compare_versions (mkMigration Examples.plugin_2C None "0.1.20")
            (Some "0.1.13") (Some EmptyString) true (Examples.device None))
     = Raise AttributeError.
Proof. split; vm_compute; reflexivity. Qed.

End VersionChecks.

(** ** Whether a migration is required *)

Section MigrationRequired.

Import Migrate.

Lemma save_overwrite pm p make_default :
  Profile.save pm p true make_default =
  Ret (let pm' := Profile.mk_manager (<[Profile.id p := p]> (Profile.saved pm))
                    (Profile.default_id pm) (Profile.generic pm) in
       if make_default then Profile.set_default pm' (Profile.id p) else pm').
Proof.
  unfold Profile.save. rewrite andb_false_r. reflexivity.
Qed.

Lemma manager_save_overwrite p make_default w :
  laserCutterProfileManager_save p true make_default w =
  (Ret tt,
   with_profiles
     (let pm' := Profile.mk_manager (<[Profile.id p := p]> (Profile.saved (profiles w)))
                   (Profile.default_id (profiles w)) (Profile.generic (profiles w)) in
      if make_default then Profile.set_default pm' (Profile.id p) else pm') w).
Proof.
  unfold laserCutterProfileManager_save. rewrite save_overwrite. reflexivity.
Qed.

Lemma set_lasercutterProfile_returns self w :
  exists w', set_lasercutterProfile self w = (Ret tt, w').
Proof.
  unfold set_lasercutterProfile, set_lasercutterPorfile_2C, set_lasercutterPorfile_2D,
    set_lasercutterPorfile_2all, save_current_version, bind,
    laserCutterProfileManager_get_default, laserCutterProfileManager_exists,
    laserCutterProfileManager_set_default, gets, modify, log, ret.
  repeat first
    [ rewrite manager_save_overwrite
    | match goal with
      | H : laserCutterProfileManager_save _ true _ _ = _ |- _ =>
          rewrite manager_save_overwrite in H
      end
    | case_match
    | progress simplify_eq/= ];
    eexists; reflexivity.
Qed.

Lemma is_lasercutterProfile_set_eq self w :
  is_lasercutterProfile_set self w =
  (Ret (negb (String.eqb (Profile.id (Profile.get_default (profiles w))) "my_default")), w).
Proof. reflexivity. Qed.

Lemma assign_profile_returns self w :
  exists w',
    bind (is_lasercutterProfile_set self)
      (fun profile_set => if negb profile_set then set_lasercutterProfile self else ret tt) w
    = (Ret tt, w').
Proof.
  unfold bind at 1. unfold is_lasercutterProfile_set, bind, laserCutterProfileManager_get_default,
    gets, ret.
  destruct (negb _); [apply set_lasercutterProfile_returns | eexists; reflexivity].
Qed.

Lemma migration_required_absent self w :
  version_previous self = None ->
  is_migration_required self w = (Ret (Some true), w).
Proof.
  intros H. unfold is_migration_required. rewrite H. reflexivity.
Qed.

Lemma migration_required_invalid self previous w :
  version_previous self = Some previous ->
  previous <> EmptyString ->
  (forall v, StrictVersion.parse previous <> Ret v) ->
  is_migration_required self w =
  (Ret None,
   with_logged
     (logged w ++
      [(ERROR, "Previous version is invalid: '{}'. ValueError from StrictVersion: {}")])
     w).
Proof.
  intros H Hne Hp. unfold is_migration_required. rewrite H.
  unfold bind, try_except, lift, ret.
  rewrite (strict_init_invalid _ Hne Hp). reflexivity.
Qed.

Lemma migration_required_valid self previous vp w :
  version_previous self = Some previous ->
  StrictVersion.parse previous = Ret vp ->
  is_migration_required self w =
  (match StrictVersion.__init__ (version_current self) with
   | Ret (Some vc) => Ret (Some (StrictVersion.gt vc vp))
   | Ret None => Raise AttributeError
   | Raise e => Raise e
   end, w).
Proof.
  intros H Hp. unfold is_migration_required. rewrite H.
  unfold bind, try_except, lift, ret. rewrite (strict_init_valid _ _ Hp).
  destruct (StrictVersion.__init__ (version_current self)) as [[vc|]|e]; reflexivity.
Qed.

(** With the empty string stored, the constructor call of the [try]
    block passes and the comparison after it raises. *)
Lemma migration_required_empty self w :
  version_previous self = Some EmptyString ->
  is_migration_required self w =
  (match StrictVersion.__init__ (version_current self) with
   | Ret _ => Raise AttributeError
   | Raise e => Raise e
   end, w).
Proof.
  intros H. unfold is_migration_required. rewrite H.
  unfold bind, try_except, lift, ret. cbn [StrictVersion.__init__].
  destruct (StrictVersion.__init__ (version_current self)) as [[vc|]|e]; reflexivity.
Qed.

(** Apart from the empty string: [is_migration_required] is true when no
    previous version is stored; for a stored version that is neither
    empty nor a strict version it logs an error and returns [None], after
    which [run] runs no migration and saves nothing; for a stored strict
    version it returns true exactly when the current version is a strict
    version greater than it. *)
Lemma is_migration_required_cases :
  forall (self : Migration) (w : World),
    (version_previous self = None ->
     is_migration_required self w = (Ret (Some true), w))
    /\ (forall previous,
           version_previous self = Some previous ->
           previous <> EmptyString ->
           (forall v, StrictVersion.parse previous <> Ret v) ->
           is_migration_required self w =
           (Ret None,
            with_logged
              (logged w ++
               [(ERROR, "Previous version is invalid: '{}'. ValueError from StrictVersion: {}")])
              w)
           /\ let w1 :=
                snd (bind (is_lasercutterProfile_set self)
                       (fun profile_set =>
                          if negb profile_set then set_lasercutterProfile self else ret tt) w) in
              run self w =
              (Ret tt,
               with_logged
                 (logged w1 ++
                  [(ERROR, "Previous version is invalid: '{}'. ValueError from StrictVersion: {}");
                   (DEBUG, "No migration required.")])
                 w1))
    /\ (forall previous vp,
           version_previous self = Some previous ->
           StrictVersion.parse previous = Ret vp ->
           (fst (is_migration_required self w) = Ret (Some true) <->
            exists vc, StrictVersion.parse (version_current self) = Ret vc
                       /\ StrictVersion.lt vp vc = true)).
Proof.
  intros self w. split; [|split].
  - apply migration_required_absent.
  - intros previous H Hne Hp. split; [apply (migration_required_invalid _ _ _ H Hne Hp)|].
    destruct (assign_profile_returns self w) as [w1 E1]. rewrite E1. simpl.
    unfold bind in E1. rewrite is_lasercutterProfile_set_eq in E1.
    unfold run, try_except.
    unfold bind at 1. rewrite is_lasercutterProfile_set_eq.
    unfold bind at 1. rewrite E1.
    unfold bind at 1. rewrite (migration_required_invalid _ _ _ H Hne Hp). simpl.
    unfold log, modify. simpl. rewrite <- app_assoc. reflexivity.
  - intros previous vp H Hp. rewrite (migration_required_valid _ _ _ _ H Hp). simpl.
    destruct (strict_init_cases (version_current self))
      as [[Hc ->] | [(vc & Hc & ->) | (Hcne & Hc & ->)]]; cbn [fst]; split.
    + discriminate.
    + intros (vc & Hvc & _). rewrite Hc in Hvc. discriminate Hvc.
    + intros [= E]. exists vc. rewrite <- strict_gt_lt. auto.
    + intros (vc' & Hvc & L). assert (vc' = vc) as -> by congruence.
      rewrite strict_gt_lt, L. reflexivity.
    + discriminate.
    + intros (vc & Hvc & _). exfalso. apply (Hc _ Hvc).
Qed.

(** C2, at the empty string: with the empty string stored as previous
    version, [StrictVersion] of it is built without being parsed, the
    [try] block logs nothing, and the comparison with the current version raises
    [AttributeError] where an error record and [None] are expected; [run]
    answers with its exception record. *)
Theorem is_migration_required_raises_on_empty_string :
  is_migration_required (mkMigration Examples.plugin_2C (Some EmptyString) "0.1.20")
    (with_settings_version (Some EmptyString) MoreExamples.device_with_profile)
  = (Raise AttributeError,
     with_settings_version (Some EmptyString) MoreExamples.device_with_profile)
  /\ migrate Examples.plugin_2C
       (with_settings_version (Some EmptyString) MoreExamples.device_with_profile)
     = (Ret tt,
        with_logged [(EXCEPTION, "Unhandled exception during migration: ")]
          (with_settings_version (Some EmptyString) MoreExamples.device_with_profile)).
Proof. split; vm_compute; reflexivity. Qed.

End MigrationRequired.

(** ** Egg directory leftovers *)

Section EggLeftovers.

Import Migrate.

Variable self : Migration.

(** The body of the loop over the directory listing. *)
Let body : string -> M World unit :=
  fun f =>
    match re_match_version f with
    | Some version =>
        bind (_compare_versions self (Some version) (Some VERSION_DELETE_EGG_DIR_LEFTOVERS) false)
          (fun older =>
             if truthy older then
               bind (log INFO "delete_egg_dir_leftovers() Deleting dir: %s")
                 (fun _ => shutil_rmtree f)
             else ret tt)
    | None => ret tt
    end.

Lemma version_group_nonempty s v : version_group s = Some v -> v <> EmptyString.
Proof.
  destruct s as [|c s]; [discriminate|]. cbn [version_group].
  destruct (is_version_char c); [|discriminate].
  destruct (version_group s); [intros [= <-]; discriminate|].
  destruct (suffix_matches s); [intros [= <-]|]; discriminate.
Qed.

Lemma re_match_version_nonempty f v : re_match_version f = Some v -> v <> EmptyString.
Proof.
  unfold re_match_version. destruct (strip_prefix "Mr_Beam-" f); [|discriminate].
  apply version_group_nonempty.
Qed.

Lemma body_keeps f w :
  is_leftover f = false ->
  exists w', body f w = (Ret tt, w') /\ site_packages w' = site_packages w.
Proof.
  unfold is_leftover, body. intros H.
  destruct (re_match_version f) as [version|] eqn:Hm; [|eexists; split; reflexivity].
  apply re_match_version_nonempty in Hm.
  unfold bind.
  destruct (StrictVersion.parse version) as [l|e] eqn:El.
  - destruct (StrictVersion.parse VERSION_DELETE_EGG_DIR_LEFTOVERS) as [h|e] eqn:Eh;
      [|discriminate Eh].
    rewrite (compare_versions_valid _ _ _ _ _ _ _ El Eh).
    assert ((if StrictVersion.eq l h then false else StrictVersion.lt l h) = false) as ->
        by exact H.
    eexists; split; reflexivity.
  - rewrite compare_versions_invalid;
      [| exact Hm | discriminate | intros ? ? [? _]; congruence].
    eexists; split; reflexivity.
Qed.

Lemma body_deletes f w :
  is_leftover f = true ->
  body f w =
  shutil_rmtree f
    (with_logged (logged w ++ [(INFO, "delete_egg_dir_leftovers() Deleting dir: %s")]) w).
Proof.
  unfold is_leftover, body. intros H.
  destruct (re_match_version f) as [version|]; [|discriminate].
  destruct (StrictVersion.parse version) as [l|e] eqn:El; [|discriminate].
  destruct (StrictVersion.parse VERSION_DELETE_EGG_DIR_LEFTOVERS) as [h|e] eqn:Eh;
    [|discriminate].
  unfold bind. rewrite (compare_versions_valid _ _ _ _ _ _ _ El Eh).
  assert ((if StrictVersion.eq l h then false else StrictVersion.lt l h) = true) as ->
      by exact H.
  reflexivity.
Qed.

Lemma find_filter_other (f g : string) (l : list (string * entry_kind)) :
  f <> g ->
  find (fun e => String.eqb (fst e) g) (List.filter (fun e => negb (String.eqb (fst e) f)) l)
  = find (fun e => String.eqb (fst e) g) l.
Proof.
  intros Hne. induction l as [|[n k] l IH]; simpl; [reflexivity|].
  destruct (String.eqb_spec n f) as [->|Hnf]; simpl.
  - rewrite IH. destruct (String.eqb_spec f g); [contradiction|reflexivity].
  - rewrite IH. reflexivity.
Qed.

Lemma filter_step (f : string) (names : list string) (l : list (string * entry_kind)) :
  is_leftover f = true ->
  List.filter (fun e => negb (is_leftover (fst e) && existsb (String.eqb (fst e)) names))
    (List.filter (fun e => negb (String.eqb (fst e) f)) l)
  = List.filter
      (fun e => negb (is_leftover (fst e) && existsb (String.eqb (fst e)) (f :: names))) l.
Proof.
  intros Hf. induction l as [|[n k] l IH]; simpl; [reflexivity|].
  destruct (String.eqb_spec n f) as [->|Hnf]; simpl.
  - rewrite Hf. simpl. exact IH.
  - rewrite IH. reflexivity.
Qed.

Lemma filter_skip (f : string) (names : list string) (l : list (string * entry_kind)) :
  is_leftover f = false ->
  List.filter (fun e => negb (is_leftover (fst e) && existsb (String.eqb (fst e)) names)) l
  = List.filter
      (fun e => negb (is_leftover (fst e) && existsb (String.eqb (fst e)) (f :: names))) l.
Proof.
  intros Hf. apply List.filter_ext. intros [n k]. simpl.
  destruct (String.eqb_spec n f) as [->|Hnf]; simpl; [|reflexivity].
  rewrite Hf. reflexivity.
Qed.

Lemma filter_all {A} (l : list A) : List.filter (fun _ => true) l = l.
Proof. induction l as [|x l IH]; simpl; [reflexivity | f_equal; exact IH]. Qed.

Lemma loop_removes_leftovers (names : list string) :
  forall (w : World) (cur : list (string * entry_kind)),
    site_packages w = Some cur ->
    NoDup names ->
    (forall f, In f names -> is_leftover f = true ->
               exists n, find (fun e => String.eqb (fst e) f) cur = Some (n, Directory)) ->
    exists w',
      for_each names body w = (Ret tt, w')
      /\ site_packages w' =
         Some (List.filter
                 (fun e => negb (is_leftover (fst e) && existsb (String.eqb (fst e)) names))
                 cur).
Proof.
  induction names as [|f names IH]; intros w cur Hsp Hnd Hdirs.
  - exists w. simpl. split; [reflexivity|].
    rewrite (List.filter_ext _ (fun _ => true)).
    + rewrite filter_all. exact Hsp.
    + intros e. rewrite andb_false_r. reflexivity.
  - apply NoDup_cons in Hnd as [Hnotin Hnd].
    simpl for_each. unfold bind at 1.
    destruct (is_leftover f) eqn:Hf.
    + rewrite (body_deletes _ _ Hf).
      destruct (Hdirs f (or_introl eq_refl) Hf) as [n Hfind].
      unfold shutil_rmtree. simpl. rewrite Hsp, Hfind.
      edestruct (IH (with_site_packages
                       (Some (List.filter (fun e => negb (String.eqb (fst e) f)) cur))
                       (with_logged
                          (logged w ++
                           [(INFO, "delete_egg_dir_leftovers() Deleting dir: %s")]) w))
                   (List.filter (fun e => negb (String.eqb (fst e) f)) cur))
        as (w' & E & Hsp'); [reflexivity | exact Hnd | |].
      * intros g Hg Hlg. rewrite find_filter_other.
        -- apply Hdirs; [right; exact Hg | exact Hlg].
        -- intros ->. apply Hnotin. apply list_elem_of_In. exact Hg.
      * exists w'. rewrite E. split; [reflexivity|].
        rewrite Hsp'. f_equal. apply filter_step. exact Hf.
    + destruct (body_keeps f w Hf) as (w1 & E1 & Hsp1).
      rewrite E1.
      edestruct (IH w1 cur) as (w' & E & Hsp'); [congruence | exact Hnd | |].
      * intros g Hg Hlg. apply Hdirs; [right; exact Hg | exact Hlg].
      * exists w'. rewrite E. split; [reflexivity|].
        rewrite Hsp'. f_equal. apply filter_skip. exact Hf.
Qed.

Lemma log_eq lvl msg w :
  log lvl msg w = (Ret tt, with_logged (logged w ++ [(lvl, msg)]) w).
Proof. reflexivity. Qed.

Lemma find_first_entry (f : string) (l : list (string * entry_kind)) :
  In f (map fst l) ->
  exists n k, find (fun e => String.eqb (fst e) f) l = Some (n, k) /\ In (n, k) l /\ n = f.
Proof.
  induction l as [|[n k] l IH]; simpl; [contradiction|].
  intros H. destruct (String.eqb_spec n f) as [->|Hne].
  - exists f, k. auto.
  - destruct H as [H|H]; [contradiction|].
    destruct (IH H) as (n' & k' & E & Hin & Hn). exists n', k'. auto.
Qed.

Lemma existsb_own_name (e : string * entry_kind) (l : list (string * entry_kind)) :
  In e l -> existsb (String.eqb (fst e)) (map fst l) = true.
Proof.
  intros H. apply existsb_exists. exists (fst e). split.
  - apply in_map. exact H.
  - apply String.eqb_refl.
Qed.

(** With distinct names and every leftover a directory the migration
    returns, and exactly the leftovers are gone. *)
Lemma delete_egg_dir_leftovers_spec w entries :
  site_packages w = Some entries ->
  NoDup (map fst entries) ->
  (forall f k, In (f, k) entries -> is_leftover f = true -> k = Directory) ->
  exists w',
    delete_egg_dir_leftovers self w = (Ret tt, w')
    /\ site_packages w' = Some (List.filter (fun e => negb (is_leftover (fst e))) entries).
Proof.
  intros Hsp Hnd Hdirs.
  unfold delete_egg_dir_leftovers. unfold bind at 1. rewrite log_eq.
  unfold bind at 1. unfold gets.
  change (site_packages (with_logged _ w)) with (site_packages w). rewrite Hsp.
  change (for_each (map fst entries) _) with (for_each (map fst entries) body).
  edestruct (loop_removes_leftovers (map fst entries)) as (w' & E & Hsp');
    [| exact Hnd | | exists w'; split; [exact E|]].
  - simpl. exact Hsp.
  - intros f Hf Hl.
    destruct (find_first_entry f entries Hf) as (n & k & Efind & Hin & ->).
    rewrite Efind. rewrite (Hdirs f k Hin Hl). eauto.
  - rewrite Hsp'. f_equal. apply List.filter_ext_in. intros e He.
    rewrite (existsb_own_name e entries He), andb_true_r. reflexivity.
Qed.

(** *** Names that carry nothing after the version *)

Lemma digit_is_no_separator c :
  Str.is_digit c = true ->
  Ascii.eqb c "."%char = false /\ Ascii.eqb c "-"%char = false
  /\ Ascii.eqb c "010"%char = false /\ is_version_char c = true.
Proof.
  destruct c as [[] [] [] [] [] [] [] []]; vm_compute; intros; try discriminate; auto.
Qed.

Lemma isdigit_forallb s : Str.isdigit s = true -> Str.forallb Str.is_digit s = true.
Proof. destruct s; [discriminate | auto]. Qed.

Lemma version_group_digits s :
  Str.forallb Str.is_digit s = true -> version_group s = None.
Proof.
  induction s as [|c s IH]; simpl; [reflexivity|].
  intros H. apply andb_prop in H as [Hc Hs].
  destruct (digit_is_no_separator c Hc) as (_ & _ & _ & ->).
  rewrite (IH Hs).
  destruct s as [|d s']; [reflexivity|]. simpl.
  simpl in Hs. apply andb_prop in Hs as [Hd _].
  destruct (digit_is_no_separator d Hd) as (-> & -> & _).
  destruct s'; reflexivity.
Qed.

Lemma version_group_cons c rest :
  version_group (String c rest) =
  if is_version_char c then
    match version_group rest with
    | Some v => Some (String c v)
    | None => if suffix_matches rest then Some (String c EmptyString) else None
    end
  else None.
Proof. reflexivity. Qed.

Lemma version_group_last_dot p z :
  p <> EmptyString ->
  Str.forallb is_version_char p = true ->
  Str.isdigit z = true ->
  version_group (p +:+ "." +:+ z) = Some p.
Proof.
  intros Hp Hv Hz. destruct z as [|d z]; [discriminate|].
  pose proof (version_group_digits _ (isdigit_forallb _ Hz)) as Hvg.
  simpl in Hz. apply andb_prop in Hz as [Hd Hz].
  destruct (digit_is_no_separator d Hd) as (Hd1 & Hd2 & Hd3 & _).
  assert (version_group (String "." (String d z)) = None) as Hdot.
  { rewrite version_group_cons, Hvg. simpl. rewrite Hd1, Hd2.
    destruct z; reflexivity. }
  induction p as [|c p IH]; [contradiction|].
  simpl in Hv. apply andb_prop in Hv as [Hc Hv].
  change (String c p +:+ "." +:+ String d z)
    with (String c (p +:+ String "." (String d z))).
  rewrite version_group_cons, Hc.
  destruct p as [|c' p'].
  - change (EmptyString +:+ String "." (String d z)) with (String "." (String d z)).
    rewrite Hdot. simpl. rewrite Hd3. reflexivity.
  - change (String "." (String d z)) with ("." +:+ String d z).
    rewrite IH; [reflexivity | discriminate | exact Hv].
Qed.

Lemma forallb_app f a b :
  Str.forallb f (a +:+ b) = Str.forallb f a && Str.forallb f b.
Proof.
  induction a as [|c a IH]; simpl; [reflexivity|]. rewrite IH, andb_assoc. reflexivity.
Qed.

Lemma digits_are_version_chars s :
  Str.forallb Str.is_digit s = true -> Str.forallb is_version_char s = true.
Proof.
  induction s as [|c s IH]; simpl; [reflexivity|].
  intros H. apply andb_prop in H as [Hc Hs].
  destruct (digit_is_no_separator c Hc) as (_ & _ & _ & ->). simpl. auto.
Qed.

Lemma span_digits_app x r :
  Str.forallb Str.is_digit x = true ->
  match r with EmptyString => True | String c _ => Str.is_digit c = false end ->
  Str.span_digits (x +:+ r) = (x, r).
Proof.
  intros Hx Hr. unfold Str.span_digits. induction x as [|c x IH]; simpl.
  - destruct r as [|c r]; [reflexivity|]. simpl. rewrite Hr. reflexivity.
  - simpl in Hx. apply andb_prop in Hx as [Hc Hx]. rewrite Hc, (IH Hx). reflexivity.
Qed.

Lemma digits1_app x r :
  Str.isdigit x = true ->
  match r with EmptyString => True | String c _ => Str.is_digit c = false end ->
  StrictVersion.digits1 (x +:+ r) = Some (Str.atoi x, r).
Proof.
  intros Hx Hr. unfold StrictVersion.digits1.
  rewrite (span_digits_app x r (isdigit_forallb x Hx) Hr).
  destruct x; [discriminate | reflexivity].
Qed.

Lemma append_empty_r s : s +:+ EmptyString = s.
Proof.
  induction s as [|c s IH]; [reflexivity|].
  change (String c (s +:+ EmptyString) = String c s). f_equal. exact IH.
Qed.

Lemma append_assoc a b c : (a +:+ b) +:+ c = a +:+ b +:+ c.
Proof.
  induction a as [|x a IH]; [reflexivity|].
  change (String x ((a +:+ b) +:+ c) = String x (a +:+ b +:+ c)). f_equal. exact IH.
Qed.

Lemma digits1_all x :
  Str.isdigit x = true -> StrictVersion.digits1 x = Some (Str.atoi x, EmptyString).
Proof.
  intros Hx. pose proof (digits1_app x EmptyString Hx I) as H.
  rewrite append_empty_r in H. exact H.
Qed.

Lemma strict_parse_two x y :
  Str.isdigit x = true -> Str.isdigit y = true ->
  StrictVersion.parse (x +:+ "." +:+ y) =
  Ret (StrictVersion.mk (Str.atoi x, Str.atoi y, 0) None).
Proof.
  intros Hx Hy. unfold StrictVersion.parse.
  rewrite (digits1_app x ("." +:+ y) Hx) by reflexivity.
  change ("." +:+ y) with (String "." y).
  cbn -[StrictVersion.digits1 Str.atoi].
  rewrite (digits1_all y Hy). reflexivity.
Qed.

Lemma strict_parse_three x y z :
  Str.isdigit x = true -> Str.isdigit y = true -> Str.isdigit z = true ->
  StrictVersion.parse (x +:+ "." +:+ y +:+ "." +:+ z) =
  Ret (StrictVersion.mk (Str.atoi x, Str.atoi y, Str.atoi z) None).
Proof.
  intros Hx Hy Hz. unfold StrictVersion.parse.
  rewrite (digits1_app x ("." +:+ y +:+ "." +:+ z) Hx) by reflexivity.
  cbn -[StrictVersion.digits1 Str.atoi String.append].
  change ("." +:+ y +:+ "." +:+ z) with (String "." (y +:+ "." +:+ z)).
  cbn -[StrictVersion.digits1 Str.atoi String.append].
  rewrite (digits1_app y ("." +:+ z) Hy) by reflexivity.
  change ("." +:+ z) with (String "." z).
  cbn -[StrictVersion.digits1 Str.atoi].
  rewrite (digits1_all z Hz). reflexivity.
Qed.

Lemma re_match_version_bare x y z :
  Str.isdigit x = true -> Str.isdigit y = true -> Str.isdigit z = true ->
  re_match_version ("Mr_Beam-" +:+ x +:+ "." +:+ y +:+ "." +:+ z) = Some (x +:+ "." +:+ y).
Proof.
  intros Hx Hy Hz.
  change (re_match_version _) with (version_group (x +:+ "." +:+ y +:+ "." +:+ z)).
  replace (x +:+ "." +:+ y +:+ "." +:+ z) with ((x +:+ "." +:+ y) +:+ "." +:+ z).
  - apply version_group_last_dot; [| |exact Hz].
    + destruct x; discriminate.
    + rewrite !forallb_app.
      rewrite (digits_are_version_chars x (isdigit_forallb x Hx)).
      rewrite (digits_are_version_chars y (isdigit_forallb y Hy)). reflexivity.
  - rewrite !append_assoc. reflexivity.
Qed.

(** C10, with the two conditions the deletion depends on: an entry named
    [Mr_Beam-X.Y.Z] with nothing after the version still matches the
    pattern; the greedy group gives back the last dot and what follows it,
    so the version read is [X.Y]. Whenever [X.Y] is below 0.1.17 (as 0.1
    is) the entry is selected whatever [Z] is, and in a listing with
    distinct names whose selected entries are all directories it is
    deleted, also when [X.Y.Z] is 0.1.17 or above. *)
Theorem bare_version_entry_is_truncated :
  forall x y z : string,
    Str.isdigit x = true -> Str.isdigit y = true -> Str.isdigit z = true ->
    let f := "Mr_Beam-" +:+ x +:+ "." +:+ y +:+ "." +:+ z in
    re_match_version f = Some (x +:+ "." +:+ y)
    /\ StrictVersion.parse (x +:+ "." +:+ y) =
       Ret (StrictVersion.mk (Str.atoi x, Str.atoi y, 0) None)
    /\ StrictVersion.parse (x +:+ "." +:+ y +:+ "." +:+ z) =
       Ret (StrictVersion.mk (Str.atoi x, Str.atoi y, Str.atoi z) None)
    /\ is_leftover f =
       StrictVersion.lt (StrictVersion.mk (Str.atoi x, Str.atoi y, 0) None)
         (StrictVersion.mk (0, 1, 17) None)
    /\ (StrictVersion.lt (StrictVersion.mk (Str.atoi x, Str.atoi y, 0) None)
          (StrictVersion.mk (0, 1, 17) None) = true ->
        forall (w : World) (entries : list (string * entry_kind)),
          site_packages w = Some entries ->
          NoDup (map fst entries) ->
          (forall g k, In (g, k) entries -> is_leftover g = true -> k = Directory) ->
          In (f, Directory) entries ->
          exists w' entries',
            delete_egg_dir_leftovers self w = (Ret tt, w')
            /\ site_packages w' = Some entries'
            /\ forall k, ~ In (f, k) entries').
Proof.
  intros x y z Hx Hy Hz f.
  pose proof (re_match_version_bare x y z Hx Hy Hz) as Hm.
  pose proof (strict_parse_two x y Hx Hy) as Hp.
  assert (is_leftover f =
          StrictVersion.lt (StrictVersion.mk (Str.atoi x, Str.atoi y, 0) None)
            (StrictVersion.mk (0, 1, 17) None)) as Hl.
  { unfold is_leftover. subst f. rewrite Hm, Hp.
    change (StrictVersion.parse VERSION_DELETE_EGG_DIR_LEFTOVERS)
      with (Ret (StrictVersion.mk (0, 1, 17) None)).
    cbv beta iota.
    destruct (StrictVersion.eq _ _) eqn:E; [|reflexivity].
    unfold StrictVersion.lt, StrictVersion.eq in *.
    destruct (StrictVersion.cmp _ _); simpl in *; congruence. }
  repeat split; try assumption.
  - apply strict_parse_three; assumption.
  - intros L w entries Hsp Hnd Hdirs Hin.
    destruct (delete_egg_dir_leftovers_spec w entries Hsp Hnd Hdirs) as (w' & E & Hsp').
    exists w', (List.filter (fun e => negb (is_leftover (fst e))) entries).
    repeat split; try assumption.
    intros k Hk. apply filter_In in Hk as [_ Hk]. simpl in Hk.
    rewrite Hl, L in Hk. discriminate.
Qed.

(** What C10 leaves out. A bare name whose truncated version is not
    below 0.1.17 is kept: [Mr_Beam-0.2.5] is read as 0.2. And a bare name
    that is selected is still not deleted when an egg file stands before
    it in the listing: [shutil.rmtree] raises [OSError] at the file and the
    loop never reaches [Mr_Beam-0.1.18]. *)
Lemma bare_version_entry_is_kept :
  (re_match_version "Mr_Beam-0.2.5" = Some "0.2"
   /\ delete_egg_dir_leftovers (mkMigration Examples.plugin_2C (Some "0.1.12") "0.1.20")
        (with_site_packages (Some [("Mr_Beam-0.2.5", Directory)]) (Examples.device None))
      = (Ret tt,
         with_logged [(INFO, "delete_egg_dir_leftovers() ")]
           (with_site_packages (Some [("Mr_Beam-0.2.5", Directory)]) (Examples.device None))))
  /\ (re_match_version "Mr_Beam-0.1.18" = Some "0.1"
      /\ delete_egg_dir_leftovers (mkMigration Examples.plugin_2C (Some "0.1.12") "0.1.20")
           (with_site_packages
              (Some [("Mr_Beam-0.1.9-py2.7.egg", RegularFile); ("Mr_Beam-0.1.18", Directory)])
              (Examples.device None))
         = (Raise OSError,
            with_logged
              [(INFO, "delete_egg_dir_leftovers() ");
               (INFO, "delete_egg_dir_leftovers() Deleting dir: %s")]
              (with_site_packages
                 (Some [("Mr_Beam-0.1.9-py2.7.egg", RegularFile); ("Mr_Beam-0.1.18", Directory)])
                 (Examples.device None)))).
Proof. repeat split; vm_compute; reflexivity. Qed.

(** C4, on a listing that holds an egg file. With the two directories
    alone, [Mr_Beam-0.1.10.dist] is deleted and [Mr_Beam-0.1.20.dist] is
    left. With the regular file [Mr_Beam-0.1.9-py2.7.egg] listed before
    [Mr_Beam-0.1.10.dist], [shutil.rmtree] raises [OSError] at the file: the
    step is abandoned after the record of that deletion, and both the file
    and the directory [Mr_Beam-0.1.10.dist] are still there. *)
Theorem delete_egg_dir_leftovers_stops_at_egg_file :
  delete_egg_dir_leftovers (mkMigration Examples.plugin_2C (Some "0.1.12") "0.1.20")
    (Examples.device (Some "0.1.12"))
  = (Ret tt,
     with_logged
       [(INFO, "delete_egg_dir_leftovers() ");
        (INFO, "delete_egg_dir_leftovers() Deleting dir: %s")]
       (with_site_packages (Some [("Mr_Beam-0.1.20.dist", Directory)])
          (Examples.device (Some "0.1.12"))))
  /\ site_packages MoreExamples.device_with_egg_file
     = Some [("Mr_Beam-0.1.20.dist", Directory);
             ("Mr_Beam-0.1.9-py2.7.egg", RegularFile);
             ("Mr_Beam-0.1.10.dist", Directory)]
  /\ delete_egg_dir_leftovers (mkMigration Examples.plugin_2C (Some "0.1.12") "0.1.20")
       MoreExamples.device_with_egg_file
     = (Raise OSError,
        with_logged
          [(INFO, "delete_egg_dir_leftovers() ");
           (INFO, "delete_egg_dir_leftovers() Deleting dir: %s")]
          MoreExamples.device_with_egg_file).
Proof. repeat split; vm_compute; reflexivity. Qed.

End EggLeftovers.

(** ** The shell helper *)

Section ShellHelper.

Import Migrate.

(** C6, as the code has it: a command whose process runs gives the pair
    of its output and exit code, zero or not, and [CalledProcessError]
    never leaves the helper; when the program cannot be started the
    [OSError] of [subprocess.check_output] reaches the caller. *)
Theorem exec_cmd_output_cases :
  forall (self : Migration) (cmd : list string) (w : World),
    match processes w (executed w) cmd with
    | Exited returncode output =>
        fst (_exec_cmd_output self cmd w) = Ret (output, returncode)
    | NotStarted => fst (_exec_cmd_output self cmd w) = Raise OSError
    end.
Proof.
  intros self cmd w.
  unfold _exec_cmd_output, bind, try_except, subprocess_check_output, log, modify, ret.
  simpl. destruct (processes w (executed w) cmd) as [[|code|code] output|]; reflexivity.
Qed.

(** C6 as stated fails: without [sudo] the helper raises. *)
Lemma exec_cmd_output_raises_OSError :
  fst (_exec_cmd_output
         (mkMigration Examples.plugin_2C (Some "0.1.18") "0.1.20")
         ["sudo"; "chmod"; "+x"; iptables_file]
         Examples.device_without_sudo)
  = Raise OSError.
Proof. reflexivity. Qed.

End ShellHelper.

(** ** The default profile of the C series *)

Section DefaultProfile.

Import Migrate.
Local Open Scope py_scope.

(** C5: without a saved profile [MrBeam2C] the current default is copied,
    renamed and saved over whatever is there as the new default, with
    [legacy.job_done_home_position_x = 250]; with one it only becomes the
    default and the store is left as it is. Series 2C on the generic
    profile takes this path and then saves the current version. *)
Theorem set_lasercutterProfile_2C_cases :
  forall (self : Migration) (w : World),
    (Profile.exists_ (profiles w) "MrBeam2C" = false ->
     let created :=
       Profile.mk "MrBeam2C" "MrBeam2" "C"
         (Profile.laser (Profile.get_default (profiles w)))
         (Profile.dust (Profile.get_default (profiles w)))
         (Some {["job_done_home_position_x" := 250%Z]}) in
     exists w',
       set_lasercutterPorfile_2C self w = (Ret tt, w')
       /\ Profile.saved (profiles w') = <["MrBeam2C" := created]> (Profile.saved (profiles w))
       /\ Profile.default_id (profiles w') = "MrBeam2C"
       /\ Profile.get_default (profiles w') = created)
    /\ (Profile.exists_ (profiles w) "MrBeam2C" = true ->
        exists w',
          set_lasercutterPorfile_2C self w = (Ret tt, w')
          /\ Profile.saved (profiles w') = Profile.saved (profiles w)
          /\ Profile.default_id (profiles w') = "MrBeam2C"
          /\ Profile.saved (profiles w) !! "MrBeam2C" = Some (Profile.get_default (profiles w')))
    /\ (_device_series (plugin self) = "2C" ->
        Profile.id (Profile.get_default (profiles w)) = "my_default" ->
        set_lasercutterProfile self w =
        (log INFO "set_lasercutterPorfile() Setting lasercutterProfile for device '%s'" ;;;
         set_lasercutterPorfile_2C self ;;;
         save_current_version self) w).
Proof.
  intros self w. split; [|split].
  - intros Hex created.
    unfold set_lasercutterPorfile_2C, bind, laserCutterProfileManager_exists,
      laserCutterProfileManager_get_default, gets.
    rewrite Hex, manager_save_overwrite. eexists. split; [reflexivity|].
    cbn -[insert lookup]. unfold Profile.set_default, Profile.exists_. cbn -[insert lookup].
    rewrite lookup_insert_eq.
    rewrite bool_decide_eq_true_2 by eauto.
    unfold Profile.get_default. cbn -[insert lookup]. rewrite lookup_insert_eq.
    repeat split; reflexivity.
  - intros Hex.
    unfold set_lasercutterPorfile_2C, bind, laserCutterProfileManager_exists,
      laserCutterProfileManager_set_default, gets, modify, log.
    rewrite Hex. eexists. split; [reflexivity|].
    cbn -[insert lookup]. unfold Profile.set_default. rewrite Hex.
    unfold Profile.get_default. cbn -[insert lookup].
    unfold Profile.exists_ in Hex. apply bool_decide_eq_true_1 in Hex as [p Hp].
    rewrite Hp. repeat split; reflexivity.
  - intros Hseries Hid.
    unfold set_lasercutterProfile, bind at 1, laserCutterProfileManager_get_default, gets.
    rewrite Hid, Hseries. reflexivity.
Qed.

End DefaultProfile.

(** ** The runner *)

Section Runner.

Import Migrate.
Local Open Scope py_scope.

Lemma bind_cong {A B} (m : M World A) (k k' : A -> M World B) w :
  (forall a w', k a w' = k' a w') -> bind m k w = bind m k' w.
Proof.
  intros H. unfold bind. destruct (m w) as [[a|e] w']; [apply H | reflexivity].
Qed.

Lemma bind_pure {A B} (m : M World A) (k : A -> M World B) a w :
  m w = (Ret a, w) -> bind m k w = k a w.
Proof. intros H. unfold bind. rewrite H. reflexivity. Qed.

Lemma bind_returned {A B} (m : M World A) (k : A -> M World B) w r w' :
  bind m k w = (Ret r, w') -> exists a w1, k a w1 = (Ret r, w').
Proof.
  unfold bind. destruct (m w) as [[a|e] w1]; [eauto | discriminate].
Qed.

Lemma ends_with_save self (body : M World unit) w :
  (forall w1 w', body w1 = (Ret tt, w') -> settings_version w' = Some (version_current self)) ->
  ~ In (EXCEPTION, "Unhandled exception during migration: ")
       (logged (snd (try_except body
                       (fun _ => Some (log EXCEPTION "Unhandled exception during migration: "))
                       w))) ->
  settings_version
    (snd (try_except body
            (fun _ => Some (log EXCEPTION "Unhandled exception during migration: ")) w))
  = Some (version_current self).
Proof.
  intros Hbody. unfold try_except.
  destruct (body w) as [[[]|e] w'] eqn:E; simpl.
  - intros _. apply (Hbody w w' E).
  - intros H. exfalso. apply H. apply in_or_app. right. left. reflexivity.
Qed.

Lemma save_current_version_saves self w1 w' :
  save_current_version self w1 = (Ret tt, w') ->
  settings_version w' = Some (version_current self).
Proof. intros [= <-]. reflexivity. Qed.

Lemma migrate_from_0_0_0_sets_fields self w :
  exists w',
    migrate_from_0_0_0 self w = (Ret tt, w')
    /\ Profile.laser (Profile.get_default (profiles w')) !! "intensity_factor" = Some 13%Z
    /\ Profile.dust (Profile.get_default (profiles w')) !! "auto_mode_time" = Some 60%Z.
Proof.
  unfold migrate_from_0_0_0, bind, laserCutterProfileManager_get_default, gets.
  rewrite !log_eq, manager_save_overwrite. eexists. split; [reflexivity|].
  cbn -[insert lookup]. unfold Profile.set_default, Profile.exists_. cbn -[insert lookup].
  rewrite lookup_insert_eq. rewrite bool_decide_eq_true_2 by eauto.
  unfold Profile.get_default. cbn -[insert lookup]. rewrite lookup_insert_eq.
  cbn -[insert lookup]. rewrite !lookup_insert_eq. split; reflexivity.
Qed.

(** The program [run] comes down to from 0.1.12 and from 0.1.18 to
    0.1.20, once the version gates are decided. *)
Lemma run_gated_steps_program :
  forall (series : string) (w : World),
    let plugin := mkPlugin "0.1.20" series in
    let unhandled :=
      fun _ : exn => Some (log EXCEPTION "Unhandled exception during migration: ") in
    (settings_version w = Some "0.1.12" ->
     let self := mkMigration plugin (Some "0.1.12") "0.1.20" in
     migrate plugin w =
     try_except
       (profile_set <- is_lasercutterProfile_set self ;;
        (if negb profile_set then set_lasercutterProfile self else ret tt) ;;;
        log INFO "Starting migration from v{} to v{}" ;;;
        migrate_from_0_0_0 self ;;;
        delete_egg_dir_leftovers self ;;;
        setup_iptables self ;;;
        save_current_version self)
       unhandled w
     /\ (~ In (EXCEPTION, "Unhandled exception during migration: ")
             (logged (snd (migrate plugin w))) ->
         settings_version (snd (migrate plugin w)) = Some "0.1.20"))
    /\ (settings_version w = Some "0.1.18" ->
        let self := mkMigration plugin (Some "0.1.18") "0.1.20" in
        migrate plugin w =
        try_except
          (profile_set <- is_lasercutterProfile_set self ;;
           (if negb profile_set then set_lasercutterProfile self else ret tt) ;;;
           log INFO "Starting migration from v{} to v{}" ;;;
           setup_iptables self ;;;
           save_current_version self)
          unhandled w
        /\ (~ In (EXCEPTION, "Unhandled exception during migration: ")
                (logged (snd (migrate plugin w))) ->
            settings_version (snd (migrate plugin w)) = Some "0.1.20"))
    /\ (forall self : Migration,
           exists w',
             migrate_from_0_0_0 self w = (Ret tt, w')
             /\ Profile.laser (Profile.get_default (profiles w')) !! "intensity_factor"
                = Some 13%Z
             /\ Profile.dust (Profile.get_default (profiles w')) !! "auto_mode_time"
                = Some 60%Z).
Proof.
  intros series w plugin unhandled. split; [|split]; cycle 2.
  - intros self. apply migrate_from_0_0_0_sets_fields.
  - intros Hprev self.
    assert (migrate plugin w =
            try_except
              (profile_set <- is_lasercutterProfile_set self ;;
               (if negb profile_set then set_lasercutterProfile self else ret tt) ;;;
               log INFO "Starting migration from v{} to v{}" ;;;
               migrate_from_0_0_0 self ;;;
               delete_egg_dir_leftovers self ;;;
               setup_iptables self ;;;
               save_current_version self)
              unhandled w) as Hrun.
    { unfold migrate, __init__. unfold bind at 1. unfold gets. rewrite Hprev.
      fold plugin. change (mkMigration plugin (Some "0.1.12") (_plugin_version plugin)) with self.
      unfold run, try_except. fold unhandled.
      assert (forall (b1 b2 : M World unit), b1 w = b2 w ->
               match b1 w with
               | (Ret a, w') => (Ret a, w')
               | (Raise e, w') => match unhandled e with
                                  | Some h => h w'
                                  | None => (Raise e, w')
                                  end
               end =
               match b2 w with
               | (Ret a, w') => (Ret a, w')
               | (Raise e, w') => match unhandled e with
                                  | Some h => h w'
                                  | None => (Raise e, w')
                                  end
               end) as Hcong by (intros b1 b2 ->; reflexivity).
      apply Hcong. clear Hcong.
      apply bind_cong. intros profile_set w1.
      apply bind_cong. intros _ w2.
      rewrite (bind_pure (is_migration_required self) _ (Some true) w2) by reflexivity.
      cbn [truthy].
      apply bind_cong. intros _ w3.
      rewrite (bind_pure (previous_older_than self "0.1.13") _ true w3) by reflexivity.
      apply bind_cong. intros _ w4.
      rewrite (bind_pure (previous_older_than self VERSION_DELETE_EGG_DIR_LEFTOVERS) _ true w4)
        by reflexivity.
      apply bind_cong. intros _ w5.
      rewrite (bind_pure (previous_older_than self VERSION_SETUP_IPTABLES) _ true w5)
        by reflexivity.
      reflexivity. }
    split; [exact Hrun|].
    rewrite Hrun. apply (ends_with_save self).
    intros w1 w' E.
    repeat (apply bind_returned in E as (? & ? & E)).
    apply (save_current_version_saves self _ _ E).
  - intros Hprev self.
    assert (migrate plugin w =
            try_except
              (profile_set <- is_lasercutterProfile_set self ;;
               (if negb profile_set then set_lasercutterProfile self else ret tt) ;;;
               log INFO "Starting migration from v{} to v{}" ;;;
               setup_iptables self ;;;
               save_current_version self)
              unhandled w) as Hrun.
    { unfold migrate, __init__. unfold bind at 1. unfold gets. rewrite Hprev.
      fold plugin. change (mkMigration plugin (Some "0.1.18") (_plugin_version plugin)) with self.
      unfold run, try_except. fold unhandled.
      assert (forall (b1 b2 : M World unit), b1 w = b2 w ->
               match b1 w with
               | (Ret a, w') => (Ret a, w')
               | (Raise e, w') => match unhandled e with
                                  | Some h => h w'
                                  | None => (Raise e, w')
                                  end
               end =
               match b2 w with
               | (Ret a, w') => (Ret a, w')
               | (Raise e, w') => match unhandled e with
                                  | Some h => h w'
                                  | None => (Raise e, w')
                                  end
               end) as Hcong by (intros b1 b2 ->; reflexivity).
      apply Hcong. clear Hcong.
      apply bind_cong. intros profile_set w1.
      apply bind_cong. intros _ w2.
      rewrite (bind_pure (is_migration_required self) _ (Some true) w2) by reflexivity.
      cbn [truthy].
      apply bind_cong. intros _ w3.
      rewrite (bind_pure (previous_older_than self "0.1.13") _ false w3) by reflexivity.
      rewrite (bind_pure (ret tt) _ tt w3) by reflexivity.
      rewrite (bind_pure (previous_older_than self VERSION_DELETE_EGG_DIR_LEFTOVERS) _ false w3)
        by reflexivity.
      rewrite (bind_pure (ret tt) _ tt w3) by reflexivity.
      rewrite (bind_pure (previous_older_than self VERSION_SETUP_IPTABLES) _ true w3)
        by reflexivity.
      reflexivity. }
    split; [exact Hrun|].
    rewrite Hrun. apply (ends_with_save self).
    intros w1 w' E.
    repeat (apply bind_returned in E as (? & ? & E)).
    apply (save_current_version_saves self _ _ E).
Qed.

End Runner.

(** ** Semantic versions *)

Section SemVerFacts.

Import Cmp.






End SemVerFacts.

(** ** The tag of the configuration repository *)

Section TagLookup.

Import SoftwareUpdate.
Context {env : Environment}.

Lemma log_appends lvl msg (w : World) :
  log lvl msg w =
  (Ret tt, mkWorld (logged w ++ [(lvl, msg)]) (notifications w) (written w)
             (version_cache_dirty w)).
Proof. reflexivity. Qed.


End TagLookup.

(** ** Overrides by image date *)

Section BeamosDate.

Import SoftwareUpdate Value.
Context {env : Environment}.

Lemma getitem_contains c k v : getitem c k = Ret v -> contains k c = Ret true.
Proof.
  destruct c; simpl; try discriminate. unfold has_key.
  destruct (assoc_get k d); [reflexivity | discriminate].
Qed.

Lemma contains_dict k d : contains k (PDict d) = Ret (has_key k d).
Proof. reflexivity. Qed.

(** The body of the loop over the dated entries. *)
Let round (beamos_date : Date.t) (tierversion : string)
  : Value.t * Date.t -> string * Value.t -> M World (Value.t * Date.t) :=
  fun '(beamos_date_config, prev_beamos_date_entry) '(date, beamos_config) =>
    (entry_date <- lift (Date.strptime date) ;;
     if Date.ge beamos_date entry_date && Date.lt prev_beamos_date_entry beamos_date
     then
       prev_beamos_date_entry <- lift (Date.strptime date) ;;
       has_tier <- lift (contains tierversion beamos_config) ;;
       beamos_config <-
         (if has_tier then
            beamos_config_module_tier <- lift (getitem beamos_config tierversion) ;;
            ret (dict_merge beamos_config beamos_config_module_tier)
          else ret beamos_config) ;;
       ret (dict_merge beamos_date_config beamos_config, prev_beamos_date_entry)
     else ret (beamos_date_config, prev_beamos_date_entry))%py.

Lemma generate_config_of_beamos_loop moduleconfig beamos_date tierversion entries (w : World) :
  getitem moduleconfig "beamos_date" = Ret (PDict entries) ->
  _generate_config_of_beamos moduleconfig beamos_date tierversion w =
  (log DEBUG "generate config of beamos {}" ;;;
   state <- fold_each entries (PDict [], Date.mk 2000 1 1) (round beamos_date tierversion) ;;
   log DEBUG "generate config of beamos {}" ;;;
   ret (fst state))%py w.
Proof.
  intros Hget. unfold _generate_config_of_beamos, bind, lift.
  rewrite log_appends, (getitem_contains _ _ _ Hget), Hget. reflexivity.
Qed.

(** One round of the loop for an entry that qualifies. *)
Lemma round_merges beamos_date tierversion acc prev date entry_date d (w : World) :
  Date.strptime date = Ret entry_date ->
  Date.ge beamos_date entry_date && Date.lt prev beamos_date = true ->
  round beamos_date tierversion (acc, prev) (date, PDict d) w
  = (Ret (dict_merge acc
            (match assoc_get tierversion d with
             | Some t => dict_merge (PDict d) t
             | None => PDict d
             end), entry_date), w).
Proof.
  intros Hdate Hq. unfold round, bind, lift, ret. rewrite Hdate, Hq, contains_dict.
  unfold has_key, getitem. destruct (assoc_get tierversion d); reflexivity.
Qed.

(** C8: with the entries of 2020-01-01 and 2021-06-01 and an image of
    2021-12-01 both entries qualify and both are merged into the result,
    one after the other in the order the map gives them; each entry
    first takes its own override for the tier. *)
Theorem generate_config_of_beamos_accumulates :
  forall (moduleconfig : Value.t) (d1 d2 : list (string * Value.t))
         (tierversion : string) (w : World),
    let tiered := fun d =>
      match assoc_get tierversion d with
      | Some t => dict_merge (PDict d) t
      | None => PDict d
      end in
    (getitem moduleconfig "beamos_date" =
       Ret (PDict [("2020-01-01", PDict d1); ("2021-06-01", PDict d2)]) ->
     fst (_generate_config_of_beamos moduleconfig (Date.mk 2021 12 1) tierversion w) =
     Ret (dict_merge (dict_merge (PDict []) (tiered d1)) (tiered d2)))
    /\ (getitem moduleconfig "beamos_date" =
          Ret (PDict [("2021-06-01", PDict d2); ("2020-01-01", PDict d1)]) ->
        fst (_generate_config_of_beamos moduleconfig (Date.mk 2021 12 1) tierversion w) =
        Ret (dict_merge (dict_merge (PDict []) (tiered d2)) (tiered d1))).
Proof.
  intros moduleconfig d1 d2 tierversion w tiered. split; intros Hget.
  - rewrite (generate_config_of_beamos_loop _ _ _ _ _ Hget).
    unfold bind at 1. rewrite log_appends.
    unfold bind at 1. cbn [fold_each].
    unfold bind at 1.
    rewrite (round_merges _ _ _ _ _ (Date.mk 2020 1 1)) by reflexivity.
    unfold bind at 1.
    rewrite (round_merges _ _ _ _ _ (Date.mk 2021 6 1)) by reflexivity.
    reflexivity.
  - rewrite (generate_config_of_beamos_loop _ _ _ _ _ Hget).
    unfold bind at 1. rewrite log_appends.
    unfold bind at 1. cbn [fold_each].
    unfold bind at 1.
    rewrite (round_merges _ _ _ _ _ (Date.mk 2021 6 1)) by reflexivity.
    unfold bind at 1.
    rewrite (round_merges _ _ _ _ _ (Date.mk 2020 1 1)) by reflexivity.
    reflexivity.
Qed.

End BeamosDate.

(** ** A failed write of update_info.json *)

Section WriteFailure.

Import SoftwareUpdate Value.
Context {env : Environment}.
Local Open Scope py_scope.

Lemma bind_ret_inv {S A B} (m : M S A) (k : A -> M S B) w b w' :
  bind m k w = (Ret b, w') ->
  exists a w1, m w = (Ret a, w1) /\ k a w1 = (Ret b, w').
Proof.
  unfold bind. destruct (m w) as [[a|e] w1]; [eauto | discriminate].
Qed.

Ltac invert_bind H :=
  let a := fresh "a" in
  let w1 := fresh "w" in
  let Hm := fresh "Hm" in
  apply bind_ret_inv in H as (a & w1 & Hm & H).

Lemma failed_write_returns_none path data (w : World) :
  write_file path data = Some IOError \/ write_file path data = Some TypeError ->
  try_except
    (write_json path data ;;; ret (Some data))
    (fun e => match e with
              | IOError | TypeError =>
                  Some (log ERROR "can't create update info file" ;;;
                        show_notification "write_error_update_info_file_err" ;;;
                        ret None)
              | _ => None
              end) w
  = (Ret None,
     mkWorld (logged w ++ [(ERROR, "can't create update info file")])
       (notifications w ++ ["write_error_update_info_file_err"])
       (written w) (version_cache_dirty w)).
Proof.
  intros H. unfold try_except, bind, write_json.
  destruct H as [-> | ->]; reflexivity.
Qed.

Lemma set_info_never_returns_config plugin tier beamos_date cloud_config (w : World) :
  (forall path data,
      write_file path data = Some IOError \/ write_file path data = Some TypeError) ->
  forall v w', _set_info_from_cloud_config plugin tier beamos_date cloud_config w
               <> (Ret (Some v), w').
Proof.
  intros Hw v w' H.
  unfold _set_info_from_cloud_config, logExceptions in H.
  unfold try_except at 1 in H.
  match type of H with
  | match ?body w with _ => _ end = _ => destruct (body w) as [[r|e] w0] eqn:E
  end.
  - injection H as -> ->.
    destruct (truthy cloud_config); [|discriminate E].
    do 6 invert_bind E.
    rewrite (failed_write_returns_none _ _ _ (Hw _ _)) in E. discriminate E.
  - unfold bind, log, modify, raise in H. discriminate H.
Qed.

(** *** The fallback document always generates *)

Lemma fold_each_returns {S A B} (P : B -> Prop) (l : list A) (body : B -> A -> M S B) :
  (forall acc x w, P acc -> In x l ->
                   exists acc' w', body acc x w = (Ret acc', w') /\ P acc') ->
  forall acc w, P acc -> exists acc' w', fold_each l acc body w = (Ret acc', w') /\ P acc'.
Proof.
  induction l as [|x l IH]; intros Hbody acc w Hacc.
  - exists acc, w. split; [reflexivity | exact Hacc].
  - destruct (Hbody acc x w Hacc (or_introl eq_refl)) as (acc1 & w1 & E1 & H1).
    destruct (IH (fun acc x w Ha Hx => Hbody acc x w Ha (or_intror Hx)) acc1 w1 H1)
      as (acc2 & w2 & E2 & H2).
    exists acc2, w2. split; [|exact H2].
    simpl. unfold bind. rewrite E1. exact E2.
Qed.

Lemma known_tier tier :
  in_list tier SW_UPDATE_TIERS = true ->
  tier = "ALPHA" \/ tier = "DEV" \/ tier = "PROD" \/ tier = "BETA".
Proof.
  unfold in_list. intros H. apply existsb_exists in H as (t & Hin & Heq).
  apply String.eqb_eq in Heq. subst t.
  change (In tier ["ALPHA"; "DEV"; "PROD"; "BETA"]) in Hin.
  destruct Hin as [<-|[<-|[<-|[<-|[]]]]]; auto.
Qed.

Lemma beamos_absent d beamos_date tierversion (w : World) :
  has_key "beamos_date" d = false ->
  _generate_config_of_beamos (PDict d) beamos_date tierversion w =
  (Ret (PDict []),
   mkWorld (logged w ++ [(DEBUG, "generate config of beamos {}")]) (notifications w)
     (written w) (version_cache_dirty w)).
Proof.
  intros H. unfold _generate_config_of_beamos, bind, lift. rewrite log_appends.
  cbn [contains]. rewrite H. reflexivity.
Qed.

Lemma current_version_of_plugin d module_id plugin (w : World) :
  has_key "global_pip_command" d = false ->
  has_key "pip_command" d = false ->
  _get_curent_version (PDict d) module_id plugin w =
  (Ret (match get_plugin_info plugin module_id with
        | Some version => version
        | None => None
        end, PDict d), w).
Proof.
  intros Hg Hp. unfold _get_curent_version, bind, lift, ret. cbn [contains].
  rewrite Hg. cbn [andb negb]. cbv beta iota. cbn [contains]. rewrite Hp.
  destruct (get_plugin_info plugin module_id); reflexivity.
Qed.

(** A module of the fallback document generates its record in one
    frame, whatever the plugin registry knows about it. *)
Lemma stub_generates n module_id name tier beamos_date plugin (w : World) :
  in_list tier SW_UPDATE_TIERS = true ->
  exists cfg w',
    _generate_config_of_module_at (S n) module_id
      (dict_merge (PDict []) (module_stub name)) (PDict []) tier beamos_date plugin w
    = (Ret (Some cfg), w').
Proof.
  intros Htier. apply known_tier in Htier as Ht.
  unfold _generate_config_of_module_at; fold _generate_config_of_module_at.
  rewrite Htier.
  destruct Ht as [-> | [-> | [-> | ->]]];
    repeat first
      [ rewrite beamos_absent by reflexivity
      | rewrite current_version_of_plugin by reflexivity
      | rewrite log_appends
      | progress cbn -[bind _generate_config_of_module_at get_plugin_info
                       _generate_config_of_beamos _get_curent_version log]
      | unfold bind at 1 ];
    destruct (String.eqb module_id "octoprint");
    repeat first
      [ rewrite log_appends
      | progress cbn -[bind _generate_config_of_module_at get_plugin_info log]
      | unfold bind at 1 ];
    eexists; eexists; reflexivity.
Qed.

Lemma fallback_modules_generate plugin tier beamos_date (w : World) :
  (1 <= recursion_limit)%nat ->
  exists sw_update_config w1,
    generate_modules plugin tier beamos_date (PDict [])
      [("mrbeam", module_stub " MrBeam Plugin");
       ("mrbeamdoc", module_stub "Mr Beam Documentation");
       ("netconnectd", module_stub "OctoPrint-Netconnectd Plugin");
       ("findmymrbeam", module_stub "OctoPrint-FindMyMrBeam")] w
    = (Ret sw_update_config, w1).
Proof.
  intros Hlimit. unfold generate_modules.
  match goal with
  | |- exists cfg w1, fold_each ?l ?acc ?body w = _ =>
      assert (exists acc' w', fold_each l acc body w = (Ret acc', w')
                              /\ exists d, acc' = PDict d) as (cfg & w1 & E & _);
      [apply (fold_each_returns (fun v : Value.t => exists d, v = PDict d));
       [|exists []; reflexivity]
      | exists cfg, w1; exact E]
  end.
  intros acc [module_id module] w0 [d ->] Hin.
  destruct (in_list tier SW_UPDATE_TIERS) eqn:Htier; [|eauto].
  unfold bind at 1. unfold lift at 1. cbn [setitem].
  unfold _generate_config_of_module.
  destruct recursion_limit as [|n]; [lia|].
  assert (exists name, module = module_stub name) as (name & ->).
  { destruct Hin as [H|[H|[H|[H|[]]]]]; injection H as <- <-; eexists; reflexivity. }
  destruct (stub_generates n module_id name tier beamos_date plugin w0 Htier)
    as (generated & w' & E).
  unfold bind. rewrite E. unfold lift. cbn [setitem of_option default].
  eauto.
Qed.

Lemma set_info_write_failure plugin tier beamos_date cloud_config (w : World)
    defaultsettings modules entries sw_update_config w1 :
  truthy cloud_config = true ->
  Value.get cloud_config "default" = Ret defaultsettings ->
  getitem cloud_config "modules" = Ret modules ->
  items modules = Ret entries ->
  generate_modules plugin tier beamos_date defaultsettings entries
    (snd (log DEBUG "update_info {}" w)) = (Ret sw_update_config, w1) ->
  (let path := os_path_join (getBaseFolder_base plugin) SW_UPDATE_INFO_FILE_NAME in
   write_file path sw_update_config = Some IOError
   \/ write_file path sw_update_config = Some TypeError) ->
  _set_info_from_cloud_config plugin tier beamos_date cloud_config w =
  (Ret None,
   mkWorld
     (logged w1 ++ [(DEBUG, "sw_update_config {}");
                    (ERROR, "can't create update info file")])
     (notifications w1 ++ ["write_error_update_info_file_err"])
     (written w1) (version_cache_dirty w1)).
Proof.
  intros Ht Hd Hm Hi Hgen Hwrite.
  unfold _set_info_from_cloud_config, logExceptions. rewrite Ht.
  unfold try_except at 1.
  unfold bind at 1. rewrite log_appends.
  unfold bind at 1. unfold lift at 1. rewrite Hd.
  unfold bind at 1. unfold lift at 1. rewrite Hm.
  unfold bind at 1. unfold lift at 1. rewrite Hi.
  unfold bind at 1. rewrite log_appends in Hgen. simpl snd in Hgen. rewrite Hgen.
  unfold bind at 1. rewrite log_appends.
  rewrite (failed_write_returns_none _ _ _ Hwrite). simpl.
  rewrite <- app_assoc. reflexivity.
Qed.

Lemma fallback_returns_none plugin tier beamos_date (w : World) :
  (forall path data,
      write_file path data = Some IOError \/ write_file path data = Some TypeError) ->
  (1 <= recursion_limit)%nat ->
  fst (_set_info_from_cloud_config plugin tier beamos_date fallback_config w) = Ret None.
Proof.
  intros Hw Hlimit.
  destruct (fallback_modules_generate plugin tier beamos_date
              (snd (log DEBUG "update_info {}" w)) Hlimit) as (cfg & w1 & E).
  erewrite set_info_write_failure; [reflexivity | reflexivity | reflexivity | reflexivity
                                   | reflexivity | exact E | apply Hw].
Qed.

(** What [_set_info_from_cloud_config] returns for the cloud document is
    what the caller of [get_update_information] gets. *)
Lemma cloud_config_result_inv plugin (w : World) info w1 :
  try_except
    (log INFO "SoftwareUpdate using tier: {tier} {beamos_date}" ;;;
     returned <-
       (if check_immediately plugin then
          config_tag <- get_tag_of_github_repo "beamos_config" ;;
          match config_tag with
          | Some tag =>
              cloud_config <- lift (load_repo_file "beamos_config"
                                      "docs/sw-update-conf.json" tag) ;;
              if truthy cloud_config then
                info <- _set_info_from_cloud_config plugin (software_tier plugin)
                          (snd (get_beamos_version plugin)) cloud_config ;;
                ret (Some info)
              else ret None
          | None => ret None
          end
        else
          log WARNING "no internet connection" ;;;
          ret None) ;;
     match returned with
     | Some info => ret (Some info)
     | None =>
         show_notification "missing_updateinformation_info" ;;;
         match get_plugin_info plugin "softwareupdate" with
         | Some _ => _clear_version_cache ;;; ret None
         | None => raise AttributeError
         end
     end)
    (fun e => Some (log EXCEPTION "{}" ;;; ret None)) w
  = (Ret (Some info), w1) ->
  exists cloud_config w0,
    _set_info_from_cloud_config plugin (software_tier plugin)
      (snd (get_beamos_version plugin)) cloud_config w0 = (Ret info, w1).
Proof.
  intros Hm. unfold try_except in Hm.
  match type of Hm with
  | match ?body w with _ => _ end = _ => destruct (body w) as [[r|e] w0] eqn:Eb
  end; [|discriminate Hm].
  injection Hm as -> ->.
  invert_bind Eb. invert_bind Eb.
  destruct a0 as [info'|].
  - injection Eb as -> ->.
    destruct (check_immediately plugin).
    + invert_bind Hm0. destruct a0 as [tag|]; [|discriminate Hm0].
      invert_bind Hm0.
      destruct (truthy a0); [|discriminate Hm0].
      invert_bind Hm0. injection Hm0 as -> ->. eauto.
    + invert_bind Hm0. discriminate Hm0.
  - invert_bind Eb.
    destruct (get_plugin_info plugin "softwareupdate"); [|discriminate Eb].
    invert_bind Eb. discriminate Eb.
Qed.

(** C9: when the write of [update_info.json] fails with [IOError] or
    [TypeError] after the records of all modules were generated,
    [_set_info_from_cloud_config] logs an error, shows
    [write_error_update_info_file_err] and returns [None]. While writes
    fail it never returns a configuration, and [get_update_information]
    hands [None] to its caller on every path. *)
Theorem set_info_discards_config_on_write_failure :
  forall (plugin : Plugin) (tier : string) (beamos_date : Date.t)
         (cloud_config : Value.t) (w : World),
    (forall defaultsettings modules entries sw_update_config w1,
        truthy cloud_config = true ->
        Value.get cloud_config "default" = Ret defaultsettings ->
        getitem cloud_config "modules" = Ret modules ->
        items modules = Ret entries ->
        generate_modules plugin tier beamos_date defaultsettings entries
          (snd (log DEBUG "update_info {}" w)) = (Ret sw_update_config, w1) ->
        (let path := os_path_join (getBaseFolder_base plugin) SW_UPDATE_INFO_FILE_NAME in
         write_file path sw_update_config = Some IOError
         \/ write_file path sw_update_config = Some TypeError) ->
        _set_info_from_cloud_config plugin tier beamos_date cloud_config w =
        (Ret None,
         mkWorld
           (logged w1 ++ [(DEBUG, "sw_update_config {}");
                          (ERROR, "can't create update info file")])
           (notifications w1 ++ ["write_error_update_info_file_err"])
           (written w1) (version_cache_dirty w1)))
    /\ ((forall path data,
            write_file path data = Some IOError \/ write_file path data = Some TypeError) ->
        (forall v, fst (_set_info_from_cloud_config plugin tier beamos_date cloud_config w)
                   <> Ret (Some v))
        /\ (forall v, fst (get_update_information plugin w) <> Ret (Some v))
        /\ ((1 <= recursion_limit)%nat ->
            fst (get_update_information plugin w) = Ret None)).
Proof.
  intros plugin tier beamos_date cloud_config w. split.
  - intros defaultsettings modules entries sw_update_config w1.
    apply set_info_write_failure.
  - intros Hw.
    assert (forall info w1,
               get_update_information plugin w = (Ret info, w1) ->
               forall v, info <> Some v) as Hnever.
    { intros info w1 E v ->.
      unfold get_update_information in E.
      destruct (get_beamos_version plugin) as [beamos_tier beamos_date'] eqn:Ebv.
      invert_bind E.
      destruct a as [info|];
        [|apply (set_info_never_returns_config _ _ _ _ _ Hw _ _ E)].
      injection E as -> ->.
      replace beamos_date' with (snd (get_beamos_version plugin)) in Hm
        by (rewrite Ebv; reflexivity).
      apply cloud_config_result_inv in Hm as (cc & w0 & Hm).
      apply (set_info_never_returns_config _ _ _ _ _ Hw _ _ Hm). }
    split; [|split].
    + intros v H.
      destruct (_set_info_from_cloud_config plugin tier beamos_date cloud_config w)
        as [r w'] eqn:E.
      simpl in H. subst r.
      apply (set_info_never_returns_config _ _ _ _ _ Hw _ _ E).
    + intros v H.
      destruct (get_update_information plugin w) as [r w'] eqn:E.
      simpl in H. subst r. exact (Hnever _ _ eq_refl v eq_refl).
    + intros Hlimit.
      destruct (get_update_information plugin w) as [[[v|]|e] w'] eqn:E; simpl.
      * exfalso. exact (Hnever _ _ eq_refl v eq_refl).
      * reflexivity.
      * exfalso. unfold get_update_information in E.
        destruct (get_beamos_version plugin) as [beamos_tier beamos_date'].
        unfold bind at 1 in E. unfold try_except at 1 in E.
        match type of E with
        | context [match ?body w with _ => _ end] =>
            destruct (body w) as [[[info|]|e0] w0]
        end.
        -- discriminate E.
        -- pose proof (fallback_returns_none plugin (software_tier plugin) beamos_date'
                         w0 Hw Hlimit) as Hf.
           rewrite E in Hf. discriminate Hf.
        -- unfold bind at 1 in E. rewrite log_appends in E. unfold ret at 1 in E.
           pose proof (fallback_returns_none plugin (software_tier plugin) beamos_date'
                         (mkWorld (logged w0 ++ [(EXCEPTION, "{}")]) (notifications w0)
                            (written w0) (version_cache_dirty w0)) Hw Hlimit) as Hf.
           rewrite E in Hf. discriminate Hf.
Qed.

End WriteFailure.

(** ** The theorems at work on the example worlds *)

Section Witnesses.

Import Migrate.

Lemma bare_version_entry_is_truncated_witness :
  re_match_version "Mr_Beam-0.1.18" = Some "0.1"
  /\ StrictVersion.parse "0.1.18" = Ret (StrictVersion.mk (0, 1, 18) None)
  /\ StrictVersion.lt (StrictVersion.mk (0, 1, 18) None) (StrictVersion.mk (0, 1, 17) None)
     = false
  /\ exists w' entries',
       delete_egg_dir_leftovers (mkMigration Examples.plugin_2C (Some "0.1.12") "0.1.20")
         (with_site_packages (Some [("Mr_Beam-0.1.18", Directory)]) (Examples.device None))
       = (Ret tt, w')
       /\ site_packages w' = Some entries'
       /\ forall k, ~ In ("Mr_Beam-0.1.18", k) entries'.
Proof.
  destruct (bare_version_entry_is_truncated
              (mkMigration Examples.plugin_2C (Some "0.1.12") "0.1.20")
              "0" "1" "18" eq_refl eq_refl eq_refl)
    as (Hm & _ & Hp & _ & Hdel).
  split; [exact Hm|]. split; [exact Hp|]. split; [reflexivity|].
  apply (Hdel eq_refl
           (with_site_packages (Some [("Mr_Beam-0.1.18", Directory)]) (Examples.device None))
           [("Mr_Beam-0.1.18", Directory)]).
  - reflexivity.
  - apply (bool_decide_unpack _). vm_compute. exact I.
  - intros f k [H|[]] _. injection H as _ <-. reflexivity.
  - left. reflexivity.
Defined.

Lemma set_lasercutterProfile_2C_cases_witness :
  (exists w',
      set_lasercutterPorfile_2C (mkMigration Examples.plugin_2C None "0.1.20")
        (Examples.device None) = (Ret tt, w')
      /\ Profile.get_default (profiles w') =
         Profile.mk "MrBeam2C" "MrBeam2" "C" {["intensity_factor" := 1%Z]}
           {["auto_mode_time" := 300%Z]} (Some {["job_done_home_position_x" := 250%Z]}))
  /\ (exists w',
         set_lasercutterPorfile_2C (mkMigration Examples.plugin_2C None "0.1.20")
           Examples.device_with_2C = (Ret tt, w')
         /\ Profile.get_default (profiles w') = Examples.profile_2C).
Proof.
  split.
  - destruct (proj1 (set_lasercutterProfile_2C_cases
                       (mkMigration Examples.plugin_2C None "0.1.20")
                       (Examples.device None)) eq_refl)
      as (w' & E & _ & _ & Hd).
    exists w'. split; [exact E | exact Hd].
  - destruct (proj1 (proj2 (set_lasercutterProfile_2C_cases
                              (mkMigration Examples.plugin_2C None "0.1.20")
                              Examples.device_with_2C)) eq_refl)
      as (w' & E & _ & _ & Hd).
    exists w'. split; [exact E|].
    unfold Examples.device_with_2C in Hd. cbn [profiles Profile.saved] in Hd.
    rewrite lookup_singleton_eq in Hd. injection Hd as <-. reflexivity.
Defined.

End Witnesses.

Section UpdateWitnesses.

Import SoftwareUpdate Value.


Lemma generate_config_of_beamos_accumulates_witness :
  let older := [("a", PInt 1); ("b", PInt 1)] in
  let newer := [("b", PInt 2)] in
  fst (_generate_config_of_beamos
         (PDict [("beamos_date", PDict [("2020-01-01", PDict older); ("2021-06-01", PDict newer)])])
         (Date.mk 2021 12 1) "stable" Examples.quiet)
  = Ret (PDict [("a", PInt 1); ("b", PInt 2)])
  /\ fst (_generate_config_of_beamos
            (PDict [("beamos_date", PDict [("2021-06-01", PDict newer); ("2020-01-01", PDict older)])])
            (Date.mk 2021 12 1) "stable" Examples.quiet)
     = Ret (PDict [("b", PInt 1); ("a", PInt 1)]).
Proof.
  intros older newer. split.
  - rewrite (proj1 (generate_config_of_beamos_accumulates
                      (PDict [("beamos_date",
                               PDict [("2020-01-01", PDict older); ("2021-06-01", PDict newer)])])
                      older newer "stable" Examples.quiet) eq_refl).
    reflexivity.
  - rewrite (proj2 (generate_config_of_beamos_accumulates
                      (PDict [("beamos_date",
                               PDict [("2021-06-01", PDict newer); ("2020-01-01", PDict older)])])
                      older newer "stable" Examples.quiet) eq_refl).
    reflexivity.
Defined.

Lemma set_info_discards_config_on_write_failure_witness :
  fst (@_set_info_from_cloud_config Examples.github_up Examples.stable_plugin "PROD"
         (Date.mk 2021 12 1) fallback_config Examples.quiet) = Ret None
  /\ fst (@get_update_information Examples.github_up Examples.stable_plugin Examples.quiet)
     = Ret None.
Proof.
  split.
  - erewrite (proj1 (@set_info_discards_config_on_write_failure Examples.github_up
                       Examples.stable_plugin "PROD" (Date.mk 2021 12 1)
                       fallback_config Examples.quiet)).
    + reflexivity.
    + reflexivity.
    + reflexivity.
    + reflexivity.
    + reflexivity.
    + vm_compute. reflexivity.
    + left. reflexivity.
  - apply (proj2 (@set_info_discards_config_on_write_failure Examples.github_up
                    Examples.stable_plugin "PROD" (Date.mk 2021 12 1)
                    fallback_config Examples.quiet)).
    + intros path data. left. reflexivity.
    + simpl. lia.
Defined.

End UpdateWitnesses.

(** * Further properties of the migration runner *)

Section RunnerEdges.

Import Migrate.
Local Open Scope py_scope.

(** X2: on a device whose default profile is set, a start on the stored
    version or on an older plugin version runs no migration step and
    leaves the stored version: the world only gains the debug record. *)
Theorem migrate_skips_when_not_newer :
  forall (plugin : Plugin) (w : World) (previous : string) (vp vc : StrictVersion.t),
    settings_version w = Some previous ->
    StrictVersion.parse previous = Ret vp ->
    StrictVersion.parse (_plugin_version plugin) = Ret vc ->
    StrictVersion.gt vc vp = false ->
    Profile.id (Profile.get_default (profiles w)) <> "my_default" ->
    migrate plugin w =
    (Ret tt, with_logged (logged w ++ [(DEBUG, "No migration required.")]) w).
Proof.
  intros plugin w previous vp vc Hprev Hp Hc Hgt Hid.
  unfold migrate, __init__. unfold bind at 1. unfold gets. rewrite Hprev.
  unfold run, try_except.
  unfold bind at 1. rewrite is_lasercutterProfile_set_eq.
  apply String.eqb_neq in Hid. rewrite Hid. cbn [negb].
  unfold bind at 1. unfold ret at 1.
  unfold bind at 1.
  rewrite (migration_required_valid
             (mkMigration plugin (Some previous) (_plugin_version plugin))
             previous vp _ eq_refl Hp).
  cbn [version_current]. rewrite (strict_init_valid _ _ Hc), Hgt. reflexivity.
Qed.

Lemma migrate_skips_when_not_newer_witness :
  migrate Examples.plugin_2C
    (with_settings_version (Some "0.1.21") MoreExamples.device_with_profile)
  = (Ret tt,
     with_logged [(DEBUG, "No migration required.")]
       (with_settings_version (Some "0.1.21") MoreExamples.device_with_profile)).
Proof.
  apply (migrate_skips_when_not_newer Examples.plugin_2C
           (with_settings_version (Some "0.1.21") MoreExamples.device_with_profile)
           "0.1.21" (StrictVersion.mk (0, 1, 21) None) (StrictVersion.mk (0, 1, 20) None));
    try reflexivity.
  vm_compute. discriminate.
Defined.

(** X3: [_compare_versions] with [equal_ok=True] is the negation of the
    strict comparison taken the other way round: for two strict versions
    exactly one of "a <= b" and "b < a" holds, and a version compared with
    itself gives [equal_ok]. *)
Theorem compare_versions_dual :
  forall (self : Migration) (a b : string) (va vb : StrictVersion.t)
         (equal_ok : bool) (w1 w2 : World),
    StrictVersion.parse a = Ret va ->
    StrictVersion.parse b = Ret vb ->
    (exists x,
        fst (_compare_versions self (Some a) (Some b) true w1) = Ret (Some x)
        /\ fst (_compare_versions self (Some b) (Some a) false w2) = Ret (Some (negb x)))
    /\ fst (_compare_versions self (Some a) (Some a) equal_ok w1) = Ret (Some equal_ok).
Proof.
  intros self a b va vb equal_ok w1 w2 Ha Hb. split.
  - rewrite (compare_versions_valid _ _ _ _ _ _ _ Ha Hb).
    rewrite (compare_versions_valid _ _ _ _ _ _ _ Hb Ha).
    eexists. split; [reflexivity|]. simpl. f_equal. f_equal.
    rewrite (strict_eq_sym vb va).
    unfold StrictVersion.eq, StrictVersion.lt.
    rewrite (Cmp.cmp_opp _ total_cmp_strict va vb).
    destruct (StrictVersion.cmp va vb); reflexivity.
  - rewrite (compare_versions_valid _ _ _ _ _ _ _ Ha Ha). simpl.
    unfold StrictVersion.eq. rewrite (total_cmp_refl _ total_cmp_strict). reflexivity.
Qed.

Lemma compare_versions_dual_witness :
  fst (_compare_versions (mkMigration Examples.plugin_2C None "0.1.20")
         (Some "0.1.17") (Some "0.1.9") true (Examples.device None)) = Ret (Some false)
  /\ fst (_compare_versions (mkMigration Examples.plugin_2C None "0.1.20")
            (Some "0.1.9") (Some "0.1.17") false (Examples.device None)) = Ret (Some true).
Proof.
  destruct (proj1 (compare_versions_dual (mkMigration Examples.plugin_2C None "0.1.20")
                     "0.1.17" "0.1.9" _ _ true (Examples.device None) (Examples.device None)
                     eq_refl eq_refl)) as (x & H1 & H2).
  assert (x = false) as -> by (vm_compute in H1; congruence).
  split; [exact H1 | exact H2].
Defined.

End RunnerEdges.

(** * Properties kept by a computation *)

Section EffectFacts.

Import Effects.
Local Open Scope py_scope.

Lemma maintains_ret {S A} (I : S -> Prop) (a : A) : maintains I (ret a).
Proof. intros w H. exact H. Qed.

Lemma maintains_raise {S A} (I : S -> Prop) e : maintains I (@raise S A e).
Proof. intros w H. exact H. Qed.

Lemma maintains_lift {S A} (I : S -> Prop) (r : result A) : maintains I (lift r).
Proof. intros w H. exact H. Qed.

Lemma maintains_gets {S A} (I : S -> Prop) (f : S -> A) : maintains I (gets f).
Proof. intros w H. exact H. Qed.

Lemma maintains_modify {S} (I : S -> Prop) (f : S -> S) :
  (forall w, I w -> I (f w)) -> maintains I (modify f).
Proof. intros Hf w H. apply Hf. exact H. Qed.

Lemma maintains_bind {S A B} (I : S -> Prop) (m : M S A) (k : A -> M S B) :
  maintains I m -> (forall a, maintains I (k a)) -> maintains I (bind m k).
Proof.
  intros Hm Hk w H. unfold bind. specialize (Hm w H).
  destruct (m w) as [[a|e] w1]; [apply Hk; exact Hm | exact Hm].
Qed.

Lemma maintains_try_except {S A} (I : S -> Prop) (m : M S A) handler :
  maintains I m ->
  (forall e h, handler e = Some h -> maintains I h) ->
  maintains I (try_except m handler).
Proof.
  intros Hm Hh w H. unfold try_except. specialize (Hm w H).
  destruct (m w) as [[a|e] w1]; [exact Hm|].
  destruct (handler e) as [h|] eqn:E; [apply (Hh e h E); exact Hm | exact Hm].
Qed.

Lemma maintains_for_each {S A} (I : S -> Prop) (l : list A) (body : A -> M S unit) :
  (forall x, maintains I (body x)) -> maintains I (for_each l body).
Proof.
  intros Hb. induction l as [|x l IH]; simpl.
  - apply maintains_ret.
  - apply maintains_bind; [apply Hb | intros _; exact IH].
Qed.

Lemma maintains_fold_each {S A B} (I : S -> Prop) (l : list A) (body : B -> A -> M S B) :
  (forall acc x, maintains I (body acc x)) -> forall acc, maintains I (fold_each l acc body).
Proof.
  intros Hb. induction l as [|x l IH]; intros acc; simpl.
  - apply maintains_ret.
  - apply maintains_bind; [apply Hb | intros acc'; apply IH].
Qed.

Lemma preserves_value {S A X} (proj : S -> X) (m : M S A) w :
  preserves proj m -> proj (snd (m w)) = proj w.
Proof. intros H. apply (H (proj w) w). reflexivity. Qed.

End EffectFacts.

(** * What the migration steps leave alone *)

Section MigrateLog.

Import Migrate Effects.

Lemma maintains_log I lvl msg : log_blind I -> maintains I (log lvl msg).
Proof. intros HI w H. apply HI. exact H. Qed.

End MigrateLog.

Ltac frame_core :=
  first
    [ simple apply maintains_ret | simple apply maintains_raise
    | simple apply maintains_lift | simple apply maintains_gets
    | simple apply maintains_bind; [|intros ?]
    | simple apply maintains_for_each; intros ?
    | simple apply maintains_fold_each; intros ? ?
    | simple apply maintains_try_except;
      [| let e := fresh "e" in let h := fresh "h" in let E := fresh "E" in
         intros e h E; destruct e; try discriminate E; injection E as <-]
    | match goal with
      | |- Effects.maintains _ (if ?b then _ else _) => destruct b
      | |- Effects.maintains _ (match ?x with _ => _ end) => destruct x
      | |- Effects.maintains _ (let '(_, _) := ?r in _) => destruct r
      | |- Effects.maintains _ ((let '(_, _) := ?r in _) _) => destruct r
      end
    | progress cbv beta ].

Ltac frame_step := first [simple apply maintains_log; assumption | frame_core].

Ltac frame := repeat frame_step.

Section Frames.

Import Migrate Effects.
Local Open Scope py_scope.


Lemma compare_versions_maintains I self lower higher equal_ok :
  log_blind I -> maintains I (_compare_versions self lower higher equal_ok).
Proof. intros HI. unfold _compare_versions. frame. Qed.

Lemma is_migration_required_maintains I self :
  log_blind I -> maintains I (is_migration_required self).
Proof. intros HI. unfold is_migration_required. frame. Qed.

Lemma previous_older_than_maintains I self threshold :
  log_blind I -> maintains I (previous_older_than self threshold).
Proof.
  intros HI. unfold previous_older_than.
  repeat first [simple apply compare_versions_maintains; assumption | frame_step].
Qed.

Lemma save_maintains (I : World -> Prop) p a d :
  (forall pm w, I w -> I (with_profiles pm w)) ->
  maintains I (laserCutterProfileManager_save p a d).
Proof.
  intros HI w H. unfold laserCutterProfileManager_save.
  destruct (Profile.save _ _ _ _); [apply HI|]; exact H.
Qed.

Lemma set_default_maintains (I : World -> Prop) profile_id :
  (forall pm w, I w -> I (with_profiles pm w)) ->
  maintains I (laserCutterProfileManager_set_default profile_id).
Proof. intros HI. apply maintains_modify. intros w H. apply HI. exact H. Qed.

Lemma migrate_from_0_0_0_maintains I self :
  log_blind I -> (forall pm w, I w -> I (with_profiles pm w)) ->
  maintains I (migrate_from_0_0_0 self).
Proof.
  intros HI HP. unfold migrate_from_0_0_0, laserCutterProfileManager_get_default.
  repeat first [simple apply save_maintains; assumption | frame_step].
Qed.

Lemma rmtree_maintains (I : World -> Prop) f :
  (forall d w, I w -> I (with_site_packages d w)) -> maintains I (shutil_rmtree f).
Proof.
  intros HI w H. unfold shutil_rmtree.
  destruct (site_packages w) as [entries|]; [|exact H].
  destruct (find _ entries) as [[n [|]]|]; [apply HI| |]; exact H.
Qed.

Lemma delete_egg_dir_leftovers_maintains I self :
  log_blind I -> (forall d w, I w -> I (with_site_packages d w)) ->
  maintains I (delete_egg_dir_leftovers self).
Proof.
  intros HI HP. unfold delete_egg_dir_leftovers.
  repeat first
    [ simple apply compare_versions_maintains; assumption
    | simple apply rmtree_maintains; assumption
    | frame_step ].
Qed.

Lemma check_output_maintains (I : World -> Prop) cmd :
  (forall c w, I w -> I (with_executed c w)) -> maintains I (subprocess_check_output cmd).
Proof.
  intros HI w H. unfold subprocess_check_output.
  destruct (processes w (executed w) cmd) as [[|c|c] out|]; [apply HI|apply HI|apply HI|];
    exact H.
Qed.

Lemma exec_cmd_output_maintains I self cmd :
  log_blind I -> (forall c w, I w -> I (with_executed c w)) ->
  maintains I (_exec_cmd_output self cmd).
Proof.
  intros HI HP. unfold _exec_cmd_output.
  repeat first [simple apply check_output_maintains; assumption | frame_step].
Qed.

Lemma setup_iptables_maintains I self :
  log_blind I -> (forall c w, I w -> I (with_executed c w)) ->
  maintains I (setup_iptables self).
Proof.
  intros HI HP. unfold setup_iptables.
  repeat first [simple apply exec_cmd_output_maintains; assumption | frame_step].
Qed.

Lemma save_current_version_maintains (I : World -> Prop) self :
  (forall w, I w -> I (with_settings_version (Some (version_current self)) w)) ->
  maintains I (save_current_version self).
Proof. intros HI. apply maintains_modify. exact HI. Qed.

Lemma set_lasercutterProfile_maintains I self :
  log_blind I -> (forall pm w, I w -> I (with_profiles pm w)) ->
  (forall w, I w -> I (with_settings_version (Some (version_current self)) w)) ->
  maintains I (set_lasercutterProfile self).
Proof.
  intros HI HP HV.
  unfold set_lasercutterProfile, set_lasercutterPorfile_2C, set_lasercutterPorfile_2D,
    set_lasercutterPorfile_2all, laserCutterProfileManager_get_default,
    laserCutterProfileManager_exists.
  repeat first
    [ simple apply save_maintains; assumption
    | simple apply set_default_maintains; assumption
    | simple apply save_current_version_maintains; assumption
    | frame_step ].
Qed.

Lemma run_maintains I self :
  log_blind I ->
  (forall pm w, I w -> I (with_profiles pm w)) ->
  (forall d w, I w -> I (with_site_packages d w)) ->
  (forall c w, I w -> I (with_executed c w)) ->
  (forall w, I w -> I (with_settings_version (Some (version_current self)) w)) ->
  maintains I (run self).
Proof.
  intros HI HP HD HC HV. unfold run, is_lasercutterProfile_set,
    laserCutterProfileManager_get_default.
  repeat first
    [ simple apply set_lasercutterProfile_maintains; assumption
    | simple apply is_migration_required_maintains; assumption
    | simple apply previous_older_than_maintains; assumption
    | simple apply migrate_from_0_0_0_maintains; assumption
    | simple apply delete_egg_dir_leftovers_maintains; assumption
    | simple apply setup_iptables_maintains; assumption
    | simple apply save_current_version_maintains; assumption
    | frame_step ].
Qed.

(** X4: each migration step stays in its own part of the device. Deleting
    egg leftovers never touches the profile store, the stored version or
    the command history; the iptables step never touches the profile
    store, the stored version or [site-packages]; [migrate_from_0_0_0]
    touches the profile store only. This holds also when the step raises. *)
Theorem migration_steps_are_local :
  forall (self : Migration),
    (preserves profiles (delete_egg_dir_leftovers self)
     /\ preserves settings_version (delete_egg_dir_leftovers self)
     /\ preserves executed (delete_egg_dir_leftovers self))
    /\ (preserves profiles (setup_iptables self)
        /\ preserves settings_version (setup_iptables self)
        /\ preserves site_packages (setup_iptables self))
    /\ (preserves settings_version (migrate_from_0_0_0 self)
        /\ preserves site_packages (migrate_from_0_0_0 self)
        /\ preserves executed (migrate_from_0_0_0 self)).
Proof.
  intros self. repeat split; intros x;
    first [ apply delete_egg_dir_leftovers_maintains
          | apply setup_iptables_maintains
          | apply migrate_from_0_0_0_maintains ];
    intros ? ? H; exact H.
Qed.

(** X5: the only version [run] ever stores is the current plugin version:
    after a run, successful or not, the stored version is what it was or
    the version of the running plugin. *)
Theorem run_stores_only_current_version :
  forall (self : Migration) (w : World),
    settings_version (snd (run self w)) = settings_version w
    \/ settings_version (snd (run self w)) = Some (version_current self).
Proof.
  intros self w.
  apply (run_maintains
           (fun w' => settings_version w' = settings_version w
                      \/ settings_version w' = Some (version_current self))).
  - intros l w' H. exact H.
  - intros pm w' H. exact H.
  - intros d w' H. exact H.
  - intros c w' H. exact H.
  - intros w' _. right. reflexivity.
  - left. reflexivity.
Qed.

End Frames.

(** * The stored version across starts *)

Section StoredVersion.

Import Migrate Effects.
Local Open Scope py_scope.

Lemma establishes_bind {S A B} (P Q : S -> Prop) (m : M S A) (k : A -> M S B) :
  (forall w, P w -> Q (snd (m w))) ->
  (forall a, maintains Q (k a)) ->
  forall w, P w -> Q (snd (bind m k w)).
Proof.
  intros Hm Hk w H. unfold bind. specialize (Hm w H).
  destruct (m w) as [[a|e] w1]; [apply Hk; exact Hm | exact Hm].
Qed.

Lemma establishes_try_except {S A} (P Q : S -> Prop) (m : M S A) handler :
  (forall w, P w -> Q (snd (m w))) ->
  (forall e h, handler e = Some h -> maintains Q h) ->
  forall w, P w -> Q (snd (try_except m handler w)).
Proof.
  intros Hm Hh w H. unfold try_except. specialize (Hm w H).
  destruct (m w) as [[a|e] w1]; [exact Hm|].
  destruct (handler e) as [h|] eqn:E; [apply (Hh e h E); exact Hm | exact Hm].
Qed.

Lemma set_lasercutterProfile_stores self w :
  Profile.id (Profile.get_default (profiles w)) = "my_default" ->
  _device_series (plugin self) <> "2X" ->
  settings_version (snd (set_lasercutterProfile self w)) = Some (version_current self).
Proof.
  intros Hid Hx. apply String.eqb_neq in Hx.
  unfold set_lasercutterProfile, bind at 1, laserCutterProfileManager_get_default, gets.
  rewrite Hid, Hx. cbn [String.eqb Ascii.eqb Bool.eqb].
  unfold bind at 1. rewrite log_eq. unfold bind at 1.
  match goal with
  | |- context [match ?m ?w1 with _ => _ end] =>
      assert (exists w2, m w1 = (Ret tt, w2)) as [w2 ->]
  end; [|reflexivity].
  unfold set_lasercutterPorfile_2C, set_lasercutterPorfile_2D,
    set_lasercutterPorfile_2all, bind,
    laserCutterProfileManager_get_default, laserCutterProfileManager_exists,
    laserCutterProfileManager_set_default, gets, modify, log, ret.
  repeat first
    [ rewrite manager_save_overwrite
    | match goal with
      | H : laserCutterProfileManager_save _ true _ _ = _ |- _ =>
          rewrite manager_save_overwrite in H
      end
    | case_match
    | progress simplify_eq/= ];
    eexists; reflexivity.
Qed.

(** X6: on a device that still runs on the generic profile (any series
    but 2X) the current version is stored by the profile assignment, before
    any migration step runs: after [run] the stored version is the current
    one even when a step raised and the migration was abandoned. *)
Theorem run_on_generic_profile_stores_version :
  forall (self : Migration) (w : World),
    Profile.id (Profile.get_default (profiles w)) = "my_default" ->
    _device_series (plugin self) <> "2X" ->
    settings_version (snd (run self w)) = Some (version_current self).
Proof.
  intros self w Hid Hx. unfold run.
  apply (establishes_try_except (eq w)
           (fun w' => settings_version w' = Some (version_current self)));
    [| intros e h [= <-]; apply maintains_log; intros l w' H; exact H | reflexivity].
  intros ? <-. unfold bind at 1. rewrite is_lasercutterProfile_set_eq, Hid.
  cbn [String.eqb Ascii.eqb Bool.eqb negb].
  apply (establishes_bind (eq w)); [| | reflexivity].
  - intros ? <-. apply set_lasercutterProfile_stores; assumption.
  - intros _.
    assert (log_blind (fun w' => settings_version w' = Some (version_current self))) as HI
        by (intros l w' H; exact H).
    assert (forall pm w', settings_version w' = Some (version_current self) ->
                          settings_version (with_profiles pm w') = Some (version_current self))
      as HP by (intros pm w' H; exact H).
    assert (forall d w', settings_version w' = Some (version_current self) ->
                         settings_version (with_site_packages d w') = Some (version_current self))
      as HD by (intros d w' H; exact H).
    assert (forall c w', settings_version w' = Some (version_current self) ->
                         settings_version (with_executed c w') = Some (version_current self))
      as HC by (intros c w' H; exact H).
    assert (forall w', settings_version w' = Some (version_current self) ->
                       settings_version (with_settings_version (Some (version_current self)) w')
                       = Some (version_current self))
      as HV by (intros w' H; reflexivity).
    repeat first
      [ simple apply is_migration_required_maintains; assumption
      | simple apply previous_older_than_maintains; assumption
      | simple apply migrate_from_0_0_0_maintains; assumption
      | simple apply delete_egg_dir_leftovers_maintains; assumption
      | simple apply setup_iptables_maintains; assumption
      | simple apply save_current_version_maintains; assumption
      | frame_step ].
Qed.

Lemma run_on_generic_profile_stores_version_witness :
  settings_version
    (snd (run (mkMigration Examples.plugin_2C (Some "0.1.18") "0.1.20")
            Examples.device_without_sudo))
  = Some "0.1.20".
Proof.
  apply (run_on_generic_profile_stores_version
           (mkMigration Examples.plugin_2C (Some "0.1.18") "0.1.20")
           Examples.device_without_sudo).
  - reflexivity.
  - vm_compute. discriminate.
Defined.

Lemma migration_not_required_same self w :
  version_previous self = Some (version_current self) ->
  (exists r, fst (is_migration_required self w) = Ret r /\ truthy r = false)
  \/ (exists e, is_migration_required self w = (Raise e, w)).
Proof.
  intros H.
  destruct (strict_init_cases (version_current self))
    as [[Hc Ec] | [(v & Hc & Ec) | (Hne & Hc & Ec)]].
  - right. exists AttributeError.
    rewrite migration_required_empty by (rewrite H, Hc; reflexivity).
    rewrite Ec. reflexivity.
  - left. rewrite (migration_required_valid _ _ v _ H Hc), Ec.
    exists (Some (StrictVersion.gt v v)). split; [reflexivity|].
    unfold StrictVersion.gt. rewrite (total_cmp_refl _ total_cmp_strict). reflexivity.
  - left. rewrite (migration_required_invalid _ _ _ H Hne Hc).
    exists None. split; reflexivity.
Qed.

(** X7: once the version of the running plugin is the stored one, a
    start runs no migration step, whether or not that version is a strict
    version: [migrate] returns, nothing is deleted from [site-packages],
    no command is executed, the stored version stays, and a device whose
    default profile is set keeps its profile store. *)
Theorem migrate_after_stored_version :
  forall (plugin : Plugin) (w : World),
    settings_version w = Some (_plugin_version plugin) ->
    exists w',
      migrate plugin w = (Ret tt, w')
      /\ settings_version w' = settings_version w
      /\ site_packages w' = site_packages w
      /\ executed w' = executed w
      /\ (Profile.id (Profile.get_default (profiles w)) <> "my_default" ->
          profiles w' = profiles w).
Proof.
  intros plugin w Hsv.
  unfold migrate, __init__. unfold bind at 1. unfold gets. rewrite Hsv.
  set (self := mkMigration plugin (Some (_plugin_version plugin)) (_plugin_version plugin)).
  assert (exists w1,
             bind (is_lasercutterProfile_set self)
               (fun profile_set => if negb profile_set then set_lasercutterProfile self
                                   else ret tt) w = (Ret tt, w1)
             /\ settings_version w1 = settings_version w
             /\ site_packages w1 = site_packages w
             /\ executed w1 = executed w
             /\ (Profile.id (Profile.get_default (profiles w)) <> "my_default" ->
                 profiles w1 = profiles w))
    as (w1 & E1 & Hv1 & Hs1 & Hx1 & Hp1).
  { unfold bind at 1. rewrite is_lasercutterProfile_set_eq.
    destruct (String.eqb_spec (Profile.id (Profile.get_default (profiles w))) "my_default")
      as [Hid|Hid]; cbn [negb].
    - destruct (set_lasercutterProfile_returns self w) as [w1 E1]. exists w1.
      split; [exact E1|].
      change w1 with (snd (Ret tt, w1)). rewrite <- E1.
      repeat split.
      + apply (set_lasercutterProfile_maintains
                 (fun w' => settings_version w' = settings_version w));
          [intros l w' H | intros pm w' H | intros w' H | ]; try exact H; try reflexivity.
        rewrite Hsv. reflexivity.
      + apply (set_lasercutterProfile_maintains
                 (fun w' => site_packages w' = site_packages w));
          [intros l w' H | intros pm w' H | intros w' H | ]; try exact H; reflexivity.
      + apply (set_lasercutterProfile_maintains
                 (fun w' => executed w' = executed w));
          [intros l w' H | intros pm w' H | intros w' H | ]; try exact H; reflexivity.
      + intros Hne. contradiction.
    - exists w. repeat split; reflexivity. }
  unfold run, try_except.
  unfold bind at 1 in E1. rewrite is_lasercutterProfile_set_eq in E1.
  unfold bind at 1. rewrite is_lasercutterProfile_set_eq.
  unfold bind at 1. rewrite E1.
  unfold bind at 1.
  destruct (migration_not_required_same self w1 eq_refl) as [(r & Hr & Hfalse) | (e & Hr)].
  - pose proof (is_migration_required_maintains
                  (fun w' => settings_version w' = settings_version w
                             /\ site_packages w' = site_packages w
                             /\ executed w' = executed w
                             /\ profiles w' = profiles w1) self
                  (fun l w' H => H) w1 (conj Hv1 (conj Hs1 (conj Hx1 eq_refl)))) as Hkeep.
    destruct (is_migration_required self w1) as [r' w2]. simpl in Hr, Hkeep. subst r'.
    rewrite Hfalse. rewrite log_eq. eexists. split; [reflexivity|].
    destruct Hkeep as (Hv2 & Hs2 & Hx2 & Hp2).
    split; [exact (eq_trans Hv2 Hsv)|]. split; [exact Hs2|]. split; [exact Hx2|].
    intros Hne. cbn [profiles with_logged]. rewrite Hp2. apply Hp1. exact Hne.
  - rewrite Hr. rewrite log_eq. eexists. split; [reflexivity|].
    split; [exact (eq_trans Hv1 Hsv)|]. split; [exact Hs1|]. split; [exact Hx1|].
    intros Hne. cbn [profiles with_logged]. apply Hp1. exact Hne.
Qed.

Lemma migrate_after_stored_version_witness :
  exists w',
    migrate Examples.plugin_2C (Examples.device (Some "0.1.20")) = (Ret tt, w')
    /\ site_packages w' = site_packages (Examples.device (Some "0.1.20"))
    /\ executed w' = [].
Proof.
  destruct (migrate_after_stored_version Examples.plugin_2C (Examples.device (Some "0.1.20"))
              eq_refl) as (w' & E & _ & Hs & Hx & _).
  exists w'. repeat split; assumption.
Defined.

(** X8: a stored version that is no strict version is never repaired. On
    a device whose default profile is set, whatever plugin version starts,
    [migrate] runs no step and leaves the stored version as it is; the
    world only gains log records. For a string that is not empty these are
    the error on the invalid version and "No migration required."; for the
    empty string, which the constructor of [StrictVersion] lets pass, the
    comparison raises and the record is that of the unhandled exception. *)
Theorem invalid_stored_version_blocks_migration :
  forall (plugin : Plugin) (w : World) (previous : string),
    settings_version w = Some previous ->
    (forall v, StrictVersion.parse previous <> Ret v) ->
    Profile.id (Profile.get_default (profiles w)) <> "my_default" ->
    migrate plugin w =
    (Ret tt,
     with_logged
       (logged w ++
        match previous with
        | EmptyString => [(EXCEPTION, "Unhandled exception during migration: ")]
        | String _ _ =>
            [(ERROR, "Previous version is invalid: '{}'. ValueError from StrictVersion: {}");
             (DEBUG, "No migration required.")]
        end) w).
Proof.
  intros plugin w previous Hprev Hp Hid.
  unfold migrate, __init__. unfold bind at 1. unfold gets. rewrite Hprev.
  unfold run, try_except.
  unfold bind at 1. rewrite is_lasercutterProfile_set_eq.
  apply String.eqb_neq in Hid. rewrite Hid. cbn [negb].
  unfold bind at 1. unfold ret at 1.
  unfold bind at 1.
  destruct previous as [|c previous].
  - rewrite (migration_required_empty
               (mkMigration plugin (Some EmptyString) (_plugin_version plugin)) _ eq_refl).
    cbn [version_current].
    destruct (StrictVersion.__init__ (_plugin_version plugin)); reflexivity.
  - rewrite (migration_required_invalid
               (mkMigration plugin (Some (String c previous)) (_plugin_version plugin))
               (String c previous) _ eq_refl ltac:(discriminate) Hp).
    cbn [truthy]. rewrite log_eq. cbn [logged with_logged].
    rewrite <- app_assoc. reflexivity.
Qed.

Lemma invalid_stored_version_blocks_migration_witness :
  migrate (mkPlugin "0.2.0" "2C")
    (with_settings_version (Some "0.1.20-dev") MoreExamples.device_with_profile)
  = (Ret tt,
     with_logged
       [(ERROR, "Previous version is invalid: '{}'. ValueError from StrictVersion: {}");
        (DEBUG, "No migration required.")]
       (with_settings_version (Some "0.1.20-dev") MoreExamples.device_with_profile))
  /\ migrate (mkPlugin "0.2.0" "2C")
       (with_settings_version (Some EmptyString) MoreExamples.device_with_profile)
     = (Ret tt,
        with_logged [(EXCEPTION, "Unhandled exception during migration: ")]
          (with_settings_version (Some EmptyString) MoreExamples.device_with_profile)).
Proof.
  split.
  - apply (invalid_stored_version_blocks_migration (mkPlugin "0.2.0" "2C")
             (with_settings_version (Some "0.1.20-dev") MoreExamples.device_with_profile)
             "0.1.20-dev").
    + reflexivity.
    + intros v. vm_compute. discriminate.
    + vm_compute. discriminate.
  - apply (invalid_stored_version_blocks_migration (mkPlugin "0.2.0" "2C")
             (with_settings_version (Some EmptyString) MoreExamples.device_with_profile)
             EmptyString).
    + reflexivity.
    + intros v. vm_compute. discriminate.
    + vm_compute. discriminate.
Defined.

(** X9: a plugin version that is no strict version meeting a valid
    stored version makes [is_migration_required] raise: [ValueError] from
    the constructor for a string that is not empty (a development build,
    say), [AttributeError] from the comparison for the empty string, which
    the constructor lets pass. [run] answers with the exception record
    alone: no step runs and nothing is stored. *)
Theorem invalid_current_version_aborts_run :
  forall (plugin : Plugin) (w : World) (previous : string) (vp : StrictVersion.t),
    settings_version w = Some previous ->
    StrictVersion.parse previous = Ret vp ->
    (forall v, StrictVersion.parse (_plugin_version plugin) <> Ret v) ->
    Profile.id (Profile.get_default (profiles w)) <> "my_default" ->
    fst (is_migration_required
           (mkMigration plugin (Some previous) (_plugin_version plugin)) w)
    = Raise (match _plugin_version plugin with
             | EmptyString => AttributeError
             | String _ _ => ValueError
             end)
    /\ migrate plugin w =
       (Ret tt,
        with_logged
          (logged w ++ [(EXCEPTION, "Unhandled exception during migration: ")]) w).
Proof.
  intros plugin w previous vp Hprev Hp Hc Hid.
  assert (StrictVersion.__init__ (_plugin_version plugin) =
          match _plugin_version plugin with
          | EmptyString => Ret None
          | String _ _ => Raise ValueError
          end) as Hinit.
  { destruct (_plugin_version plugin) as [|c current] eqn:E; [reflexivity|].
    apply strict_init_invalid; [discriminate | exact Hc]. }
  split.
  - rewrite (migration_required_valid
               (mkMigration plugin (Some previous) (_plugin_version plugin))
               previous vp _ eq_refl Hp).
    cbn [version_current fst]. rewrite Hinit.
    destruct (_plugin_version plugin); reflexivity.
  - unfold migrate, __init__. unfold bind at 1. unfold gets. rewrite Hprev.
    unfold run, try_except.
    unfold bind at 1. rewrite is_lasercutterProfile_set_eq.
    apply String.eqb_neq in Hid. rewrite Hid. cbn [negb].
    unfold bind at 1. unfold ret at 1.
    unfold bind at 1.
    rewrite (migration_required_valid
               (mkMigration plugin (Some previous) (_plugin_version plugin))
               previous vp _ eq_refl Hp).
    cbn [version_current]. rewrite Hinit.
    destruct (_plugin_version plugin); reflexivity.
Qed.

Lemma invalid_current_version_aborts_run_witness :
  fst (is_migration_required (mkMigration (mkPlugin "0.1.21-dev" "2C") (Some "0.1.12") "0.1.21-dev")
         (with_settings_version (Some "0.1.12") MoreExamples.device_with_profile))
  = Raise ValueError
  /\ fst (is_migration_required (mkMigration (mkPlugin EmptyString "2C") (Some "0.1.12") EmptyString)
            (with_settings_version (Some "0.1.12") MoreExamples.device_with_profile))
     = Raise AttributeError
  /\ migrate (mkPlugin "0.1.21-dev" "2C")
       (with_settings_version (Some "0.1.12") MoreExamples.device_with_profile)
     = (Ret tt,
        with_logged [(EXCEPTION, "Unhandled exception during migration: ")]
          (with_settings_version (Some "0.1.12") MoreExamples.device_with_profile)).
Proof.
  split; [|split].
  - apply (proj1 (invalid_current_version_aborts_run (mkPlugin "0.1.21-dev" "2C")
                    (with_settings_version (Some "0.1.12") MoreExamples.device_with_profile)
                    "0.1.12" (StrictVersion.mk (0, 1, 12) None) eq_refl eq_refl
                    (fun v H => ltac:(vm_compute in H; discriminate H))
                    ltac:(vm_compute; discriminate))).
  - apply (proj1 (invalid_current_version_aborts_run (mkPlugin EmptyString "2C")
                    (with_settings_version (Some "0.1.12") MoreExamples.device_with_profile)
                    "0.1.12" (StrictVersion.mk (0, 1, 12) None) eq_refl eq_refl
                    (fun v H => ltac:(vm_compute in H; discriminate H))
                    ltac:(vm_compute; discriminate))).
  - apply (proj2 (invalid_current_version_aborts_run (mkPlugin "0.1.21-dev" "2C")
                    (with_settings_version (Some "0.1.12") MoreExamples.device_with_profile)
                    "0.1.12" (StrictVersion.mk (0, 1, 12) None) eq_refl eq_refl
                    (fun v H => ltac:(vm_compute in H; discriminate H))
                    ltac:(vm_compute; discriminate))).
Defined.

End StoredVersion.

(** * The iptables step *)

Section Iptables.

Import Migrate.
Local Open Scope py_scope.

Ltac run_command H :=
  unfold _exec_cmd_output at 1, bind at 1; rewrite log_eq;
  unfold try_except at 1, bind at 1, subprocess_check_output at 1;
  cbn [processes executed logged with_logged with_executed];
  rewrite H.

Ltac start self w :=
  let r := fresh "r" in let w' := fresh "w'" in let E := fresh "E" in
  destruct (setup_iptables self w) as [r w'] eqn:E; revert E;
  unfold setup_iptables; unfold bind at 1; rewrite log_eq; unfold bind at 1.

Ltac finish :=
  repeat first
    [ progress cbv beta iota | progress cbn [Z.eqb negb] | rewrite log_eq
    | unfold bind at 1 | unfold ret at 1 ];
  intros [= <- <-];
  cbn [fst snd executed logged with_logged with_executed];
  rewrite <- ?app_assoc; repeat split; reflexivity.

(** X10: [setup_iptables] runs its three commands in order and stops at
    the first that exits with a non-zero code: the later commands are not
    executed, an error naming the failed sub-step is logged, and the step
    returns normally, so that the caller goes on and saves the version.
    Only when all three exit with 0 is the success record logged. *)
Theorem setup_iptables_stops_at_first_failure :
  forall (self : Migration) (w : World),
    let write :=
      ["sudo"; "bash"; "-c"; "echo '" +:+ iptables_body +:+ "' > " +:+ iptables_file] in
    let chmod := ["sudo"; "chmod"; "+x"; iptables_file] in
    let load := ["sudo"; "bash"; "-c"; iptables_file] in
    let command := (DEBUG, "_exec_cmd_output() command: '%s'") in
    let failed :=
      (DEBUG, "Fail to execute command '%s', return code: %s, output: '%s'") in
    (forall code out,
        processes w (executed w) write = Exited code out -> code <> 0%Z ->
        fst (setup_iptables self w) = Ret tt
        /\ executed (snd (setup_iptables self w)) = write :: executed w
        /\ logged (snd (setup_iptables self w)) =
           logged w ++
           [(INFO, "setup_iptables() "); command; failed;
            (ERROR, "setup_iptables() Error while writing iptables conf: '%s'")])
    /\ (forall out1 code out,
           processes w (executed w) write = Exited 0 out1 ->
           processes w (write :: executed w) chmod = Exited code out -> code <> 0%Z ->
           fst (setup_iptables self w) = Ret tt
           /\ executed (snd (setup_iptables self w)) = chmod :: write :: executed w
           /\ logged (snd (setup_iptables self w)) =
              logged w ++
              [(INFO, "setup_iptables() "); command; command; failed;
               (ERROR, "setup_iptables() Error while chmod iptables conf: '%s'")])
    /\ (forall out1 out2 code out,
           processes w (executed w) write = Exited 0 out1 ->
           processes w (write :: executed w) chmod = Exited 0 out2 ->
           processes w (chmod :: write :: executed w) load = Exited code out ->
           fst (setup_iptables self w) = Ret tt
           /\ executed (snd (setup_iptables self w)) = load :: chmod :: write :: executed w
           /\ logged (snd (setup_iptables self w)) =
              logged w ++
              [(INFO, "setup_iptables() "); command; command; command] ++
              (if Z.eqb code 0
               then [(INFO, "setup_iptables() Created and loaded iptables conf: '%s'")]
               else [failed;
                     (ERROR, "setup_iptables() Error while executing iptables conf: '%s'")])).
Proof.
  intros self w write chmod load command failed.
  subst write chmod load command failed.
  split; [|split].
  - intros code out H1 Hc.
    start self w. run_command H1.
    destruct code as [|p|p]; [contradiction| |];
      finish.
  - intros out1 code out H1 H2 Hc.
    start self w. run_command H1. cbv beta iota. unfold ret at 1. cbv beta iota. cbn [Z.eqb negb].
    unfold bind at 1. run_command H2.
    destruct code as [|p|p]; [contradiction| |];
      finish.
  - intros out1 out2 code out H1 H2 H3.
    start self w. run_command H1. cbv beta iota. unfold ret at 1. cbv beta iota. cbn [Z.eqb negb].
    unfold bind at 1. run_command H2. cbv beta iota. unfold ret at 1. cbv beta iota. cbn [Z.eqb negb].
    unfold bind at 1. run_command H3.
    destruct code as [|p|p];
      finish.
Qed.

Lemma setup_iptables_stops_at_first_failure_witness :
  executed
    (snd (setup_iptables (mkMigration Examples.plugin_2C (Some "0.1.18") "0.1.20")
            MoreExamples.device_chmod_refused))
  = [["sudo"; "chmod"; "+x"; iptables_file];
     ["sudo"; "bash"; "-c"; "echo '" +:+ iptables_body +:+ "' > " +:+ iptables_file]].
Proof.
  apply (proj1 (proj2 (setup_iptables_stops_at_first_failure
                         (mkMigration Examples.plugin_2C (Some "0.1.18") "0.1.20")
                         MoreExamples.device_chmod_refused))
           EmptyString 1%Z "chmod: Operation not permitted");
    [reflexivity | reflexivity | lia].
Defined.

End Iptables.

(** * Egg leftovers: the whole listing *)

Section EggListing.

Import Migrate.
Local Open Scope py_scope.

Lemma is_leftover_iff f :
  is_leftover f = true <->
  exists version vl,
    re_match_version f = Some version
    /\ StrictVersion.parse version = Ret vl
    /\ StrictVersion.lt vl (StrictVersion.mk (0, 1, 17) None) = true.
Proof.
  unfold is_leftover.
  change (StrictVersion.parse VERSION_DELETE_EGG_DIR_LEFTOVERS)
    with (Ret (A := StrictVersion.t) (StrictVersion.mk (0, 1, 17) None)).
  split.
  - destruct (re_match_version f) as [version|]; [|discriminate].
    destruct (StrictVersion.parse version) as [vl|e] eqn:E; [|discriminate].
    intros H. exists version, vl. split; [reflexivity|]. split; [exact E|].
    destruct (StrictVersion.eq vl _); [discriminate | exact H].
  - intros (version & vl & -> & -> & H).
    rewrite (strict_lt_not_eq _ _ H). exact H.
Qed.

Lemma filter_sublist {A} (p : A -> bool) (l : list A) : sublist (List.filter p l) l.
Proof.
  induction l as [|x l IH]; simpl; [constructor|].
  destruct (p x); [apply sublist_skip | apply sublist_cons]; exact IH.
Qed.

(** X11: [delete_egg_dir_leftovers] on a whole listing. Without the
    directory [/home/pi/site-packages] it only logs an error. With it (names
    distinct, leftovers being directories) it returns, and what remains is
    the old listing in its order without exactly the entries whose name
    matches the egg pattern with a strict version below 0.1.17: an entry
    whose name does not match, or carries a version that is not strict or
    not below 0.1.17, stays. *)
Theorem delete_egg_dir_leftovers_exact :
  forall (self : Migration) (w : World),
    (site_packages w = None ->
     delete_egg_dir_leftovers self w =
     (Ret tt,
      with_logged
        (logged w ++
         [(INFO, "delete_egg_dir_leftovers() ");
          (ERROR, "delete_egg_dir_leftovers() Dir not existing '%s', Can't check for egg leftovers.")])
        w))
    /\ (forall entries,
           site_packages w = Some entries ->
           NoDup (map fst entries) ->
           (forall f k, In (f, k) entries -> is_leftover f = true -> k = Directory) ->
           exists w' entries',
             delete_egg_dir_leftovers self w = (Ret tt, w')
             /\ site_packages w' = Some entries'
             /\ sublist entries' entries
             /\ forall f k,
                 In (f, k) entries' <->
                 In (f, k) entries
                 /\ ~ exists version vl,
                       re_match_version f = Some version
                       /\ StrictVersion.parse version = Ret vl
                       /\ StrictVersion.lt vl (StrictVersion.mk (0, 1, 17) None) = true).
Proof.
  intros self w. split.
  - intros Hsp. unfold delete_egg_dir_leftovers. unfold bind at 1. rewrite log_eq.
    unfold bind at 1. unfold gets.
    change (site_packages (with_logged _ w)) with (site_packages w). rewrite Hsp.
    rewrite log_eq. cbn [logged with_logged]. rewrite <- app_assoc. reflexivity.
  - intros entries Hsp Hnd Hdirs.
    destruct (delete_egg_dir_leftovers_spec self w entries Hsp Hnd Hdirs) as (w' & E & Hsp').
    exists w', (List.filter (fun e => negb (is_leftover (fst e))) entries).
    split; [exact E|]. split; [exact Hsp'|]. split; [apply filter_sublist|].
    intros f k. rewrite filter_In. cbn [fst]. rewrite <- is_leftover_iff.
    rewrite negb_true_iff. rewrite not_true_iff_false. reflexivity.
Qed.

Lemma delete_egg_dir_leftovers_exact_witness :
  exists w' entries',
    delete_egg_dir_leftovers (mkMigration Examples.plugin_2C (Some "0.1.12") "0.1.20")
      (Examples.device (Some "0.1.12")) = (Ret tt, w')
    /\ site_packages w' = Some entries'
    /\ In ("Mr_Beam-0.1.20.dist", Directory) entries'.
Proof.
  destruct (proj2 (delete_egg_dir_leftovers_exact
                     (mkMigration Examples.plugin_2C (Some "0.1.12") "0.1.20")
                     (Examples.device (Some "0.1.12")))
              [("Mr_Beam-0.1.10.dist", Directory); ("Mr_Beam-0.1.20.dist", Directory)])
    as (w' & entries' & E & Hsp & _ & Hin).
  - reflexivity.
  - apply (bool_decide_unpack _). vm_compute. exact I.
  - intros f k [H|[H|[]]] _; injection H as _ <-; reflexivity.
  - exists w', entries'. split; [exact E|]. split; [exact Hsp|].
    apply Hin. split; [right; left; reflexivity|].
    intros (version & vl & Hm & Hp & Hlt).
    vm_compute in Hm. injection Hm as <-. vm_compute in Hp. injection Hp as <-.
    vm_compute in Hlt. discriminate.
Defined.

Lemma for_each_app {S A} (l1 l2 : list A) (body : A -> M S unit) w :
  for_each (l1 ++ l2) body w = bind (for_each l1 body) (fun _ => for_each l2 body) w.
Proof.
  revert w. induction l1 as [|x l1 IH]; intros w; simpl; [reflexivity|].
  unfold bind. destruct (body x w) as [[[]|e] w1]; [|reflexivity].
  rewrite IH. reflexivity.
Qed.

Lemma find_after_others (f : string) (pre post : list (string * entry_kind)) k :
  (forall e, In e pre -> fst e <> f) ->
  find (fun e => String.eqb (fst e) f) (pre ++ (f, k) :: post) = Some (f, k).
Proof.
  intros H. induction pre as [|[n k'] pre IH]; simpl.
  - rewrite String.eqb_refl. reflexivity.
  - destruct (String.eqb_spec n f) as [->|Hne].
    + exfalso. apply (H (f, k')); [left; reflexivity | reflexivity].
    + apply IH. intros e He. apply H. right. exact He.
Qed.

(** X12: a leftover name that belongs to a regular file stops the
    migration step: [rmtree] raises [OSError] out of
    [delete_egg_dir_leftovers] at the first such entry, and, with no
    leftover before it, the listing is what it was: the leftovers listed
    after the file are still there. *)
Theorem delete_egg_dir_leftovers_file_raises :
  forall (self : Migration) (w : World) (pre post : list (string * entry_kind)) (f : string),
    site_packages w = Some (pre ++ (f, RegularFile) :: post) ->
    is_leftover f = true ->
    (forall e, In e pre -> is_leftover (fst e) = false) ->
    fst (delete_egg_dir_leftovers self w) = Raise OSError
    /\ site_packages (snd (delete_egg_dir_leftovers self w)) = site_packages w.
Proof.
  intros self w pre post f Hsp Hf Hpre.
  assert (forall w1, site_packages w1 = site_packages w ->
            exists w2, for_each (map fst pre)
                         (fun f =>
                            match re_match_version f with
                            | Some version =>
                                older <- _compare_versions self (Some version)
                                           (Some VERSION_DELETE_EGG_DIR_LEFTOVERS) false ;;
                                if truthy older then
                                  log INFO "delete_egg_dir_leftovers() Deleting dir: %s" ;;;
                                  shutil_rmtree f
                                else ret tt
                            | None => ret tt
                            end) w1 = (Ret tt, w2)
                       /\ site_packages w2 = site_packages w) as Hloop.
  { clear Hsp. induction pre as [|[n k] pre IH]; intros w1 H1.
    - exists w1. split; [reflexivity | exact H1].
    - cbn [map fst for_each]. unfold bind at 1.
      destruct (body_keeps self n w1 (Hpre (n, k) (or_introl eq_refl))) as (w2 & E & H2).
      cbv beta zeta in E. cbv beta. rewrite E.
      apply IH; [intros e He; apply Hpre; right; exact He | congruence]. }
  destruct (delete_egg_dir_leftovers self w) as [r w'] eqn:E. revert E.
  unfold delete_egg_dir_leftovers. unfold bind at 1. rewrite log_eq.
  unfold bind at 1. unfold gets.
  change (site_packages (with_logged _ w)) with (site_packages w). rewrite Hsp.
  rewrite map_app, for_each_app. unfold bind at 1.
  destruct (Hloop (with_logged (logged w ++ [(INFO, "delete_egg_dir_leftovers() ")]) w)
              eq_refl) as (w2 & -> & H2).
  cbn [map fst for_each]. unfold bind at 1.
  pose proof (body_deletes self f w2 Hf) as Hdel. cbv beta zeta in Hdel.
  cbv beta. rewrite Hdel.
  unfold shutil_rmtree. cbn [site_packages with_logged]. rewrite H2, Hsp.
  rewrite find_after_others.
  - intros [= <- <-]. split; [reflexivity|]. cbn [snd site_packages with_logged].
    rewrite H2. exact Hsp.
  - intros e He Hn. specialize (Hpre e He). rewrite Hn in Hpre. congruence.
Qed.

Lemma delete_egg_dir_leftovers_file_raises_witness :
  fst (delete_egg_dir_leftovers (mkMigration Examples.plugin_2C (Some "0.1.12") "0.1.20")
         MoreExamples.device_with_egg_file) = Raise OSError
  /\ site_packages
       (snd (delete_egg_dir_leftovers (mkMigration Examples.plugin_2C (Some "0.1.12") "0.1.20")
               MoreExamples.device_with_egg_file))
     = site_packages MoreExamples.device_with_egg_file.
Proof.
  apply (delete_egg_dir_leftovers_file_raises
           (mkMigration Examples.plugin_2C (Some "0.1.12") "0.1.20")
           MoreExamples.device_with_egg_file
           [("Mr_Beam-0.1.20.dist", Directory)]
           [("Mr_Beam-0.1.10.dist", Directory)]
           "Mr_Beam-0.1.9-py2.7.egg").
  - reflexivity.
  - vm_compute. reflexivity.
  - intros e [<-|[]]. vm_compute. reflexivity.
Defined.

End EggListing.

(** * The egg pattern *)

Section EggPattern.

Import Migrate.

Lemma strip_prefix_inv p : forall s r, strip_prefix p s = Some r -> s = p +:+ r.
Proof.
  induction p as [|a p IH]; intros s r H.
  - injection H as <-. reflexivity.
  - destruct s as [|b s]; [discriminate|]. cbn [strip_prefix] in H.
    destruct (Ascii.eqb_spec a b) as [<-|]; [|discriminate].
    change (String a p +:+ r) with (String a (p +:+ r)). f_equal. apply IH. exact H.
Qed.

Lemma strip_prefix_app p r : strip_prefix p (p +:+ r) = Some r.
Proof.
  induction p as [|a p IH]; [destruct r; reflexivity|].
  change (String a p +:+ r) with (String a (p +:+ r)). cbn [strip_prefix].
  rewrite Ascii.eqb_refl. exact IH.
Qed.

Lemma suffix_matches_inv s :
  suffix_matches s = true ->
  exists c d rest,
    s = String c (String d rest) /\ (c = "."%char \/ c = "-"%char) /\ d <> "010"%char.
Proof.
  destruct s as [|c [|d rest]]; try discriminate. cbn [suffix_matches].
  intros H. apply andb_prop in H as [Hc Hd]. exists c, d, rest. split; [reflexivity|].
  split.
  - apply orb_prop in Hc as [Hc|Hc]; apply Ascii.eqb_eq in Hc; auto.
  - apply negb_true_iff in Hd. apply Ascii.eqb_neq in Hd. exact Hd.
Qed.

Lemma suffix_matches_intro c d rest :
  c = "."%char \/ c = "-"%char -> d <> "010"%char ->
  suffix_matches (String c (String d rest)) = true.
Proof.
  intros Hc Hd. cbn [suffix_matches]. apply Ascii.eqb_neq in Hd. rewrite Hd.
  destruct Hc as [-> | ->]; reflexivity.
Qed.

Lemma version_group_sound s :
  forall v, version_group s = Some v ->
    v <> EmptyString /\ Str.forallb is_version_char v = true
    /\ exists c d rest,
         s = v +:+ String c (String d rest)
         /\ (c = "."%char \/ c = "-"%char) /\ d <> "010"%char.
Proof.
  induction s as [|a s IH]; intros v H; [discriminate|].
  rewrite version_group_cons in H.
  destruct (is_version_char a) eqn:Ha; [|discriminate].
  destruct (version_group s) as [v'|] eqn:Hs.
  - injection H as <-. destruct (IH v' eq_refl) as (_ & Hv & c & d & rest & -> & Hc & Hd).
    split; [discriminate|]. split; [simpl; rewrite Ha, Hv; reflexivity|].
    exists c, d, rest. auto.
  - destruct (suffix_matches s) eqn:Hm; [|discriminate]. injection H as <-.
    split; [discriminate|]. split; [simpl; rewrite Ha; reflexivity|].
    destruct (suffix_matches_inv s Hm) as (c & d & rest & -> & Hc & Hd).
    exists c, d, rest. auto.
Qed.

Lemma version_group_complete v :
  forall c d rest,
    v <> EmptyString -> Str.forallb is_version_char v = true ->
    c = "."%char \/ c = "-"%char -> d <> "010"%char ->
    exists v', version_group (v +:+ String c (String d rest)) = Some v'
               /\ (String.length v <= String.length v')%nat.
Proof.
  induction v as [|a v IH]; intros c d rest Hne Hv Hc Hd; [contradiction|].
  simpl in Hv. apply andb_prop in Hv as [Ha Hv].
  change (String a v +:+ String c (String d rest))
    with (String a (v +:+ String c (String d rest))).
  rewrite version_group_cons, Ha.
  destruct v as [|b v].
  - change (EmptyString +:+ String c (String d rest)) with (String c (String d rest)).
    destruct (version_group (String c (String d rest))) as [x|] eqn:E.
    + eexists. split; [reflexivity|]. simpl. lia.
    + rewrite (suffix_matches_intro c d rest Hc Hd). eexists. split; [reflexivity|].
      simpl. lia.
  - destruct (IH c d rest) as (v' & -> & Hlen); [discriminate | exact Hv | exact Hc | exact Hd |].
    eexists. split; [reflexivity|]. cbn [String.length] in *. lia.
Qed.

Lemma version_group_exact v :
  forall c d rest,
    v <> EmptyString -> Str.forallb is_version_char v = true ->
    c = "-"%char \/ (c = "."%char /\ is_version_char d = false /\ d <> "-"%char) ->
    d <> "010"%char ->
    version_group (v +:+ String c (String d rest)) = Some v.
Proof.
  intros c d rest Hne Hv Hc Hd.
  assert (version_group (String c (String d rest)) = None) as Hnone.
  { rewrite version_group_cons. destruct Hc as [-> | (-> & Hvd & Hdash)]; [reflexivity|].
    cbn [is_version_char Str.is_digit Ascii.eqb Bool.eqb orb andb].
    rewrite version_group_cons, Hvd.
    destruct (is_version_char "."%char); [|reflexivity].
    cbn [suffix_matches].
    unfold is_version_char in Hvd. apply orb_false_elim in Hvd as [_ Hdot].
    apply Ascii.eqb_neq in Hdash. rewrite Hdot, Hdash. destruct rest; reflexivity. }
  assert (suffix_matches (String c (String d rest)) = true) as Hsuffix.
  { apply suffix_matches_intro; [|exact Hd]. destruct Hc as [-> | (-> & _)]; auto. }
  induction v as [|a v IH]; [contradiction|].
  simpl in Hv. apply andb_prop in Hv as [Ha Hv].
  change (String a v +:+ String c (String d rest))
    with (String a (v +:+ String c (String d rest))).
  rewrite version_group_cons, Ha.
  destruct v as [|b v].
  - change (EmptyString +:+ String c (String d rest)) with (String c (String d rest)).
    rewrite Hnone, Hsuffix. reflexivity.
  - rewrite IH; [reflexivity | discriminate | exact Hv].
Qed.

Lemma append_cons_inv a v b v2 (r r2 : string) :
  String a v +:+ r = String b v2 +:+ r2 -> a = b /\ v +:+ r = v2 +:+ r2.
Proof.
  change (String a (v +:+ r) = String b (v2 +:+ r2) -> a = b /\ v +:+ r = v2 +:+ r2).
  intros [= -> H]. auto.
Qed.

Lemma version_group_longest s :
  forall v v2 c d rest,
    version_group s = Some v ->
    s = v2 +:+ String c (String d rest) ->
    Str.forallb is_version_char v2 = true ->
    c = "."%char \/ c = "-"%char -> d <> "010"%char ->
    (String.length v2 <= String.length v)%nat.
Proof.
  induction s as [|a s IH]; intros v v2 c d rest H Hs Hv Hc Hd; [discriminate|].
  destruct v2 as [|b v2]; [simpl; lia|].
  change (String a s = String b (v2 +:+ String c (String d rest))) in Hs.
  injection Hs as <- ->.
  simpl in Hv. apply andb_prop in Hv as [Ha Hv].
  rewrite version_group_cons, Ha in H.
  destruct v2 as [|b v2].
  - destruct (version_group _); [|destruct (suffix_matches _)]; try discriminate;
      injection H as <-; simpl; lia.
  - destruct (version_group_complete (String b v2) c d rest) as (x & Hx & Hlen);
      [discriminate | exact Hv | exact Hc | exact Hd |].
    rewrite Hx in H. injection H as <-. cbn [String.length] in *. lia.
Qed.

(** X13: what [re.match(r'Mr_Beam-(?P<version>[0-9.]+)[.-].+', f)]
    gives. A match exists exactly when [f] is [Mr_Beam-], a non-empty run
    of digits and dots, a dot or dash, and at least one more character
    that is no newline; the version group is then the longest such run. *)
Theorem re_match_version_longest_run :
  forall (f : string),
    let shape (v : string) :=
      exists c d rest,
        f = "Mr_Beam-" +:+ v +:+ String c (String d rest)
        /\ Str.forallb is_version_char v = true
        /\ (c = "."%char \/ c = "-"%char) /\ d <> "010"%char in
    (forall v, re_match_version f = Some v ->
               v <> EmptyString /\ shape v
               /\ forall v2, shape v2 -> (String.length v2 <= String.length v)%nat)
    /\ (re_match_version f = None -> forall v, v <> EmptyString -> ~ shape v).
Proof.
  intros f shape. subst shape. cbv beta. unfold re_match_version. split.
  - intros v H. destruct (strip_prefix "Mr_Beam-" f) as [s|] eqn:Hp; [|discriminate].
    apply strip_prefix_inv in Hp. subst f.
    destruct (version_group_sound s v H) as (Hne & Hv & c & d & rest & Hs & Hc & Hd).
    split; [exact Hne|]. split.
    + exists c, d, rest. rewrite Hs. auto.
    + intros v2 (c2 & d2 & rest2 & Hf & Hv2 & Hc2 & Hd2).
      assert (s = v2 +:+ String c2 (String d2 rest2)) as Hs2.
      { pose proof (strip_prefix_app "Mr_Beam-" s) as H1. rewrite Hf in H1.
        rewrite strip_prefix_app in H1. congruence. }
      exact (version_group_longest s v v2 c2 d2 rest2 H Hs2 Hv2 Hc2 Hd2).
  - intros H v Hne (c & d & rest & Hf & Hv & Hc & Hd). subst f.
    rewrite strip_prefix_app in H.
    destruct (version_group_complete v c d rest Hne Hv Hc Hd) as (v' & Hv' & _).
    congruence.
Qed.

Lemma re_match_version_longest_run_witness :
  "0.1.10" <> EmptyString
  /\ exists c d rest,
       "Mr_Beam-0.1.10-py2.7.egg-info" = "Mr_Beam-" +:+ "0.1.10" +:+ String c (String d rest)
       /\ Str.forallb is_version_char "0.1.10" = true
       /\ (c = "."%char \/ c = "-"%char) /\ d <> "010"%char.
Proof.
  destruct (proj1 (re_match_version_longest_run "Mr_Beam-0.1.10-py2.7.egg-info")
              "0.1.10" eq_refl) as (Hne & Hshape & _).
  split; [exact Hne | exact Hshape].
Defined.

Lemma strict_eq_not_lt a b : StrictVersion.eq a b = true -> StrictVersion.lt a b = false.
Proof.
  unfold StrictVersion.eq, StrictVersion.lt. destruct (StrictVersion.cmp a b); auto.
Qed.

(** X14: an egg name with a full version [X.Y.Z] and a suffix, as pip
    writes them ([Mr_Beam-0.1.10-py2.7.egg-info], [Mr_Beam-0.1.10.dist-info]),
    is read with its full version; [_compare_versions] of that version
    with the threshold answers whether [X.Y.Z] is below 0.1.17; and
    [delete_egg_dir_leftovers], on a listing with distinct names whose
    leftovers are directories, deletes the entry exactly when [X.Y.Z] is
    below 0.1.17. *)
Theorem suffixed_egg_name_is_read_in_full :
  forall (self : Migration) (w : World) (entries : list (string * entry_kind))
         (k : entry_kind) (x y z : string) (c d : ascii) (rest : string),
    Str.isdigit x = true -> Str.isdigit y = true -> Str.isdigit z = true ->
    c = "-"%char \/ (c = "."%char /\ is_version_char d = false /\ d <> "-"%char) ->
    d <> "010"%char ->
    let f := "Mr_Beam-" +:+ (x +:+ "." +:+ y +:+ "." +:+ z) +:+ String c (String d rest) in
    let below :=
      StrictVersion.lt (StrictVersion.mk (Str.atoi x, Str.atoi y, Str.atoi z) None)
        (StrictVersion.mk (0, 1, 17) None) in
    re_match_version f = Some (x +:+ "." +:+ y +:+ "." +:+ z)
    /\ _compare_versions self (Some (x +:+ "." +:+ y +:+ "." +:+ z))
         (Some VERSION_DELETE_EGG_DIR_LEFTOVERS) false w
       = (Ret (Some below), w)
    /\ is_leftover f = below
    /\ (site_packages w = Some entries ->
        NoDup (map fst entries) ->
        (forall f' k', In (f', k') entries -> is_leftover f' = true -> k' = Directory) ->
        In (f, k) entries ->
        exists w' entries',
          delete_egg_dir_leftovers self w = (Ret tt, w')
          /\ site_packages w' = Some entries'
          /\ (In (f, k) entries' <-> below = false)).
Proof.
  intros self w entries k x y z c d rest Hx Hy Hz Hc Hd f below.
  assert (re_match_version f = Some (x +:+ "." +:+ y +:+ "." +:+ z)) as Hm.
  { unfold re_match_version. subst f. rewrite strip_prefix_app.
    apply version_group_exact; [destruct x; discriminate | | exact Hc | exact Hd].
    rewrite !forallb_app.
    rewrite (digits_are_version_chars x (isdigit_forallb x Hx)).
    rewrite (digits_are_version_chars y (isdigit_forallb y Hy)).
    rewrite (digits_are_version_chars z (isdigit_forallb z Hz)). reflexivity. }
  assert ((if StrictVersion.eq
                (StrictVersion.mk (Str.atoi x, Str.atoi y, Str.atoi z) None)
                (StrictVersion.mk (0, 1, 17) None)
           then false else below) = below) as Hbelow.
  { destruct (StrictVersion.eq _ _) eqn:E; [|reflexivity].
    symmetry. apply strict_eq_not_lt. exact E. }
  assert (is_leftover f = below) as Hleft.
  { unfold is_leftover. rewrite Hm, (strict_parse_three x y z Hx Hy Hz).
    change (StrictVersion.parse VERSION_DELETE_EGG_DIR_LEFTOVERS)
      with (Ret (A := StrictVersion.t) (StrictVersion.mk (0, 1, 17) None)).
    cbv beta iota. exact Hbelow. }
  split; [exact Hm|]. split; [|split; [exact Hleft|]].
  - assert (StrictVersion.parse VERSION_DELETE_EGG_DIR_LEFTOVERS
            = Ret (StrictVersion.mk (0, 1, 17) None)) as Hh by reflexivity.
    rewrite (compare_versions_valid self _ _ _ _ false w
               (strict_parse_three x y z Hx Hy Hz) Hh).
    unfold below in *. rewrite Hbelow. reflexivity.
  - intros Hsp Hnd Hdirs Hin.
    destruct (delete_egg_dir_leftovers_spec self w entries Hsp Hnd Hdirs) as (w' & E & Hsp').
    exists w', (List.filter (fun e => negb (is_leftover (fst e))) entries).
    split; [exact E|]. split; [exact Hsp'|].
    rewrite filter_In. cbn [fst]. rewrite Hleft, negb_true_iff. tauto.
Qed.

Lemma suffixed_egg_name_is_read_in_full_witness :
  re_match_version "Mr_Beam-0.1.10-py2.7.egg-info" = Some "0.1.10"
  /\ is_leftover "Mr_Beam-0.1.10-py2.7.egg-info" = true
  /\ exists w' entries',
       delete_egg_dir_leftovers (mkMigration Examples.plugin_2C (Some "0.1.12") "0.1.20")
         (with_site_packages
            (Some [("Mr_Beam-0.1.10-py2.7.egg-info", Directory);
                   ("Mr_Beam-0.1.20-py2.7.egg-info", Directory)])
            (Examples.device (Some "0.1.12")))
       = (Ret tt, w')
       /\ site_packages w' = Some entries'
       /\ ~ In ("Mr_Beam-0.1.10-py2.7.egg-info", Directory) entries'.
Proof.
  destruct (suffixed_egg_name_is_read_in_full
              (mkMigration Examples.plugin_2C (Some "0.1.12") "0.1.20")
              (with_site_packages
                 (Some [("Mr_Beam-0.1.10-py2.7.egg-info", Directory);
                        ("Mr_Beam-0.1.20-py2.7.egg-info", Directory)])
                 (Examples.device (Some "0.1.12")))
              [("Mr_Beam-0.1.10-py2.7.egg-info", Directory);
               ("Mr_Beam-0.1.20-py2.7.egg-info", Directory)]
              Directory "0" "1" "10" "-"%char "p"%char "y2.7.egg-info"
              eq_refl eq_refl eq_refl (or_introl eq_refl) ltac:(discriminate))
    as (Hm & _ & Hleft & Hdel).
  split; [exact Hm|]. split; [exact Hleft|].
  destruct Hdel as (w' & entries' & E & Hsp & Hin).
  - reflexivity.
  - apply (bool_decide_unpack _). vm_compute. exact I.
  - intros f' k' [H|[H|[]]] _; injection H as _ <-; reflexivity.
  - left. reflexivity.
  - exists w', entries'. split; [exact E|]. split; [exact Hsp|].
    intros H. apply Hin in H. vm_compute in H. discriminate H.
Defined.

End EggPattern.

(** * The default profile of the other series *)

Section OtherProfiles.

Import Migrate Effects.
Local Open Scope py_scope.

(** X15: the D series is treated like the C series but for the [legacy]
    record: without a saved profile [MrBeam2D] the current default is
    copied under the new id, name and model, keeping laser, dust and
    legacy values, and becomes the default; with one, that profile only
    becomes the default and the store is left as it is. *)
Theorem set_lasercutterProfile_2D_cases :
  forall (self : Migration) (w : World),
    (Profile.exists_ (profiles w) "MrBeam2D" = false ->
     let created :=
       Profile.mk "MrBeam2D" "MrBeam2" "D"
         (Profile.laser (Profile.get_default (profiles w)))
         (Profile.dust (Profile.get_default (profiles w)))
         (Profile.legacy (Profile.get_default (profiles w))) in
     exists w',
       set_lasercutterPorfile_2D self w = (Ret tt, w')
       /\ Profile.saved (profiles w') = <["MrBeam2D" := created]> (Profile.saved (profiles w))
       /\ Profile.default_id (profiles w') = "MrBeam2D"
       /\ Profile.get_default (profiles w') = created)
    /\ (Profile.exists_ (profiles w) "MrBeam2D" = true ->
        exists w',
          set_lasercutterPorfile_2D self w = (Ret tt, w')
          /\ Profile.saved (profiles w') = Profile.saved (profiles w)
          /\ Profile.default_id (profiles w') = "MrBeam2D"
          /\ Profile.saved (profiles w) !! "MrBeam2D" = Some (Profile.get_default (profiles w'))).
Proof.
  intros self w. split.
  - intros Hex created.
    unfold set_lasercutterPorfile_2D, bind, laserCutterProfileManager_exists,
      laserCutterProfileManager_get_default, gets.
    rewrite Hex, manager_save_overwrite. eexists. split; [reflexivity|].
    cbn -[insert lookup]. unfold Profile.set_default, Profile.exists_. cbn -[insert lookup].
    rewrite lookup_insert_eq.
    rewrite bool_decide_eq_true_2 by eauto.
    unfold Profile.get_default. cbn -[insert lookup]. rewrite lookup_insert_eq.
    repeat split; reflexivity.
  - intros Hex.
    unfold set_lasercutterPorfile_2D, bind, laserCutterProfileManager_exists,
      laserCutterProfileManager_set_default, gets, modify, log.
    rewrite Hex. eexists. split; [reflexivity|].
    cbn -[insert lookup]. unfold Profile.set_default. rewrite Hex.
    unfold Profile.get_default. cbn -[insert lookup].
    unfold Profile.exists_ in Hex. apply bool_decide_eq_true_1 in Hex as [p Hp].
    rewrite Hp. repeat split; reflexivity.
Qed.

Lemma set_lasercutterProfile_2D_cases_witness :
  exists w',
    set_lasercutterPorfile_2D (mkMigration MoreExamples.plugin_2D None "0.1.20")
      (Examples.device None) = (Ret tt, w')
    /\ Profile.get_default (profiles w') =
       Profile.mk "MrBeam2D" "MrBeam2" "D" {["intensity_factor" := 1%Z]}
         {["auto_mode_time" := 300%Z]} None.
Proof.
  destruct (proj1 (set_lasercutterProfile_2D_cases
                     (mkMigration MoreExamples.plugin_2D None "0.1.20")
                     (Examples.device None)) eq_refl) as (w' & E & _ & _ & Hd).
  exists w'. split; [exact E | exact Hd].
Defined.

(** X16: for a series other than 2C and 2D no profile is ever created:
    the saved profiles stay as they are. Series 2X changes nothing but the
    log and stores no version; any other series makes the saved profile
    [MrBeam<series>] the default if there is one, keeps the generic profile
    if there is none, and stores the current version in both cases. *)
Theorem set_lasercutterProfile_other_series :
  forall (self : Migration) (w : World),
    Profile.id (Profile.get_default (profiles w)) = "my_default" ->
    _device_series (plugin self) <> "2C" ->
    _device_series (plugin self) <> "2D" ->
    exists w',
      set_lasercutterProfile self w = (Ret tt, w')
      /\ Profile.saved (profiles w') = Profile.saved (profiles w)
      /\ (_device_series (plugin self) = "2X" ->
          profiles w' = profiles w /\ settings_version w' = settings_version w)
      /\ (_device_series (plugin self) <> "2X" ->
          settings_version w' = Some (version_current self)
          /\ Profile.default_id (profiles w') =
             if Profile.exists_ (profiles w) ("MrBeam" +:+ _device_series (plugin self))
             then "MrBeam" +:+ _device_series (plugin self)
             else Profile.default_id (profiles w)).
Proof.
  intros self w Hid HC HD.
  apply String.eqb_neq in HC. apply String.eqb_neq in HD.
  unfold set_lasercutterProfile. unfold bind at 1.
  unfold laserCutterProfileManager_get_default, gets. rewrite Hid.
  cbn [String.eqb Ascii.eqb Bool.eqb]. unfold bind at 1. rewrite log_eq.
  destruct (String.eqb_spec (_device_series (plugin self)) "2X") as [HX|HX].
  - rewrite log_eq. eexists. split; [reflexivity|]. split; [reflexivity|].
    split; [intros _; split; reflexivity | intros Hne; contradiction].
  - rewrite HC, HD. unfold bind at 1.
    unfold set_lasercutterPorfile_2all. unfold bind at 1.
    unfold laserCutterProfileManager_exists, gets.
    cbn [profiles with_logged].
    destruct (Profile.exists_ (profiles w) ("MrBeam" +:+ _device_series (plugin self)))
      eqn:Hex.
    + unfold bind at 1. unfold laserCutterProfileManager_set_default, modify.
      rewrite log_eq. unfold save_current_version, modify.
      eexists. split; [reflexivity|].
      cbn [profiles with_logged with_profiles with_settings_version settings_version].
      unfold Profile.set_default. rewrite Hex. cbn [Profile.saved Profile.default_id].
      split; [reflexivity|].
      split; [intros Heq; contradiction | intros _; split; reflexivity].
    + rewrite log_eq. unfold save_current_version, modify.
      eexists. split; [reflexivity|].
      cbn [profiles with_logged with_profiles with_settings_version settings_version].
      split; [reflexivity|].
      split; [intros Heq; contradiction | intros _; split; reflexivity].
Qed.

Lemma set_lasercutterProfile_other_series_witness :
  exists w',
    set_lasercutterProfile (mkMigration (mkPlugin "0.1.20" "2X") None "0.1.20")
      (Examples.device None) = (Ret tt, w')
    /\ profiles w' = profiles (Examples.device None)
    /\ settings_version w' = None.
Proof.
  destruct (set_lasercutterProfile_other_series
              (mkMigration (mkPlugin "0.1.20" "2X") None "0.1.20") (Examples.device None))
    as (w' & E & _ & HX & _).
  - reflexivity.
  - vm_compute. discriminate.
  - vm_compute. discriminate.
  - exists w'. split; [exact E|]. exact (HX eq_refl).
Defined.

(** X18: in a store filed by id, the profile assignment of a C or D
    series device always ends with a default profile that is no longer the
    generic one, so that later starts skip the assignment. *)
Theorem assigned_profile_is_set :
  forall (self : Migration) (w : World),
    _device_series (plugin self) = "2C" \/ _device_series (plugin self) = "2D" ->
    filed_by_id (profiles w) ->
    exists w',
      set_lasercutterProfile self w = (Ret tt, w')
      /\ fst (is_lasercutterProfile_set self w') = Ret true.
Proof.
  intros self w Hseries Hfiled.
  destruct (set_lasercutterProfile_returns self w) as [w' E]. exists w'.
  split; [exact E|]. rewrite is_lasercutterProfile_set_eq. cbn [fst]. revert E.
  unfold set_lasercutterProfile. unfold bind at 1.
  unfold laserCutterProfileManager_get_default, gets.
  destruct (String.eqb_spec (Profile.id (Profile.get_default (profiles w))) "my_default")
    as [Hid|Hid].
  - unfold bind at 1. rewrite log_eq.
    assert (forall pm k,
               filed_by_id pm -> Profile.exists_ pm k = true -> k <> "my_default" ->
               Profile.id (Profile.get_default (Profile.set_default pm k)) <> "my_default")
      as Hswitch.
    { intros pm k Hf Hex Hk. unfold Profile.set_default. rewrite Hex.
      unfold Profile.get_default. cbn [Profile.saved Profile.default_id].
      unfold Profile.exists_ in Hex. apply bool_decide_eq_true_1 in Hex as [p Hp].
      rewrite Hp. rewrite (Hf k p Hp). exact Hk. }
    destruct Hseries as [Hs|Hs]; rewrite Hs; cbn [String.eqb Ascii.eqb Bool.eqb];
      unfold bind at 1;
      unfold set_lasercutterPorfile_2C, set_lasercutterPorfile_2D;
      unfold bind at 1; unfold laserCutterProfileManager_exists, gets;
      cbn [profiles with_logged];
      match goal with
      | |- context [Profile.exists_ (profiles w) ?k] =>
          destruct (Profile.exists_ (profiles w) k) eqn:Hex
      end.
    + unfold bind at 1. unfold laserCutterProfileManager_set_default, modify.
      rewrite log_eq. unfold save_current_version, modify. intros [= <-].
      cbn [profiles with_logged with_profiles with_settings_version].
      f_equal. apply negb_true_iff, String.eqb_neq.
      apply (Hswitch _ _ Hfiled Hex). discriminate.
    + unfold bind at 1. unfold laserCutterProfileManager_get_default, gets.
      unfold bind at 1. rewrite manager_save_overwrite. rewrite log_eq.
      unfold save_current_version, modify. intros [= <-].
      cbn -[insert lookup]. unfold Profile.set_default, Profile.exists_.
      cbn -[insert lookup]. rewrite lookup_insert_eq.
      rewrite bool_decide_eq_true_2 by eauto.
      unfold Profile.get_default. cbn -[insert lookup]. rewrite lookup_insert_eq.
      reflexivity.
    + unfold bind at 1. unfold laserCutterProfileManager_set_default, modify.
      rewrite log_eq. unfold save_current_version, modify. intros [= <-].
      cbn [profiles with_logged with_profiles with_settings_version].
      f_equal. apply negb_true_iff, String.eqb_neq.
      apply (Hswitch _ _ Hfiled Hex). discriminate.
    + unfold bind at 1. unfold laserCutterProfileManager_get_default, gets.
      unfold bind at 1. rewrite manager_save_overwrite. rewrite log_eq.
      unfold save_current_version, modify. intros [= <-].
      cbn -[insert lookup]. unfold Profile.set_default, Profile.exists_.
      cbn -[insert lookup]. rewrite lookup_insert_eq.
      rewrite bool_decide_eq_true_2 by eauto.
      unfold Profile.get_default. cbn -[insert lookup]. rewrite lookup_insert_eq.
      reflexivity.
  - intros [= <-]. apply String.eqb_neq in Hid. rewrite Hid. reflexivity.
Qed.

Lemma assigned_profile_is_set_witness :
  exists w',
    set_lasercutterProfile (mkMigration Examples.plugin_2C None "0.1.20")
      Examples.device_with_2C = (Ret tt, w')
    /\ fst (is_lasercutterProfile_set (mkMigration Examples.plugin_2C None "0.1.20") w')
       = Ret true.
Proof.
  apply (assigned_profile_is_set (mkMigration Examples.plugin_2C None "0.1.20")
           Examples.device_with_2C).
  - left. reflexivity.
  - intros k p H. cbn [profiles Examples.device_with_2C Profile.saved] in H.
    apply lookup_singleton_Some in H as [<- <-]. reflexivity.
Defined.

(** X19: [migrate_from_0_0_0] rewrites the default profile and nothing
    else: the profile keeps its id, name, model and legacy record, its
    laser and dust records change at [intensity_factor] and
    [auto_mode_time] alone, it is still the default, and every other saved
    profile is untouched. *)
Theorem migrate_from_0_0_0_changes_two_values :
  forall (self : Migration) (w : World),
    let p := Profile.get_default (profiles w) in
    exists w',
      migrate_from_0_0_0 self w = (Ret tt, w')
      /\ Profile.get_default (profiles w') =
         Profile.mk (Profile.id p) (Profile.name p) (Profile.model p)
           (<["intensity_factor" := 13%Z]> (Profile.laser p))
           (<["auto_mode_time" := 60%Z]> (Profile.dust p))
           (Profile.legacy p)
      /\ (forall k, k <> "intensity_factor" ->
                    Profile.laser (Profile.get_default (profiles w')) !! k
                    = Profile.laser p !! k)
      /\ (forall k, k <> "auto_mode_time" ->
                    Profile.dust (Profile.get_default (profiles w')) !! k
                    = Profile.dust p !! k)
      /\ (forall k, k <> Profile.id p ->
                    Profile.saved (profiles w') !! k = Profile.saved (profiles w) !! k).
Proof.
  intros self w p.
  unfold migrate_from_0_0_0, bind, laserCutterProfileManager_get_default, gets.
  rewrite !log_eq, manager_save_overwrite. eexists. split; [reflexivity|].
  cbn [profiles with_logged with_profiles logged]. fold p.
  unfold Profile.set_default, Profile.exists_.
  cbn [Profile.saved Profile.default_id Profile.generic Profile.id Profile.set_dust
       Profile.set_laser].
  rewrite lookup_insert_eq. rewrite bool_decide_eq_true_2 by eauto.
  clearbody p.
  unfold Profile.get_default.
  cbn [Profile.saved Profile.default_id Profile.generic Profile.id Profile.set_dust
       Profile.set_laser].
  rewrite !lookup_insert_eq.
  cbn [Profile.laser Profile.dust Profile.name Profile.model Profile.legacy Profile.id].
  split; [reflexivity|].
  split; [intros k Hk; apply lookup_insert_ne; congruence|].
  split; [intros k Hk; apply lookup_insert_ne; congruence|].
  intros k Hk. apply lookup_insert_ne. congruence.
Qed.

End OtherProfiles.

(** * Software channels *)

Section Channels.

Import SoftwareChannel.
Local Open Scope py_scope.

(** X20: [switch_software_channel] never leaves the offered channels.
    After a call the tier setting is the old one or the requested channel,
    and then that channel is among [software_channels_available]; on a
    device that is no development device a production tier can only be
    replaced by a production tier, whatever channel is asked for. *)
Theorem switch_software_channel_stays_available :
  forall (plugin : Plugin) (channel : string) (w : World),
    let w' := snd (switch_software_channel plugin channel w) in
    (software_tier w' = software_tier w
     \/ (software_tier w' = channel /\ In channel (software_channels_available plugin)))
    /\ (is_dev_env plugin = false ->
        In (software_tier w) SoftwareUpdate.SW_UPDATE_TIERS_PROD ->
        In (software_tier w') SoftwareUpdate.SW_UPDATE_TIERS_PROD).
Proof.
  intros plugin channel w w'.
  assert (software_tier w' = software_tier w
          \/ (software_tier w' = channel /\ In channel (software_channels_available plugin)))
    as H.
  { subst w'. destruct (switch_software_channel plugin channel w) as [r w1] eqn:E.
    cbn [snd]. revert E.
    unfold switch_software_channel. unfold bind at 1. unfold gets. cbv beta iota.
    destruct (SoftwareUpdate.in_list channel (software_channels_available plugin)) eqn:Hin;
      [|intros [= <- <-]; left; reflexivity].
    destruct (negb (channel =? software_tier w)%string);
      [|intros [= <- <-]; left; reflexivity].
    unfold reload_update_info, bind, log, modify, _clear_version_cache, ret, raise.
    destruct (softwareupdate_registered plugin); intros [= <- <-]; right;
      (split; [reflexivity|]);
      unfold SoftwareUpdate.in_list in Hin; apply existsb_exists in Hin as (c & Hc & Heq);
      apply String.eqb_eq in Heq; subst c; exact Hc. }
  split; [exact H|].
  intros Hdev Hold. destruct H as [-> | [-> H]]; [exact Hold|].
  unfold software_channels_available in H. rewrite Hdev in H. exact H.
Qed.

Lemma switch_software_channel_stays_available_witness :
  In (software_tier
        (snd (switch_software_channel (mkPlugin false true) "DEV"
                (mkWorld "PROD" false [] false []))))
     SoftwareUpdate.SW_UPDATE_TIERS_PROD.
Proof.
  apply (proj2 (switch_software_channel_stays_available (mkPlugin false true) "DEV"
                  (mkWorld "PROD" false [] false []))).
  - reflexivity.
  - left. reflexivity.
Defined.

(** X21: a switch to an offered channel other than the current one stores
    the channel, asks the software update plugin to refresh its checks and
    empties its version cache; asked a second time for the same channel the
    function changes nothing at all. The setting is written before the
    reload: where the software update plugin is missing the call raises
    [AttributeError] with the new channel already stored. *)
Theorem switch_software_channel_effect :
  forall (plugin : Plugin) (channel : string) (w : World),
    In channel (software_channels_available plugin) ->
    channel <> software_tier w ->
    (softwareupdate_registered plugin = true ->
     let w' :=
       mkWorld channel true [] true
         (logged w ++ [(INFO, "Switching software channel to: {channel}");
                       (DEBUG, "Reload update info")]) in
     switch_software_channel plugin channel w = (Ret tt, w')
     /\ switch_software_channel plugin channel w' = (Ret tt, w'))
    /\ (softwareupdate_registered plugin = false ->
        switch_software_channel plugin channel w =
        (Raise AttributeError,
         mkWorld channel (_refresh_configured_checks w) (_version_cache w)
           (_version_cache_dirty w)
           (logged w ++ [(INFO, "Switching software channel to: {channel}");
                         (DEBUG, "Reload update info")]))).
Proof.
  intros plugin channel w Hin Hne.
  assert (SoftwareUpdate.in_list channel (software_channels_available plugin) = true) as Hb.
  { unfold SoftwareUpdate.in_list. apply existsb_exists. exists channel.
    split; [exact Hin | apply String.eqb_refl]. }
  apply String.eqb_neq in Hne.
  split; intros Hreg.
  - intros w'. split.
    + unfold switch_software_channel. unfold bind at 1. unfold gets. cbv beta iota. rewrite Hb, Hne.
      unfold reload_update_info, bind, log, modify, _clear_version_cache, ret.
      rewrite Hreg. subst w'. cbn [software_tier _refresh_configured_checks _version_cache
                                     _version_cache_dirty logged andb negb].
      rewrite <- app_assoc. reflexivity.
    + unfold switch_software_channel. unfold bind at 1. unfold gets. cbv beta iota. subst w'.
      cbn [software_tier]. rewrite String.eqb_refl, andb_false_r. reflexivity.
  - unfold switch_software_channel. unfold bind at 1. unfold gets. cbv beta iota. rewrite Hb, Hne.
    unfold reload_update_info, bind, log, modify, _clear_version_cache, ret, raise.
    rewrite Hreg. cbn [software_tier _refresh_configured_checks _version_cache
                         _version_cache_dirty logged andb negb].
    rewrite <- app_assoc. reflexivity.
Qed.

Lemma switch_software_channel_effect_witness :
  switch_software_channel (mkPlugin false true) "BETA" (mkWorld "PROD" false [] false [])
  = (Ret tt,
     mkWorld "BETA" true [] true
       [(INFO, "Switching software channel to: {channel}"); (DEBUG, "Reload update info")]).
Proof.
  destruct (switch_software_channel_effect (mkPlugin false true) "BETA"
              (mkWorld "PROD" false [] false [])) as [H _].
  - right. left. reflexivity.
  - vm_compute. discriminate.
  - exact (proj1 (H eq_refl)).
Defined.

End Channels.

(** * The update configuration: what is written and what is returned *)

Section UpdateFrames.

Import SoftwareUpdate Value Effects.
Context {env : Environment}.
Local Open Scope py_scope.

Lemma update_log_maintains I lvl msg : reads_written_only I -> maintains I (log lvl msg).
Proof. intros HI w H. exact (HI _ _ _ w H). Qed.

Lemma show_notification_maintains I notification_id :
  reads_written_only I -> maintains I (show_notification notification_id).
Proof. intros HI w H. exact (HI _ _ _ w H). Qed.

Lemma clear_version_cache_maintains I :
  reads_written_only I -> maintains I _clear_version_cache.
Proof. intros HI w H. exact (HI _ _ _ w H). Qed.

End UpdateFrames.

Ltac update_frame_step :=
  first
    [ simple apply update_log_maintains; assumption
    | simple apply show_notification_maintains; assumption
    | simple apply clear_version_cache_maintains; assumption
    | frame_core ].

Section UpdateConfig.

Import SoftwareUpdate Value Effects.
Context {env : Environment}.
Local Open Scope py_scope.

Lemma generate_config_of_beamos_maintains I moduleconfig beamos_date tierversion :
  reads_written_only I ->
  maintains I (_generate_config_of_beamos moduleconfig beamos_date tierversion).
Proof.
  intros HI. unfold _generate_config_of_beamos. repeat update_frame_step.
Qed.

Lemma get_curent_version_maintains I input_moduleconfig module_id plugin :
  reads_written_only I ->
  maintains I (_get_curent_version input_moduleconfig module_id plugin).
Proof.
  intros HI. unfold _get_curent_version. repeat update_frame_step.
Qed.

Lemma generate_config_of_module_at_maintains I depth :
  reads_written_only I ->
  forall module_id input_moduleconfig defaultsettings tier beamos_date plugin,
    maintains I (_generate_config_of_module_at depth module_id input_moduleconfig
                   defaultsettings tier beamos_date plugin).
Proof.
  intros HI. induction depth as [|depth IH]; intros.
  - apply maintains_raise.
  - cbn [_generate_config_of_module_at].
    repeat first
      [ simple apply IH
      | simple apply generate_config_of_beamos_maintains; assumption
      | simple apply get_curent_version_maintains; assumption
      | update_frame_step ].
Qed.

Lemma generate_modules_maintains I plugin tier beamos_date defaultsettings modules :
  reads_written_only I ->
  maintains I (generate_modules plugin tier beamos_date defaultsettings modules).
Proof.
  intros HI. unfold generate_modules, _generate_config_of_module.
  repeat first
    [ simple apply generate_config_of_module_at_maintains; assumption
    | update_frame_step ].
Qed.

Lemma bind_inv {S A B} (m : M S A) (k : A -> M S B) w r w' :
  bind m k w = (r, w') ->
  (exists e, m w = (Raise e, w') /\ r = Raise e)
  \/ (exists a w1, m w = (Ret a, w1) /\ k a w1 = (r, w')).
Proof.
  unfold bind. destruct (m w) as [[a|e] w1].
  - right. eauto.
  - intros [= <- <-]. left. eauto.
Qed.

(** X22: [_set_info_from_cloud_config] returns a configuration only when
    its last act was a write of that very configuration to
    [update_info.json] in the base folder that went through in full;
    whenever it returns [None] or raises, no write went through, whatever
    happened while the module records were generated. This speaks of
    completed writes only: a write that fails after [open(path, "w")] has
    emptied the file is a write that did not go through. *)
Theorem set_info_returns_what_it_wrote :
  forall (plugin : Plugin) (tier : string) (beamos_date : Date.t)
         (cloud_config : Value.t) (w : World),
    let path := os_path_join (getBaseFolder_base plugin) SW_UPDATE_INFO_FILE_NAME in
    let outcome := _set_info_from_cloud_config plugin tier beamos_date cloud_config w in
    match fst outcome with
    | Ret (Some sw_update_config) =>
        written (snd outcome) = (path, sw_update_config) :: written w
    | _ => written (snd outcome) = written w
    end.
Proof.
  intros plugin tier beamos_date cloud_config w path outcome. subst outcome.
  set (Q := fun (r : result (option Value.t)) (w' : World) =>
              match r with
              | Ret (Some sw_update_config) =>
                  written w' = (path, sw_update_config) :: written w
              | _ => written w' = written w
              end).
  assert (forall l n c w1, written w1 = written w ->
                           written (mkWorld l n (written w1) c) = written w) as Hkeep
      by (intros; assumption).
  destruct (_set_info_from_cloud_config plugin tier beamos_date cloud_config w)
    as [r w'] eqn:E. cbn [fst snd]. change (Q r w').
  unfold _set_info_from_cloud_config, logExceptions in E.
  unfold try_except at 1 in E.
  match type of E with
  | match ?body w with _ => _ end = _ =>
      assert (forall res w0, body w = (res, w0) -> Q res w0) as Hbody
  end.
  { intros res w0 Eb.
    destruct (truthy cloud_config); [|injection Eb as <- <-; reflexivity].
    apply bind_inv in Eb as [(e & Hm1 & _) | ([] & w1 & Hm1 & Eb)];
      [rewrite log_appends in Hm1; discriminate Hm1|].
    rewrite log_appends in Hm1. injection Hm1 as <-.
    apply bind_inv in Eb as [(e & Hm2 & ->) | (defaultsettings & w2 & Hm2 & Eb)];
      [unfold lift in Hm2; injection Hm2 as _ <-; reflexivity|].
    unfold lift in Hm2. injection Hm2 as _ <-.
    apply bind_inv in Eb as [(e & Hm3 & ->) | (modules & w2 & Hm3 & Eb)];
      [unfold lift in Hm3; injection Hm3 as _ <-; reflexivity|].
    unfold lift in Hm3. injection Hm3 as _ <-.
    apply bind_inv in Eb as [(e & Hm4 & ->) | (entries & w2 & Hm4 & Eb)];
      [unfold lift in Hm4; injection Hm4 as _ <-; reflexivity|].
    unfold lift in Hm4. injection Hm4 as _ <-.
    match type of Eb with
    | bind (generate_modules ?p ?t ?b ?d ?m) _ ?w1 = _ =>
        pose proof (generate_modules_maintains (fun x => written x = written w)
                      p t b d m Hkeep w1 eq_refl) as Hgen
    end.
    apply bind_inv in Eb as [(e & Hm5 & ->) | (sw_update_config & w2 & Hm5 & Eb)];
      rewrite Hm5 in Hgen; cbn [snd] in Hgen; [exact Hgen|].
    apply bind_inv in Eb as [(e & Hm6 & _) | ([] & w3 & Hm6 & Eb)];
      [rewrite log_appends in Hm6; discriminate Hm6|].
    rewrite log_appends in Hm6. injection Hm6 as <-.
    revert Eb. unfold try_except, bind, write_json. fold path.
    destruct (write_file path sw_update_config) as [e|].
    - cbn [written logged notifications version_cache_dirty].
      destruct e; intros [= <- <-]; try exact Hgen.
    - intros [= <- <-]. unfold Q. cbn [written]. rewrite Hgen. reflexivity. }
  match type of E with
  | match ?body w with _ => _ end = _ => destruct (body w) as [[r0|e] w0] eqn:Eb
  end.
  - injection E as <- <-. apply (Hbody _ _ eq_refl).
  - specialize (Hbody _ _ eq_refl). unfold bind in E. rewrite log_appends in E.
    unfold raise in E. injection E as <- <-. exact Hbody.
Qed.

Lemma fold_each_unchanged {S A B} (l : list A) (body : B -> A -> M S B) :
  (forall acc x w, In x l -> body acc x w = (Ret acc, w)) ->
  forall acc w, fold_each l acc body w = (Ret acc, w).
Proof.
  induction l as [|x l IH]; intros Hb acc w; [reflexivity|].
  simpl. unfold bind. rewrite (Hb acc x w (or_introl eq_refl)).
  apply IH. intros acc' y w' Hy. apply Hb. right. exact Hy.
Qed.

(** X23: a tier that is none of the four known ones is no error. No
    module record is generated for it ([_generate_config_of_module] gives
    [None]), and [_set_info_from_cloud_config] writes and returns the empty
    configuration, whatever modules the document lists. *)
Theorem unknown_tier_gives_empty_config :
  forall (plugin : Plugin) (tier : string) (beamos_date : Date.t)
         (cloud_config defaultsettings : Value.t) (entries : list (string * Value.t))
         (w : World),
    in_list tier SW_UPDATE_TIERS = false ->
    truthy cloud_config = true ->
    Value.get cloud_config "default" = Ret defaultsettings ->
    getitem cloud_config "modules" = Ret (PDict entries) ->
    let path := os_path_join (getBaseFolder_base plugin) SW_UPDATE_INFO_FILE_NAME in
    write_file path (PDict []) = None ->
    _set_info_from_cloud_config plugin tier beamos_date cloud_config w =
    (Ret (Some (PDict [])),
     mkWorld (logged w ++ [(DEBUG, "update_info {}"); (DEBUG, "sw_update_config {}")])
       (notifications w) ((path, PDict []) :: written w) (version_cache_dirty w))
    /\ forall n module_id input_moduleconfig w1,
         _generate_config_of_module_at (S n) module_id input_moduleconfig defaultsettings
           tier beamos_date plugin w1 = (Ret None, w1).
Proof.
  intros plugin tier beamos_date cloud_config defaultsettings entries w
    Htier Ht Hd Hm path Hwrite.
  split.
  - unfold _set_info_from_cloud_config, logExceptions. rewrite Ht.
    unfold try_except at 1.
    unfold bind at 1. rewrite log_appends.
    unfold bind at 1. unfold lift at 1. rewrite Hd.
    unfold bind at 1. unfold lift at 1. rewrite Hm.
    unfold bind at 1. unfold lift at 1. cbn [items].
    unfold bind at 1. unfold generate_modules.
    rewrite fold_each_unchanged
      by (intros acc [module_id module] w1 _; rewrite Htier; reflexivity).
    unfold bind at 1. rewrite log_appends.
    unfold try_except, bind, write_json. fold path. rewrite Hwrite.
    cbn [logged notifications written version_cache_dirty].
    rewrite <- app_assoc. reflexivity.
  - intros n module_id input_moduleconfig w1.
    cbn [_generate_config_of_module_at]. rewrite Htier. reflexivity.
Qed.

End UpdateConfig.

Section UnknownTierWitness.

Import SoftwareUpdate Value.

Lemma unknown_tier_gives_empty_config_witness :
  @_set_info_from_cloud_config MoreExamples.github_up_writable Examples.stable_plugin
    "NIGHTLY" (Date.mk 2021 12 1)
    (PDict [("default", PDict []); ("modules", PDict [("mrbeam", PDict [])])])
    Examples.quiet
  = (Ret (Some (PDict [])),
     mkWorld [(DEBUG, "update_info {}"); (DEBUG, "sw_update_config {}")] []
       [("/home/pi/.octoprint/update_info.json", PDict [])] false).
Proof.
  apply (proj1 (@unknown_tier_gives_empty_config MoreExamples.github_up_writable
                  Examples.stable_plugin "NIGHTLY" (Date.mk 2021 12 1)
                  (PDict [("default", PDict []); ("modules", PDict [("mrbeam", PDict [])])])
                  (PDict []) [("mrbeam", PDict [])] Examples.quiet
                  eq_refl eq_refl eq_refl eq_refl eq_refl)).
Defined.

End UnknownTierWitness.

(** * Keys removed from a generated record *)

Section CleanConfig.

Import SoftwareUpdate Value.
Context {env : Environment}.

Lemma assoc_get_filter {V} (p : string -> bool) (k : string) (d : list (string * V)) :
  assoc_get k (List.filter (fun kv => p (fst kv)) d) =
  if p k then assoc_get k d else None.
Proof.
  induction d as [|[k' v] d IH]; [destruct (p k); reflexivity|].
  cbn [List.filter fst assoc_get].
  destruct (p k') eqn:Hp'; cbn [assoc_get];
    destruct (String.eqb_spec k' k) as [<-|Hne].
  - rewrite Hp'. reflexivity.
  - exact IH.
  - rewrite IH, Hp'. reflexivity.
  - exact IH.
Qed.

Lemma filter_filter_same {A} (p : A -> bool) (l : list A) :
  List.filter p (List.filter p l) = List.filter p l.
Proof.
  induction l as [|x l IH]; simpl; [reflexivity|].
  destruct (p x) eqn:Hp; simpl; [rewrite Hp, IH|]; auto.
Qed.

(** X24: [_clean_update_config] on a mapping removes the working keys
    [alpha], [beta], [stable], [develop], [beamos_date] and [name] and
    nothing else: every other key keeps its value and its place, and
    cleaning a cleaned mapping changes nothing. *)
Theorem clean_update_config_removes_working_keys :
  forall (d : list (string * Value.t)),
    exists d',
      _clean_update_config (PDict d) = Ret (PDict d')
      /\ (forall k, assoc_get k d' = if in_list k pop_list then None else assoc_get k d)
      /\ sublist d' d
      /\ _clean_update_config (PDict d') = Ret (PDict d').
Proof.
  intros d. eexists. split; [reflexivity|]. split; [|split].
  - intros k.
    rewrite (assoc_get_filter (fun k => negb (in_list k pop_list))).
    destruct (in_list k pop_list); reflexivity.
  - apply filter_sublist.
  - cbn [_clean_update_config]. rewrite filter_filter_same. reflexivity.
Qed.

End CleanConfig.

(** * Starts without a usable tag *)

Section NoTag.

Import SoftwareUpdate Value.
Context {env : Environment}.
Local Open Scope py_scope.

(** X25: without a connection [get_update_information] makes no request:
    it warns, shows [missing_updateinformation_info], marks the version
    cache of the software update plugin as dirty and goes on with the
    built-in fallback document. Where the software update plugin is not
    registered the cache is left alone and the [AttributeError] is logged,
    and the fallback document is used all the same. *)
Theorem get_update_information_offline :
  forall (plugin : Plugin) (w : World),
    check_immediately plugin = false ->
    get_update_information plugin w =
    _set_info_from_cloud_config plugin (software_tier plugin)
      (snd (get_beamos_version plugin)) fallback_config
      (match get_plugin_info plugin "softwareupdate" with
       | Some _ =>
           mkWorld
             (logged w ++ [(INFO, "SoftwareUpdate using tier: {tier} {beamos_date}");
                           (WARNING, "no internet connection")])
             (notifications w ++ ["missing_updateinformation_info"]) (written w) true
       | None =>
           mkWorld
             (logged w ++ [(INFO, "SoftwareUpdate using tier: {tier} {beamos_date}");
                           (WARNING, "no internet connection");
                           (EXCEPTION, "{}")])
             (notifications w ++ ["missing_updateinformation_info"]) (written w)
             (version_cache_dirty w)
       end).
Proof.
  intros plugin w Hoff. unfold get_update_information.
  destruct (get_beamos_version plugin) as [beamos_tier beamos_date]. cbn [snd].
  rewrite Hoff. unfold bind at 1. unfold try_except.
  unfold bind at 1. rewrite log_appends.
  unfold bind at 1. unfold bind at 1. rewrite log_appends. unfold ret at 1.
  unfold bind at 1. unfold show_notification, modify.
  cbn [logged notifications written version_cache_dirty].
  destruct (get_plugin_info plugin "softwareupdate").
  - unfold bind at 1. unfold _clear_version_cache, modify. unfold ret at 1.
    cbn [logged notifications written version_cache_dirty].
    rewrite <- app_assoc. reflexivity.
  - unfold raise. unfold bind at 1. rewrite log_appends. unfold ret at 1.
    cbn [logged notifications written version_cache_dirty].
    rewrite <- !app_assoc. reflexivity.
Qed.

Lemma semver_parse_raises_ValueError s e : SemVer.parse s = Raise e -> e = ValueError.
Proof.
  unfold SemVer.parse. intros H. repeat case_match; congruence.
Qed.

Lemma tag_version_errors version e :
  tag_version version = Raise e -> e = ValueError \/ e = TypeError \/ e = AttributeError.
Proof.
  unfold tag_version, Value.get. intros H.
  destruct version; try (injection H as <-; auto).
  destruct (default PNone (assoc_get "name" d));
    try (injection H as <-; auto).
  apply semver_parse_raises_ValueError in H. auto.
Qed.

Lemma comprehension_errors tags e :
  comprehension tag_version tags = Raise e ->
  e = ValueError \/ e = TypeError \/ e = AttributeError.
Proof.
  induction tags as [|t tags IH]; simpl; [discriminate|].
  destruct (tag_version t) eqn:Et.
  - destruct (comprehension tag_version tags); [discriminate|].
    intros [= <-]. apply IH. reflexivity.
  - intros [= <-]. apply (tag_version_errors _ _ Et).
Qed.

(** X26: a tag list that cannot be read as versions is not one of the
    failures [get_tag_of_github_repo] answers itself: the exception of the
    first bad tag ([ValueError], [TypeError] or [AttributeError]) leaves
    the function without a log record. [get_update_information] catches
    and logs it and uses the fallback document, but on this path it
    neither shows [missing_updateinformation_info] nor touches the version
    cache. *)
Theorem unreadable_tag_skips_notification :
  forall (plugin : Plugin) (w : World) (response : Response)
         (json_data : Value.t) (tags : list Value.t) (e : exn),
    session_request ("https://api.github.com/repos/mrbeam/" +:+ "beamos_config" +:+ "/tags")
    = Responded response ->
    ~ (400 <= status_code response < 600)%Z ->
    json_loads (text response) = Ret json_data ->
    iterate json_data = Ret tags ->
    comprehension tag_version tags = Raise e ->
    get_tag_of_github_repo "beamos_config" w = (Raise e, w)
    /\ (check_immediately plugin = true ->
        get_update_information plugin w =
        _set_info_from_cloud_config plugin (software_tier plugin)
          (snd (get_beamos_version plugin)) fallback_config
          (mkWorld
             (logged w ++ [(INFO, "SoftwareUpdate using tier: {tier} {beamos_date}");
                           (EXCEPTION, "{}")])
             (notifications w) (written w) (version_cache_dirty w))).
Proof.
  intros plugin w response json_data tags e Hreq Hstatus Hjson Htags Hversions.
  assert (forall w0, get_tag_of_github_repo "beamos_config" w0 = (Raise e, w0)) as Htag.
  { intros w0. unfold get_tag_of_github_repo, try_except.
    unfold bind at 1. unfold request. rewrite Hreq. unfold ret at 1.
    unfold bind at 1. unfold raise_for_status, response_ok.
    replace ((400 <=? status_code response)%Z && (status_code response <? 600)%Z)
      with false.
    - unfold ret at 1. cbn [negb]. unfold bind, lift.
      rewrite Hjson, Htags, Hversions.
      destruct (comprehension_errors _ _ Hversions) as [-> | [-> | ->]]; reflexivity.
    - symmetry. apply andb_false_iff.
      destruct (Z.leb_spec 400 (status_code response)); [|left; reflexivity].
      destruct (Z.ltb_spec (status_code response) 600); [lia | right; reflexivity]. }
  split; [apply Htag|].
  intros Hon. unfold get_update_information.
  destruct (get_beamos_version plugin) as [beamos_tier beamos_date]. cbn [snd].
  rewrite Hon. unfold bind at 1. unfold try_except.
  unfold bind at 1. rewrite log_appends.
  unfold bind at 1. unfold bind at 1. rewrite Htag.
  unfold bind at 1. rewrite log_appends. unfold ret at 1.
  cbn [logged notifications written version_cache_dirty].
  rewrite <- app_assoc. reflexivity.
Qed.

End NoTag.

Section NoTagWitnesses.

Import SoftwareUpdate Value.

Lemma get_update_information_offline_witness :
  @get_update_information Examples.github_up MoreExamples.offline_plugin Examples.quiet
  = @_set_info_from_cloud_config Examples.github_up MoreExamples.offline_plugin "PROD"
      (Date.mk 2021 12 1) (@fallback_config)
      (mkWorld [(INFO, "SoftwareUpdate using tier: {tier} {beamos_date}");
                (WARNING, "no internet connection")]
         ["missing_updateinformation_info"] [] true).
Proof.
  apply (@get_update_information_offline Examples.github_up MoreExamples.offline_plugin
           Examples.quiet).
  reflexivity.
Defined.

Lemma unreadable_tag_skips_notification_witness :
  @get_tag_of_github_repo MoreExamples.github_odd_tag "beamos_config" Examples.quiet
  = (Raise ValueError, Examples.quiet).
Proof.
  apply (proj1 (@unreadable_tag_skips_notification MoreExamples.github_odd_tag
                  Examples.stable_plugin Examples.quiet
                  (mkResponse 200 "[...]") (Examples.tag_list ["v0.9.1"; "nightly"])
                  [PDict [("name", PStr "v0.9.1")]; PDict [("name", PStr "nightly")]]
                  ValueError eq_refl ltac:(cbn; lia) eq_refl eq_refl eq_refl)).
Defined.

End NoTagWitnesses.

(** * The dated entries of a module, in general *)

Section BeamosSelection.

Import SoftwareUpdate Value.
Context {env : Environment}.
Local Open Scope py_scope.

Variable beamos_date : Date.t.
Variable tierversion : string.

(** The body of the loop over the dated entries. *)
Let round : Value.t * Date.t -> string * Value.t -> M World (Value.t * Date.t) :=
  fun '(beamos_date_config, prev_beamos_date_entry) '(date, beamos_config) =>
    (entry_date <- lift (Date.strptime date) ;;
     if Date.ge beamos_date entry_date && Date.lt prev_beamos_date_entry beamos_date
     then
       prev_beamos_date_entry <- lift (Date.strptime date) ;;
       has_tier <- lift (contains tierversion beamos_config) ;;
       beamos_config <-
         (if has_tier then
            beamos_config_module_tier <- lift (getitem beamos_config tierversion) ;;
            ret (dict_merge beamos_config beamos_config_module_tier)
          else ret beamos_config) ;;
       ret (dict_merge beamos_date_config beamos_config, prev_beamos_date_entry)
     else ret (beamos_date_config, prev_beamos_date_entry))%py.

(** An entry with its own override for the tier merged in. *)
Let tiered (d : list (string * Value.t)) : Value.t :=
  match assoc_get tierversion d with
  | Some t => dict_merge (PDict d) t
  | None => PDict d
  end.

Lemma date_cmp_refl a : Date.cmp a a = Eq.
Proof. unfold Date.cmp. rewrite !N.compare_refl. reflexivity. Qed.

Lemma date_lt_irrefl a : Date.lt a a = false.
Proof. unfold Date.lt. rewrite date_cmp_refl. reflexivity. Qed.

Lemma date_ge_refl a : Date.ge a a = true.
Proof. unfold Date.ge. rewrite date_cmp_refl. reflexivity. Qed.

Lemma date_ge_neq_lt a b : Date.ge a b = true -> b <> a -> Date.lt b a = true.
Proof.
  destruct a as [y1 m1 d1], b as [y2 m2 d2].
  unfold Date.ge, Date.lt, Date.cmp, Cmp.lex, Cmp.is_lt. cbn [Date.year Date.month Date.day].
  rewrite (N.compare_antisym y1 y2), (N.compare_antisym m1 m2), (N.compare_antisym d1 d2).
  destruct (y1 ?= y2) eqn:Ey; cbn; try discriminate; try reflexivity.
  destruct (m1 ?= m2) eqn:Em; cbn; try discriminate; try reflexivity.
  destruct (d1 ?= d2) eqn:Ed; cbn; try discriminate; try reflexivity.
  apply N.compare_eq in Ey, Em, Ed. subst. intros _ H. contradiction H. reflexivity.
Qed.

Lemma beamos_loop moduleconfig entries (w : World) :
  getitem moduleconfig "beamos_date" = Ret (PDict entries) ->
  fst (_generate_config_of_beamos moduleconfig beamos_date tierversion w) =
  match fst (fold_each entries (PDict [], Date.mk 2000 1 1) round
               (snd (log DEBUG "generate config of beamos {}" w))) with
  | Ret state => Ret (fst state)
  | Raise e => Raise e
  end.
Proof.
  intros Hget. unfold _generate_config_of_beamos.
  unfold bind at 1. rewrite log_appends. cbn [snd].
  unfold bind at 1. unfold lift at 1. rewrite (getitem_contains _ _ _ Hget). cbn [negb].
  unfold bind at 1. unfold lift at 1. rewrite Hget.
  unfold bind at 1. unfold lift at 1. cbn [items].
  unfold bind at 1. fold round.
  destruct (fold_each entries _ round _) as [[state|e] w1]; reflexivity.
Qed.

Lemma round_takes acc prev date entry_date d (w : World) :
  Date.strptime date = Ret entry_date ->
  Date.ge beamos_date entry_date = true ->
  Date.lt prev beamos_date = true ->
  round (acc, prev) (date, PDict d) w = (Ret (dict_merge acc (tiered d), entry_date), w).
Proof.
  intros Hdate Hge Hlt. unfold round, tiered, bind, lift, ret.
  rewrite Hdate, Hge, Hlt, contains_dict.
  unfold has_key, getitem. destruct (assoc_get tierversion d); reflexivity.
Qed.

Lemma round_skips acc prev date entry_date cfg (w : World) :
  Date.strptime date = Ret entry_date ->
  Date.ge beamos_date entry_date && Date.lt prev beamos_date = false ->
  round (acc, prev) (date, cfg) w = (Ret (acc, prev), w).
Proof.
  intros Hdate Hq. unfold round, bind, lift, ret. rewrite Hdate, Hq. reflexivity.
Qed.

Lemma fold_rounds_qualifying entries parsed :
  Forall2 (fun e p => Date.strptime (fst e) = Ret (fst p) /\ snd e = PDict (snd p))
    entries parsed ->
  (forall p, In p parsed -> fst p <> beamos_date) ->
  forall acc prev (w : World),
    Date.lt prev beamos_date = true ->
    exists prev',
      fold_each entries (acc, prev) round w =
      (Ret (fold_left (fun acc p => dict_merge acc (tiered (snd p)))
              (List.filter (fun p => Date.ge beamos_date (fst p)) parsed) acc,
            prev'), w).
Proof.
  induction 1 as [|[date cfg] [entry_date d] entries parsed [Hdate Hcfg] _ IH];
    intros Hne acc prev w Hprev.
  - exists prev. reflexivity.
  - cbn [fst snd] in Hdate, Hcfg. subst cfg.
    cbn [fold_each List.filter fst]. unfold bind at 1.
    destruct (Date.ge beamos_date entry_date) eqn:Hge.
    + rewrite (round_takes _ _ _ _ _ _ Hdate Hge Hprev).
      destruct (IH (fun p Hp => Hne p (or_intror Hp)) (dict_merge acc (tiered d))
                  entry_date w) as (prev' & ->).
      * apply date_ge_neq_lt; [exact Hge|]. apply (Hne (entry_date, d)). left. reflexivity.
      * exists prev'. reflexivity.
    + rewrite (round_skips _ _ _ _ _ _ Hdate) by (rewrite Hge; reflexivity).
      apply IH; [intros p Hp; apply Hne; right; exact Hp | exact Hprev].
Qed.

(** X27: the dated entries in general. For an image built after
    2000-01-01 and entries none of which is dated exactly the image date,
    [_generate_config_of_beamos] merges, in the order of the mapping, every
    entry dated up to the image date, each with its own tier override
    taken first, and skips every later-dated entry. *)
Theorem generate_config_of_beamos_merges_qualifying :
  forall (moduleconfig : Value.t) (entries : list (string * Value.t))
         (parsed : list (Date.t * list (string * Value.t))) (w : World),
    getitem moduleconfig "beamos_date" = Ret (PDict entries) ->
    Forall2 (fun e p => Date.strptime (fst e) = Ret (fst p) /\ snd e = PDict (snd p))
      entries parsed ->
    (forall p, In p parsed -> fst p <> beamos_date) ->
    Date.lt (Date.mk 2000 1 1) beamos_date = true ->
    fst (_generate_config_of_beamos moduleconfig beamos_date tierversion w) =
    Ret (fold_left
           (fun acc p =>
              dict_merge acc
                (match assoc_get tierversion (snd p) with
                 | Some t => dict_merge (PDict (snd p)) t
                 | None => PDict (snd p)
                 end))
           (List.filter (fun p => Date.ge beamos_date (fst p)) parsed) (PDict [])).
Proof.
  intros moduleconfig entries parsed w Hget Hparsed Hne Hstart.
  rewrite (beamos_loop _ _ _ Hget).
  destruct (fold_rounds_qualifying entries parsed Hparsed Hne (PDict []) (Date.mk 2000 1 1)
              (snd (log DEBUG "generate config of beamos {}" w)) Hstart) as (prev' & ->).
  reflexivity.
Qed.

Lemma fold_each_app {S A B} (l1 l2 : list A) (body : B -> A -> M S B) acc w :
  fold_each (l1 ++ l2) acc body w =
  bind (fold_each l1 acc body) (fun acc' => fold_each l2 acc' body) w.
Proof.
  revert acc w. induction l1 as [|x l1 IH]; intros acc w; simpl; [reflexivity|].
  unfold bind. destruct (body acc x w) as [[acc1|e] w1]; [|reflexivity].
  rewrite IH. reflexivity.
Qed.

Lemma fold_rounds_closed post :
  (forall e, In e post -> exists d, Date.strptime (fst e) = Ret d) ->
  forall acc prev (w : World),
    Date.lt prev beamos_date = false ->
    fold_each post (acc, prev) round w = (Ret (acc, prev), w).
Proof.
  induction post as [|[date cfg] post IH]; intros Hdates acc prev w Hprev; [reflexivity|].
  cbn [fold_each]. unfold bind.
  destruct (Hdates (date, cfg) (or_introl eq_refl)) as [d Hd]. cbn [fst] in Hd.
  rewrite (round_skips _ _ _ _ _ _ Hd) by (rewrite Hprev; apply andb_false_r).
  apply IH; [intros e He; apply Hdates; right; exact He | exact Hprev].
Qed.

Lemma round_closes acc prev date cfg (w : World) :
  Date.strptime date = Ret beamos_date ->
  match round (acc, prev) (date, cfg) w with
  | (Ret (_, prev'), _) => Date.lt prev' beamos_date = false
  | (Raise _, _) => True
  end.
Proof.
  intros Hdate. unfold round, bind, lift, ret. rewrite Hdate, date_ge_refl.
  destruct (Date.lt prev beamos_date) eqn:Hlt; cbn [andb]; [|exact Hlt].
  destruct (contains tierversion cfg) as [[|]|e]; [| |exact I].
  - destruct (getitem cfg tierversion); [apply date_lt_irrefl | exact I].
  - apply date_lt_irrefl.
Qed.

(** X28: an entry dated exactly the image date closes the loop: whatever
    is listed after it in the mapping is ignored, even entries dated before
    the image date, so the result depends on the order of the mapping. The
    result is that of the mapping cut after that entry. *)
Theorem generate_config_of_beamos_stops_at_image_date :
  forall (moduleconfig cut : Value.t) (pre post : list (string * Value.t))
         (date : string) (beamos_config : Value.t) (w : World),
    getitem moduleconfig "beamos_date" = Ret (PDict (pre ++ (date, beamos_config) :: post)) ->
    getitem cut "beamos_date" = Ret (PDict (pre ++ [(date, beamos_config)])) ->
    Date.strptime date = Ret beamos_date ->
    (forall e, In e post -> exists d, Date.strptime (fst e) = Ret d) ->
    fst (_generate_config_of_beamos moduleconfig beamos_date tierversion w)
    = fst (_generate_config_of_beamos cut beamos_date tierversion w).
Proof.
  intros moduleconfig cut pre post date beamos_config w Hget Hcut Hdate Hpost.
  rewrite (beamos_loop _ _ _ Hget), (beamos_loop _ _ _ Hcut).
  rewrite !fold_each_app. unfold bind.
  destruct (fold_each pre _ round _) as [[[acc prev]|e] w1]; [|reflexivity].
  cbn [fold_each]. unfold bind.
  pose proof (round_closes acc prev date beamos_config w1 Hdate) as Hclosed.
  destruct (round (acc, prev) (date, beamos_config) w1) as [[[acc' prev']|e] w2];
    [|reflexivity].
  rewrite (fold_rounds_closed post Hpost acc' prev' w2 Hclosed). reflexivity.
Qed.

End BeamosSelection.

Section BeamosSelectionWitnesses.

Import SoftwareUpdate Value.

Lemma generate_config_of_beamos_merges_qualifying_witness :
  fst (_generate_config_of_beamos
         (PDict [("beamos_date",
                  PDict [("2021-06-01", PDict [("branch", PStr "mrbeam2-{tier}")]);
                         ("2022-01-01", PDict [("branch", PStr "beamos2-{tier}")])])])
         (Date.mk 2021 12 1) "stable" Examples.quiet)
  = Ret (PDict [("branch", PStr "mrbeam2-{tier}")]).
Proof.
  apply (generate_config_of_beamos_merges_qualifying (Date.mk 2021 12 1) "stable"
           (PDict [("beamos_date",
                    PDict [("2021-06-01", PDict [("branch", PStr "mrbeam2-{tier}")]);
                           ("2022-01-01", PDict [("branch", PStr "beamos2-{tier}")])])])
           [("2021-06-01", PDict [("branch", PStr "mrbeam2-{tier}")]);
            ("2022-01-01", PDict [("branch", PStr "beamos2-{tier}")])]
           [(Date.mk 2021 6 1, [("branch", PStr "mrbeam2-{tier}")]);
            (Date.mk 2022 1 1, [("branch", PStr "beamos2-{tier}")])]
           Examples.quiet).
  - reflexivity.
  - repeat constructor.
  - intros p [<-|[<-|[]]]; discriminate.
  - reflexivity.
Defined.

Lemma generate_config_of_beamos_stops_at_image_date_witness :
  fst (_generate_config_of_beamos
         (PDict [("beamos_date",
                  PDict [("2021-12-01", PDict [("branch", PStr "new")]);
                         ("2020-01-01", PDict [("pip", PStr "old")])])])
         (Date.mk 2021 12 1) "stable" Examples.quiet)
  = fst (_generate_config_of_beamos
           (PDict [("beamos_date", PDict [("2021-12-01", PDict [("branch", PStr "new")])])])
           (Date.mk 2021 12 1) "stable" Examples.quiet).
Proof.
  apply (generate_config_of_beamos_stops_at_image_date (Date.mk 2021 12 1) "stable"
           (PDict [("beamos_date",
                    PDict [("2021-12-01", PDict [("branch", PStr "new")]);
                           ("2020-01-01", PDict [("pip", PStr "old")])])])
           (PDict [("beamos_date", PDict [("2021-12-01", PDict [("branch", PStr "new")])])])
           [] [("2020-01-01", PDict [("pip", PStr "old")])]
           "2021-12-01" (PDict [("branch", PStr "new")]) Examples.quiet).
  - reflexivity.
  - reflexivity.
  - reflexivity.
  - intros e [<-|[]]. exists (Date.mk 2020 1 1). reflexivity.
Defined.

End BeamosSelectionWitnesses.

(** * The records of the tag lookup *)

Section TagRecords.

Import SoftwareUpdate Value.
Context {env : Environment}.
Local Open Scope py_scope.

(** X29: [get_tag_of_github_repo] writes at most one log record, a
    warning, and never the record of its [else] branch: a response that
    passes [raise_for_status] is always truthy, so "no valid response for
    the tag of the update_config file" cannot be logged. *)
Theorem get_tag_of_github_repo_never_logs_invalid_response :
  forall (repo : string) (w : World),
    exists records,
      logged (snd (get_tag_of_github_repo repo w)) = logged w ++ records
      /\ (length records <= 1)%nat
      /\ (forall lvl msg, In (lvl, msg) records ->
            lvl = WARNING
            /\ msg <> "no valid response for the tag of the update_config file {}").
Proof.
  intros repo w.
  assert (exists records,
             logged w = logged w ++ records
             /\ (length records <= 1)%nat
             /\ (forall lvl msg, In (lvl, msg) records ->
                   lvl = WARNING
                   /\ msg <> "no valid response for the tag of the update_config file {}"))
    as Hsilent.
  { exists []. split; [rewrite app_nil_r; reflexivity|]. split; [simpl; lia|].
    intros lvl msg []. }
  assert (forall e,
             exists records,
               logged
                 (snd (match
                          match e with
                          | MaxRetryError =>
                              Some (log WARNING "timeout while trying to get the tag of the update_config file" ;;;
                                    ret None)
                          | HTTPError _ => Some (log WARNING "server error {}" ;;; ret None)
                          | ConnectionError =>
                              Some (log WARNING "connection error while trying to get the tag of the update_config file" ;;;
                                    ret (A := option SemVer.Version) None)
                          | _ => None
                          end
                        with
                        | Some h => h w
                        | None => (Raise e, w)
                        end))
               = logged w ++ records
               /\ (length records <= 1)%nat
               /\ (forall lvl msg, In (lvl, msg) records ->
                     lvl = WARNING
                     /\ msg <> "no valid response for the tag of the update_config file {}"))
    as Hhandled.
  { intros e. destruct e; try exact Hsilent;
      (eexists [_]; split; [reflexivity|]; split; [simpl; lia|];
       intros lvl msg [[= <- <-]|[]]; split; [reflexivity | discriminate]). }
  unfold get_tag_of_github_repo, try_except.
  unfold bind at 1. unfold request.
  destruct (session_request _) as [response|e]; [|apply Hhandled].
  unfold ret at 1. unfold bind at 1. unfold raise_for_status, response_ok.
  destruct ((400 <=? status_code response)%Z && (status_code response <? 600)%Z);
    [apply (Hhandled (HTTPError (status_code response)))|].
  unfold ret at 1. cbn [negb]. unfold bind, lift.
  destruct (json_loads (text response)) as [json_data|e]; [|apply Hhandled].
  destruct (iterate json_data) as [tags|e]; [|apply Hhandled].
  destruct (comprehension tag_version tags) as [versions|e]; [|apply Hhandled].
  exact Hsilent.
Qed.

End TagRecords.

(** * The version shown for a module *)

Section CurrentVersion.

Import SoftwareUpdate Value.
Context {env : Environment}.
Local Open Scope py_scope.

Lemma assoc_get_set_same {V} (k : string) (v : V) (d : list (string * V)) :
  assoc_get k (assoc_set k v d) = Some v.
Proof.
  induction d as [|[k' v'] d IH]; simpl.
  - rewrite String.eqb_refl. reflexivity.
  - destruct (String.eqb_spec k' k) as [->|Hne]; simpl.
    + rewrite String.eqb_refl. reflexivity.
    + destruct (String.eqb_spec k' k); [contradiction | exact IH].
Qed.

Lemma assoc_get_set_other {V} (k k0 : string) (v : V) (d : list (string * V)) :
  k0 <> k -> assoc_get k0 (assoc_set k v d) = assoc_get k0 d.
Proof.
  intros Hne. induction d as [|[k' v'] d IH]; simpl.
  - destruct (String.eqb_spec k k0); [congruence | reflexivity].
  - destruct (String.eqb_spec k' k) as [->|Hk]; simpl.
    + destruct (String.eqb_spec k k0); [congruence|].
      reflexivity.
    + destruct (String.eqb_spec k' k0); [reflexivity | exact IH].
Qed.

(** X30: pip decides before the plugin registry. A module record with a
    [pip_command] takes its version from [get_version_of_pip_module], for
    the [package_name] of the record or else the module id, and the
    registry is not asked. A record with [global_pip_command] and no
    [pip_command] is first given [pip_command = GLOBAL_PIP_COMMAND], which
    stays in the record handed back, and is then treated the same way. *)
Theorem get_curent_version_prefers_pip :
  forall (d : list (string * Value.t)) (module_id : string) (plugin : Plugin) (w : World),
    let package_name := default (PStr module_id) (assoc_get "package_name" d) in
    let logged_query :=
      mkWorld (logged w ++ [(DEBUG, "get version {package_name} {pip_command}")])
        (notifications w) (written w) (version_cache_dirty w) in
    (forall pip_command,
        assoc_get "pip_command" d = Some pip_command ->
        _get_curent_version (PDict d) module_id plugin w =
        (match get_version_of_pip_module package_name pip_command with
         | Ret version => Ret (version, PDict d)
         | Raise e => Raise e
         end, logged_query))
    /\ (has_key "global_pip_command" d = true ->
        assoc_get "pip_command" d = None ->
        _get_curent_version (PDict d) module_id plugin w =
        (match get_version_of_pip_module package_name GLOBAL_PIP_COMMAND with
         | Ret version =>
             Ret (version, PDict (assoc_set "pip_command" GLOBAL_PIP_COMMAND d))
         | Raise e => Raise e
         end, logged_query)).
Proof.
  intros d module_id plugin w package_name logged_query.
  subst package_name logged_query. split.
  - intros pip_command Hpip.
    assert (has_key "pip_command" d = true) as Hhas by (unfold has_key; rewrite Hpip; reflexivity).
    unfold _get_curent_version, bind, lift, ret.
    cbn [contains]. destruct (has_key "global_pip_command" d);
      repeat first
        [ rewrite Hhas | rewrite Hpip | rewrite log_appends
        | progress cbn [contains getitem andb negb]
        | progress cbv beta iota ];
      unfold has_key; destruct (assoc_get "package_name" d) as [name|];
      cbn [default]; rewrite ?log_appends; cbv beta iota;
      destruct (get_version_of_pip_module _ pip_command); reflexivity.
  - intros Hglobal Hpip.
    assert (has_key "pip_command" d = false) as Hhas by (unfold has_key; rewrite Hpip; reflexivity).
    assert (has_key "pip_command" (assoc_set "pip_command" GLOBAL_PIP_COMMAND d) = true) as Hset
        by (unfold has_key; rewrite assoc_get_set_same; reflexivity).
    assert (has_key "package_name" (assoc_set "pip_command" GLOBAL_PIP_COMMAND d)
            = has_key "package_name" d) as Hpkg
        by (unfold has_key; rewrite assoc_get_set_other by discriminate; reflexivity).
    unfold _get_curent_version, bind, lift, ret.
    repeat first
      [ rewrite Hglobal | rewrite Hhas | rewrite Hset | rewrite Hpkg
      | rewrite assoc_get_set_same
      | rewrite (assoc_get_set_other "pip_command" "package_name") by discriminate
      | progress cbn [contains getitem setitem andb negb]
      | progress cbv beta iota ].
    unfold has_key; destruct (assoc_get "package_name" d) as [name|];
      cbn [default]; rewrite ?log_appends; cbv beta iota;
      destruct (get_version_of_pip_module _ GLOBAL_PIP_COMMAND); reflexivity.
Qed.

End CurrentVersion.

Section CurrentVersionWitness.

Import SoftwareUpdate Value.

Lemma get_curent_version_prefers_pip_witness :
  @_get_curent_version Examples.github_up
    (PDict [("global_pip_command", PBool true)]) "iobeam" Examples.stable_plugin Examples.quiet
  = (Ret (None, PDict [("global_pip_command", PBool true); ("pip_command", PNone)]),
     mkWorld [(DEBUG, "get version {package_name} {pip_command}")] [] [] false).
Proof.
  apply (proj2 (@get_curent_version_prefers_pip Examples.github_up
                  [("global_pip_command", PBool true)] "iobeam" Examples.stable_plugin
                  Examples.quiet)).
  - reflexivity.
  - reflexivity.
Defined.

End CurrentVersionWitness.

(** * The gated steps of a run *)

Section GatedSteps.

Import Migrate Effects.
Local Open Scope py_scope.

Lemma bind_assoc {S A B C} (m : M S A) (k : A -> M S B) (k' : B -> M S C) w :
  bind (bind m k) k' w = bind m (fun a => bind (k a) k') w.
Proof. unfold bind. destruct (m w) as [[a|e] w1]; reflexivity. Qed.

Lemma log_extends_log P L lvl msg :
  P (lvl, msg) -> maintains (log_extends P L) (log lvl msg).
Proof.
  intros HP w (l & E & Hl). exists (l ++ [(lvl, msg)]).
  rewrite log_eq. cbn [snd logged with_logged]. rewrite E, app_assoc.
  split; [reflexivity|]. apply Forall_app_2; [exact Hl | repeat constructor; exact HP].
Qed.

Lemma compare_versions_log_extends P L self lower higher equal_ok :
  P (ERROR, "_compare_versions() One of the two version is invalid: lower_vers:{}, higher_vers:{}. ValueError from StrictVersion: {}") ->
  maintains (log_extends P L) (_compare_versions self lower higher equal_ok).
Proof.
  intros HP. unfold _compare_versions.
  repeat first [simple apply log_extends_log; exact HP | frame_core].
Qed.

(** The assignment of the default profile, the first thing [run] does,
    never raises and keeps to the profile store, the stored version and
    the log. *)
Lemma assign_profile_is_local self w :
  let assign :=
    profile_set <- is_lasercutterProfile_set self ;;
    if negb profile_set then set_lasercutterProfile self else ret tt in
  assign w = (Ret tt, snd (assign w))
  /\ site_packages (snd (assign w)) = site_packages w
  /\ processes (snd (assign w)) = processes w
  /\ executed (snd (assign w)) = executed w.
Proof.
  intros assign. split.
  - destruct (assign_profile_returns self w) as (w' & E).
    subst assign. cbv beta in *. rewrite E. reflexivity.
  - assert (maintains (fun w' => site_packages w' = site_packages w
                                 /\ processes w' = processes w
                                 /\ executed w' = executed w) assign) as H.
    { subst assign. unfold is_lasercutterProfile_set, laserCutterProfileManager_get_default.
      repeat first
        [ simple apply set_lasercutterProfile_maintains;
          [intros ? ? H; exact H | intros ? ? H; exact H | intros ? H; exact H]
        | frame_core ]. }
    exact (H w (conj eq_refl (conj eq_refl eq_refl))).
Qed.

(** [migrate_from_0_0_0] in full. *)
Lemma migrate_from_0_0_0_effect self w :
  exists w',
    migrate_from_0_0_0 self w = (Ret tt, w')
    /\ Profile.get_default (profiles w') =
       Profile.mk (Profile.id (Profile.get_default (profiles w)))
         (Profile.name (Profile.get_default (profiles w)))
         (Profile.model (Profile.get_default (profiles w)))
         (<["intensity_factor" := 13%Z]> (Profile.laser (Profile.get_default (profiles w))))
         (<["auto_mode_time" := 60%Z]> (Profile.dust (Profile.get_default (profiles w))))
         (Profile.legacy (Profile.get_default (profiles w)))
    /\ logged w' =
       logged w ++
       [(INFO, "migrate_from_0_0_0() ");
        (INFO, "migrate_from_0_0_0() Set lasercutterProfile ['laser']['intensity_factor'] = 13");
        (INFO, "migrate_from_0_0_0() Set lasercutterProfile ['dust']['auto_mode_time'] = 60")]
    /\ settings_version w' = settings_version w
    /\ site_packages w' = site_packages w
    /\ processes w' = processes w
    /\ executed w' = executed w.
Proof.
  unfold migrate_from_0_0_0, bind, laserCutterProfileManager_get_default, gets.
  rewrite !log_eq, manager_save_overwrite. eexists. split; [reflexivity|].
  cbn -[insert lookup]. unfold Profile.set_default, Profile.exists_. cbn -[insert lookup].
  rewrite lookup_insert_eq. rewrite bool_decide_eq_true_2 by eauto.
  unfold Profile.get_default. cbn -[insert lookup]. rewrite lookup_insert_eq.
  rewrite <- !app_assoc. repeat split; reflexivity.
Qed.

(** [delete_egg_dir_leftovers] on a listing with distinct names whose
    leftovers are directories, or with no [site-packages] at all. *)
Lemma delete_egg_dir_leftovers_effect self w :
  (forall entries,
      site_packages w = Some entries ->
      NoDup (map fst entries)
      /\ forall f k, In (f, k) entries -> is_leftover f = true -> k = Directory) ->
  exists w' deletions,
    delete_egg_dir_leftovers self w = (Ret tt, w')
    /\ logged w' = logged w ++ (INFO, "delete_egg_dir_leftovers() ") :: deletions
    /\ match site_packages w with
       | Some entries =>
           site_packages w' =
           Some (List.filter (fun e => negb (is_leftover (fst e))) entries)
           /\ Forall
                (fun r =>
                   r = (INFO, "delete_egg_dir_leftovers() Deleting dir: %s")
                   \/ r = (ERROR, "_compare_versions() One of the two version is invalid: lower_vers:{}, higher_vers:{}. ValueError from StrictVersion: {}"))
                deletions
       | None =>
           site_packages w' = None
           /\ deletions =
              [(ERROR, "delete_egg_dir_leftovers() Dir not existing '%s', Can't check for egg leftovers.")]
       end
    /\ settings_version w' = settings_version w
    /\ profiles w' = profiles w
    /\ processes w' = processes w
    /\ executed w' = executed w.
Proof.
  intros Hlisting.
  assert (settings_version (snd (delete_egg_dir_leftovers self w)) = settings_version w
          /\ profiles (snd (delete_egg_dir_leftovers self w)) = profiles w
          /\ processes (snd (delete_egg_dir_leftovers self w)) = processes w
          /\ executed (snd (delete_egg_dir_leftovers self w)) = executed w) as Hframe.
  { apply (delete_egg_dir_leftovers_maintains
             (fun w' => settings_version w' = settings_version w
                        /\ profiles w' = profiles w
                        /\ processes w' = processes w
                        /\ executed w' = executed w) self);
      [intros ? ? H; exact H | intros ? ? H; exact H | repeat split]. }
  destruct (site_packages w) as [entries|] eqn:Hsp.
  - destruct (Hlisting entries eq_refl) as [Hnd Hdirs].
    destruct (delete_egg_dir_leftovers_spec self w entries Hsp Hnd Hdirs) as (w' & E & Hsp').
    assert (log_extends
              (fun r =>
                 r = (INFO, "delete_egg_dir_leftovers() Deleting dir: %s")
                 \/ r = (ERROR, "_compare_versions() One of the two version is invalid: lower_vers:{}, higher_vers:{}. ValueError from StrictVersion: {}"))
              (logged w ++ [(INFO, "delete_egg_dir_leftovers() ")])
              (snd (delete_egg_dir_leftovers self w))) as (deletions & Hlog & Hdel).
    { unfold delete_egg_dir_leftovers. unfold bind at 1. rewrite log_eq.
      unfold bind at 1. unfold gets.
      change (site_packages (with_logged _ w)) with (site_packages w). rewrite Hsp.
      apply maintains_for_each.
      - intros f.
        repeat first
          [ simple apply compare_versions_log_extends; right; reflexivity
          | simple apply log_extends_log; left; reflexivity
          | simple apply rmtree_maintains; intros ? ? H; exact H
          | frame_core ].
      - exists []. rewrite app_nil_r. split; [reflexivity | constructor]. }
    rewrite E in Hframe, Hlog. cbn [snd] in Hframe, Hlog.
    rewrite <- app_assoc in Hlog.
    exists w', deletions. split; [exact E|]. split; [exact Hlog|].
    split; [split; [exact Hsp' | exact Hdel] | exact Hframe].
  - clear Hframe.
    assert (delete_egg_dir_leftovers self w =
            (Ret tt,
             with_logged
               (logged w ++
                [(INFO, "delete_egg_dir_leftovers() ");
                 (ERROR, "delete_egg_dir_leftovers() Dir not existing '%s', Can't check for egg leftovers.")])
               w)) as E.
    { unfold delete_egg_dir_leftovers. unfold bind at 1. rewrite log_eq.
      unfold bind at 1. unfold gets.
      change (site_packages (with_logged _ w)) with (site_packages w). rewrite Hsp.
      rewrite log_eq. cbn [logged with_logged]. rewrite <- app_assoc. reflexivity. }
    eexists _, _. split; [exact E|]. repeat split; try reflexivity. exact Hsp.
Qed.

(** [setup_iptables] when [sudo] can be started. *)
Lemma setup_iptables_effect self w :
  let write :=
    ["sudo"; "bash"; "-c"; "echo '" +:+ iptables_body +:+ "' > " +:+ iptables_file] in
  let chmod := ["sudo"; "chmod"; "+x"; iptables_file] in
  let load := ["sudo"; "bash"; "-c"; iptables_file] in
  let command := (DEBUG, "_exec_cmd_output() command: '%s'") in
  let failed := (DEBUG, "Fail to execute command '%s', return code: %s, output: '%s'") in
  processes w (executed w) write <> NotStarted ->
  processes w (write :: executed w) chmod <> NotStarted ->
  processes w (chmod :: write :: executed w) load <> NotStarted ->
  exists cmds commands,
    setup_iptables self w =
    (Ret tt,
     with_logged (logged w ++ (INFO, "setup_iptables() ") :: commands)
       (with_executed (cmds ++ executed w) w))
    /\ ((cmds = [write]
         /\ commands =
            [command; failed;
             (ERROR, "setup_iptables() Error while writing iptables conf: '%s'")])
        \/ (cmds = [chmod; write]
            /\ commands =
               [command; command; failed;
                (ERROR, "setup_iptables() Error while chmod iptables conf: '%s'")])
        \/ (cmds = [load; chmod; write]
            /\ commands =
               [command; command; command; failed;
                (ERROR, "setup_iptables() Error while executing iptables conf: '%s'")])
        \/ (cmds = [load; chmod; write]
            /\ commands =
               [command; command; command;
                (INFO, "setup_iptables() Created and loaded iptables conf: '%s'")])).
Proof.
  intros write chmod load command failed H1 H2 H3.
  assert (forall cmd out code (w1 : World),
             processes w1 (executed w1) cmd = Exited code out ->
             _exec_cmd_output self cmd w1 =
             (Ret (out, code),
              with_logged
                (logged w1 ++ command :: (if Z.eqb code 0 then [] else [failed]))
                (with_executed (cmd :: executed w1) w1))) as Hrun.
  { intros cmd out code w1 H.
    unfold _exec_cmd_output, bind at 1. rewrite log_eq.
    unfold try_except, bind at 1, subprocess_check_output.
    cbn [processes executed logged with_logged with_executed]. rewrite H.
    destruct code as [|p|p]; cbn [Z.eqb]; try rewrite log_eq;
      unfold bind, ret; try rewrite log_eq;
      cbn [logged with_logged with_executed settings_version profiles site_packages
             processes executed];
      rewrite <- ?app_assoc; reflexivity. }
  unfold setup_iptables. fold write chmod load.
  unfold bind at 1. rewrite log_eq. unfold bind at 1.
  destruct (processes w (executed w) write) as [code1 out1|] eqn:E1; [|contradiction].
  match goal with
  | |- context [_exec_cmd_output self write ?w1] => rewrite (Hrun write out1 code1 w1 E1)
  end.
  cbn [processes executed logged with_logged with_executed].
  destruct (Z.eqb code1 0) eqn:Z1; cbn [negb].
  2:{ exists [write], [command; failed;
                      (ERROR, "setup_iptables() Error while writing iptables conf: '%s'")].
      rewrite log_eq. cbn [logged with_logged with_executed settings_version profiles
                             site_packages processes executed].
      rewrite <- !app_assoc. split; [reflexivity | left; split; reflexivity]. }
  unfold bind at 1.
  destruct (processes w (write :: executed w) chmod) as [code2 out2|] eqn:E2; [|contradiction].
  match goal with
  | |- context [_exec_cmd_output self chmod ?w1] => rewrite (Hrun chmod out2 code2 w1 E2)
  end.
  cbn [processes executed logged with_logged with_executed].
  destruct (Z.eqb code2 0) eqn:Z2; cbn [negb].
  2:{ exists [chmod; write], [command; command; failed;
                             (ERROR, "setup_iptables() Error while chmod iptables conf: '%s'")].
      rewrite log_eq. cbn [logged with_logged with_executed settings_version profiles
                             site_packages processes executed].
      rewrite <- !app_assoc. split; [reflexivity | right; left; split; reflexivity]. }
  unfold bind at 1.
  destruct (processes w (chmod :: write :: executed w) load) as [code3 out3|] eqn:E3;
    [|contradiction].
  match goal with
  | |- context [_exec_cmd_output self load ?w1] => rewrite (Hrun load out3 code3 w1 E3)
  end.
  cbn [processes executed logged with_logged with_executed].
  destruct (Z.eqb code3 0) eqn:Z3; cbn [negb].
  - exists [load; chmod; write],
      [command; command; command;
       (INFO, "setup_iptables() Created and loaded iptables conf: '%s'")].
    rewrite log_eq. cbn [logged with_logged with_executed settings_version profiles
                           site_packages processes executed].
    rewrite <- !app_assoc. split; [reflexivity | right; right; right; split; reflexivity].
  - exists [load; chmod; write],
      [command; command; command; failed;
       (ERROR, "setup_iptables() Error while executing iptables conf: '%s'")].
    rewrite log_eq. cbn [logged with_logged with_executed settings_version profiles
                           site_packages processes executed].
    rewrite <- !app_assoc. split; [reflexivity | right; right; left; split; reflexivity].
Qed.

Lemma try_except_returns {S A} (m : M S A) handler w a w' :
  m w = (Ret a, w') -> try_except m handler w = (Ret a, w').
Proof. intros H. unfold try_except. rewrite H. reflexivity. Qed.

(** C1, for a run in which no step raises. With [sudo] there to start
    and, from 0.1.12, the entries of [site-packages] that are selected for
    deletion all directories, [migrate] with plugin version 0.1.20 returns
    and leaves the device as follows. From 0.1.12: after the assignment of
    the default profile, [migrate_from_0_0_0] has put 13 and 60 in the
    default profile, then [delete_egg_dir_leftovers] has removed exactly
    the leftovers, then [setup_iptables] has run its commands, the log
    holding the records of the three steps in this order, and 0.1.20 is
    the stored version. From 0.1.18: the profile store and [site-packages]
    are untouched, only [setup_iptables] has run and logged, and 0.1.20 is
    the stored version. *)
Theorem run_executes_gated_steps :
  forall (series : string) (w : World),
    let plugin := mkPlugin "0.1.20" series in
    let write :=
      ["sudo"; "bash"; "-c"; "echo '" +:+ iptables_body +:+ "' > " +:+ iptables_file] in
    let chmod := ["sudo"; "chmod"; "+x"; iptables_file] in
    let load := ["sudo"; "bash"; "-c"; iptables_file] in
    let command := (DEBUG, "_exec_cmd_output() command: '%s'") in
    let failed := (DEBUG, "Fail to execute command '%s', return code: %s, output: '%s'") in
    let iptables (cmds : list (list string)) (commands : list log_record) :=
      (cmds = [write]
       /\ commands =
          [command; failed;
           (ERROR, "setup_iptables() Error while writing iptables conf: '%s'")])
      \/ (cmds = [chmod; write]
          /\ commands =
             [command; command; failed;
              (ERROR, "setup_iptables() Error while chmod iptables conf: '%s'")])
      \/ (cmds = [load; chmod; write]
          /\ commands =
             [command; command; command; failed;
              (ERROR, "setup_iptables() Error while executing iptables conf: '%s'")])
      \/ (cmds = [load; chmod; write]
          /\ commands =
             [command; command; command;
              (INFO, "setup_iptables() Created and loaded iptables conf: '%s'")]) in
    processes w (executed w) write <> NotStarted ->
    processes w (write :: executed w) chmod <> NotStarted ->
    processes w (chmod :: write :: executed w) load <> NotStarted ->
    (settings_version w = Some "0.1.12" ->
     (forall entries,
         site_packages w = Some entries ->
         NoDup (map fst entries)
         /\ forall f k, In (f, k) entries -> is_leftover f = true -> k = Directory) ->
     let self := mkMigration plugin (Some "0.1.12") "0.1.20" in
     let w0 :=
       snd ((profile_set <- is_lasercutterProfile_set self ;;
             if negb profile_set then set_lasercutterProfile self else ret tt) w) in
     let p0 := Profile.get_default (profiles w0) in
     exists w' deletions cmds commands,
       migrate plugin w = (Ret tt, w')
       /\ settings_version w' = Some "0.1.20"
       /\ Profile.get_default (profiles w') =
          Profile.mk (Profile.id p0) (Profile.name p0) (Profile.model p0)
            (<["intensity_factor" := 13%Z]> (Profile.laser p0))
            (<["auto_mode_time" := 60%Z]> (Profile.dust p0))
            (Profile.legacy p0)
       /\ match site_packages w with
          | Some entries =>
              site_packages w' =
              Some (List.filter (fun e => negb (is_leftover (fst e))) entries)
              /\ Forall
                   (fun r =>
                      r = (INFO, "delete_egg_dir_leftovers() Deleting dir: %s")
                      \/ r = (ERROR, "_compare_versions() One of the two version is invalid: lower_vers:{}, higher_vers:{}. ValueError from StrictVersion: {}"))
                   deletions
          | None =>
              site_packages w' = None
              /\ deletions =
                 [(ERROR, "delete_egg_dir_leftovers() Dir not existing '%s', Can't check for egg leftovers.")]
          end
       /\ executed w' = cmds ++ executed w
       /\ iptables cmds commands
       /\ logged w' =
          logged w0 ++
          [(INFO, "Starting migration from v{} to v{}");
           (INFO, "migrate_from_0_0_0() ");
           (INFO, "migrate_from_0_0_0() Set lasercutterProfile ['laser']['intensity_factor'] = 13");
           (INFO, "migrate_from_0_0_0() Set lasercutterProfile ['dust']['auto_mode_time'] = 60")] ++
          (INFO, "delete_egg_dir_leftovers() ") :: deletions ++
          (INFO, "setup_iptables() ") :: commands)
    /\ (settings_version w = Some "0.1.18" ->
        let self := mkMigration plugin (Some "0.1.18") "0.1.20" in
        let w0 :=
          snd ((profile_set <- is_lasercutterProfile_set self ;;
                if negb profile_set then set_lasercutterProfile self else ret tt) w) in
        exists w' cmds commands,
          migrate plugin w = (Ret tt, w')
          /\ settings_version w' = Some "0.1.20"
          /\ profiles w' = profiles w0
          /\ site_packages w' = site_packages w
          /\ executed w' = cmds ++ executed w
          /\ iptables cmds commands
          /\ logged w' =
             logged w0 ++
             (INFO, "Starting migration from v{} to v{}") ::
             (INFO, "setup_iptables() ") :: commands).
Proof.
  intros series w plugin write chmod load command failed iptables H1 H2 H3.
  destruct (run_gated_steps_program series w) as (P12 & P18 & _).
  fold plugin in P12, P18.
  split.
  - intros Hprev Hlisting self w0 p0.
    destruct (P12 Hprev) as [Hrun _]. fold self in Hrun.
    destruct (assign_profile_is_local self w) as (E0 & Hsp0 & Hpr0 & Hex0).
    fold w0 in E0, Hsp0, Hpr0, Hex0.
    set (w1 := with_logged (logged w0 ++ [(INFO, "Starting migration from v{} to v{}")]) w0).
    destruct (migrate_from_0_0_0_effect self w1)
      as (w2 & E2 & Hp2 & Hl2 & Hv2 & Hsp2 & Hpr2 & Hex2).
    assert (site_packages w2 = site_packages w) as Hsp2' by (rewrite Hsp2; exact Hsp0).
    destruct (delete_egg_dir_leftovers_effect self w2)
      as (w3 & deletions & E3 & Hl3 & Hsp3 & Hv3 & Hp3 & Hpr3 & Hex3).
    { intros entries Hsp. apply Hlisting. rewrite <- Hsp2'. exact Hsp. }
    rewrite Hsp2' in Hsp3.
    assert (processes w3 = processes w) as Hpr3' by (rewrite Hpr3, Hpr2; exact Hpr0).
    assert (executed w3 = executed w) as Hex3' by (rewrite Hex3, Hex2; exact Hex0).
    destruct (setup_iptables_effect self w3) as (cmds & commands & E4 & Hip);
      [rewrite Hpr3', Hex3'; exact H1 | rewrite Hpr3', Hex3'; exact H2
      | rewrite Hpr3', Hex3'; exact H3 |].
    exists (with_settings_version (Some "0.1.20")
              (with_logged (logged w3 ++ (INFO, "setup_iptables() ") :: commands)
                 (with_executed (cmds ++ executed w3) w3))),
      deletions, cmds, commands.
    split.
    { rewrite Hrun. apply try_except_returns.
      rewrite <- (bind_assoc (is_lasercutterProfile_set self)
                    (fun profile_set =>
                       if negb profile_set then set_lasercutterProfile self else ret tt)).
      unfold bind at 1. rewrite E0.
      unfold bind at 1. rewrite log_eq. fold w1.
      unfold bind at 1. rewrite E2.
      unfold bind at 1. rewrite E3.
      unfold bind at 1. rewrite E4.
      reflexivity. }
    cbn [settings_version profiles site_packages executed logged
           with_settings_version with_logged with_executed].
    split; [reflexivity|].
    split; [rewrite Hp3, Hp2; reflexivity|].
    split; [exact Hsp3|].
    split; [rewrite Hex3'; reflexivity|].
    split; [exact Hip|].
    rewrite Hl3, Hl2. subst w1. cbn [logged with_logged].
    rewrite <- !app_assoc. reflexivity.
  - intros Hprev self w0.
    destruct (P18 Hprev) as [Hrun _]. fold self in Hrun.
    destruct (assign_profile_is_local self w) as (E0 & Hsp0 & Hpr0 & Hex0).
    fold w0 in E0, Hsp0, Hpr0, Hex0.
    set (w1 := with_logged (logged w0 ++ [(INFO, "Starting migration from v{} to v{}")]) w0).
    destruct (setup_iptables_effect self w1) as (cmds & commands & E4 & Hip);
      [ change (processes w0 (executed w0) write <> NotStarted);
        rewrite Hpr0, Hex0; exact H1
      | change (processes w0 (write :: executed w0) chmod <> NotStarted);
        rewrite Hpr0, Hex0; exact H2
      | change (processes w0 (chmod :: write :: executed w0) load <> NotStarted);
        rewrite Hpr0, Hex0; exact H3 |].
    exists (with_settings_version (Some "0.1.20")
              (with_logged (logged w1 ++ (INFO, "setup_iptables() ") :: commands)
                 (with_executed (cmds ++ executed w1) w1))),
      cmds, commands.
    split.
    { rewrite Hrun. apply try_except_returns.
      rewrite <- (bind_assoc (is_lasercutterProfile_set self)
                    (fun profile_set =>
                       if negb profile_set then set_lasercutterProfile self else ret tt)).
      unfold bind at 1. rewrite E0.
      unfold bind at 1. rewrite log_eq. fold w1.
      unfold bind at 1. rewrite E4.
      reflexivity. }
    subst w1.
    cbn [settings_version profiles site_packages executed logged
           with_settings_version with_logged with_executed].
    split; [reflexivity|].
    split; [reflexivity|].
    split; [exact Hsp0|].
    split; [rewrite Hex0; reflexivity|].
    split; [exact Hip|].
    rewrite <- !app_assoc. reflexivity.
Qed.

Lemma run_executes_gated_steps_witness :
  (exists w' deletions cmds commands,
      migrate (mkPlugin "0.1.20" "2C") MoreExamples.device_0_1_12 = (Ret tt, w')
      /\ settings_version w' = Some "0.1.20"
      /\ Profile.laser (Profile.get_default (profiles w')) !! "intensity_factor" = Some 13%Z
      /\ Profile.dust (Profile.get_default (profiles w')) !! "auto_mode_time" = Some 60%Z
      /\ site_packages w' = Some [("Mr_Beam-0.1.20.dist", Directory)]
      /\ executed w' = cmds ++ []
      /\ logged w' =
         [(INFO, "Starting migration from v{} to v{}");
          (INFO, "migrate_from_0_0_0() ");
          (INFO, "migrate_from_0_0_0() Set lasercutterProfile ['laser']['intensity_factor'] = 13");
          (INFO, "migrate_from_0_0_0() Set lasercutterProfile ['dust']['auto_mode_time'] = 60")] ++
         (INFO, "delete_egg_dir_leftovers() ") :: deletions ++
         (INFO, "setup_iptables() ") :: commands)
  /\ (exists w' cmds commands,
         migrate (mkPlugin "0.1.20" "2C")
           (with_settings_version (Some "0.1.18") MoreExamples.device_0_1_12) = (Ret tt, w')
         /\ settings_version w' = Some "0.1.20"
         /\ profiles w' = profiles MoreExamples.device_0_1_12
         /\ site_packages w' = site_packages MoreExamples.device_0_1_12
         /\ executed w' = cmds ++ []
         /\ logged w' =
            (INFO, "Starting migration from v{} to v{}") ::
            (INFO, "setup_iptables() ") :: commands).
Proof.
  split.
  - destruct (proj1 (run_executes_gated_steps "2C" MoreExamples.device_0_1_12
                       ltac:(discriminate) ltac:(discriminate) ltac:(discriminate))
                eq_refl)
      as (w' & deletions & cmds & commands & E & Hv & Hp & Hsp & Hex & _ & Hlog).
    + intros entries [= <-]. split.
      * apply (bool_decide_unpack _). vm_compute. exact I.
      * intros f k [H|[H|[]]] _; injection H as _ <-; reflexivity.
    + exists w', deletions, cmds, commands.
      split; [exact E|]. split; [exact Hv|].
      split; [rewrite Hp; apply lookup_insert_eq|].
      split; [rewrite Hp; apply lookup_insert_eq|].
      split; [exact (proj1 Hsp)|]. split; [exact Hex | exact Hlog].
  - destruct (proj2 (run_executes_gated_steps "2C"
                       (with_settings_version (Some "0.1.18") MoreExamples.device_0_1_12)
                       ltac:(discriminate) ltac:(discriminate) ltac:(discriminate))
                eq_refl)
      as (w' & cmds & commands & E & Hv & Hp & Hsp & Hex & _ & Hlog).
    exists w', cmds, commands.
    split; [exact E|]. split; [exact Hv|]. split; [exact Hp|].
    split; [exact Hsp|]. split; [exact Hex | exact Hlog].
Defined.

(** What C1 leaves out: a step that raises. On the device of the witness
    with no [sudo] to start, [setup_iptables] raises [OSError] at its first
    command. [run] logs the exception and returns: from 0.1.12 the two
    earlier steps have run, from 0.1.18 nothing has; no command was
    executed and the stored version is still the old one. *)
Lemma run_abandoned_without_sudo :
  (fst (migrate (mkPlugin "0.1.20" "2C") MoreExamples.device_0_1_12_without_sudo) = Ret tt
   /\ settings_version
        (snd (migrate (mkPlugin "0.1.20" "2C") MoreExamples.device_0_1_12_without_sudo))
      = Some "0.1.12"
   /\ executed
        (snd (migrate (mkPlugin "0.1.20" "2C") MoreExamples.device_0_1_12_without_sudo))
      = []
   /\ logged
        (snd (migrate (mkPlugin "0.1.20" "2C") MoreExamples.device_0_1_12_without_sudo))
      = [(INFO, "Starting migration from v{} to v{}");
         (INFO, "migrate_from_0_0_0() ");
         (INFO, "migrate_from_0_0_0() Set lasercutterProfile ['laser']['intensity_factor'] = 13");
         (INFO, "migrate_from_0_0_0() Set lasercutterProfile ['dust']['auto_mode_time'] = 60");
         (INFO, "delete_egg_dir_leftovers() ");
         (INFO, "delete_egg_dir_leftovers() Deleting dir: %s");
         (INFO, "setup_iptables() ");
         (DEBUG, "_exec_cmd_output() command: '%s'");
         (EXCEPTION, "Unhandled exception during migration: ")])
  /\ (migrate (mkPlugin "0.1.20" "2C")
        (with_settings_version (Some "0.1.18") MoreExamples.device_0_1_12_without_sudo)
      = (Ret tt,
         with_logged
           [(INFO, "Starting migration from v{} to v{}");
            (INFO, "setup_iptables() ");
            (DEBUG, "_exec_cmd_output() command: '%s'");
            (EXCEPTION, "Unhandled exception during migration: ")]
           (with_settings_version (Some "0.1.18") MoreExamples.device_0_1_12_without_sudo))).
Proof. repeat split; vm_compute; reflexivity. Qed.

End GatedSteps.
